(** * quick_setup.py: the one-click scaffolding script

    A shallow embedding of [src/quick_setup.py].  The script prints a banner,
    waits for Enter, writes sixteen template files, shells out to git, gh and
    vercel, and prints a summary.  Everything it does to the outside world is
    recorded as a trace of events; everything the outside world does to it
    (what [input()] returns, whether a directory can be made, how a child
    process ends) is supplied by an environment that the theorems quantify
    over. *)

From Stdlib Require Import ZArith Lia Ascii String.
From stdpp Require Import base gmap strings list sorting pretty.

Open Scope string_scope.
Open Scope list_scope.

(** ** Strings as Python uses them here

    A Python [str] is modelled by the bytes of its UTF-8 encoding. *)

Module Str.

(** The double quote and the newline, which a literal cannot hold. *)
Definition dq : string := String (ascii_of_nat 34) EmptyString.
Definition nl : string := String (ascii_of_nat 10) EmptyString.

(** [sep.join(lines)] with [sep] a newline: how the triple-quoted literals
    of the script are written down below, one source line per element. *)
Definition unlines (ls : list string) : string := String.concat nl ls.

(** [s * n] *)
Fixpoint str_repeat (s : string) (n : nat) : string :=
  match n with
  | O => ""
  | S n' => s +:+ str_repeat s n'
  end.

(** [sub in s] *)
Fixpoint contains (sub s : string) : bool :=
  String.prefix sub s ||
  match s with
  | EmptyString => false
  | String _ s' => contains sub s'
  end.

(** [s.split(sep)] for a one-character separator: never the empty list. *)
Fixpoint split_on (sep : ascii) (s : string) : list string :=
  match s with
  | EmptyString => [""]
  | String c s' =>
      if Ascii.eqb c sep then "" :: split_on sep s'
      else match split_on sep s' with
           | x :: xs => String c x :: xs
           | [] => [String c ""]
           end
  end.

Definition bytes_of (s : string) : list N := map N_of_ascii (list_ascii_of_string s).
Definition of_bytes (bs : list N) : string := string_of_list_ascii (map ascii_of_N bs).

Definition between (lo hi b : N) : bool := (lo <=? b)%N && (b <=? hi)%N.

(** White space is what [str.isspace] accepts: U+0009..U+000D,
    U+001C..U+0020, U+0085, U+00A0, U+1680, U+2000..U+200A, U+2028, U+2029,
    U+202F, U+205F and U+3000; in UTF-8 a character of one, two or three
    bytes. *)
Definition space1 (b : N) : bool := between 9 13 b || between 28 32 b.

Definition space2 (b c : N) : bool :=
  (b =? 194)%N && ((c =? 133)%N || (c =? 160)%N).

Definition space3 (b c d : N) : bool :=
  ((b =? 225)%N && (c =? 154)%N && (d =? 128)%N)
  || ((b =? 226)%N && (c =? 128)%N &&
      (between 128 138 d || (d =? 168)%N || (d =? 169)%N || (d =? 175)%N))
  || ((b =? 226)%N && (c =? 129)%N && (d =? 159)%N)
  || ((b =? 227)%N && (c =? 128)%N && (d =? 128)%N).

(** Length in bytes of the white-space character the byte sequence starts
    with, 0 when it starts with none. *)
Definition space_at_head (bs : list N) : nat :=
  match bs with
  | b :: rest =>
      if space1 b then 1
      else match rest with
           | c :: rest' =>
               if space2 b c then 2
               else match rest' with
                    | d :: _ => if space3 b c d then 3 else 0
                    | [] => 0
                    end
           | [] => 0
           end
  | [] => 0
  end.

(** The same for the end of the sequence, given back to front: the last
    byte alone, the last two bytes, or the last three.  A UTF-8 lead byte
    starts a character, so a match of the last two or three bytes is a
    whole character. *)
Definition space_at_tail (rbs : list N) : nat :=
  match rbs with
  | d :: rest =>
      if space1 d then 1
      else match rest with
           | c :: rest' =>
               if space2 c d then 2
               else match rest' with
                    | b :: _ => if space3 b c d then 3 else 0
                    | [] => 0
                    end
           | [] => 0
           end
  | [] => 0
  end.

Fixpoint strip_with (at_end : list N -> nat) (fuel : nat) (bs : list N) : list N :=
  match fuel with
  | O => bs
  | S fuel' =>
      match at_end bs with
      | O => bs
      | k => strip_with at_end fuel' (drop k bs)
      end
  end.

(** [s.strip()] *)
Definition strip (s : string) : string :=
  let bs := bytes_of s in
  let l := strip_with space_at_head (length bs) bs in
  of_bytes (rev (strip_with space_at_tail (length l) (rev l))).

Fixpoint drop_while {A} (p : A -> bool) (l : list A) : list A :=
  match l with
  | [] => []
  | x :: l' => if p x then drop_while p l' else l
  end.

Definition is_slash (c : ascii) : bool := Ascii.eqb c "/"%char.

(** [os.path.dirname(p)] of posixpath: the part up to and including the
    last slash, with its trailing slashes removed unless it is all
    slashes. *)
Definition dirname (p : string) : string :=
  let head := rev (drop_while (fun c => negb (is_slash c)) (rev (list_ascii_of_string p))) in
  if forallb is_slash head then string_of_list_ascii head
  else string_of_list_ascii (rev (drop_while is_slash (rev head))).

(** Truth value of a [str]: non-empty. *)
Definition truthy (s : string) : bool :=
  match s with
  | EmptyString => false
  | String _ _ => true
  end.

End Str.
Import Str.

(** ** The Python runtime the script runs on *)

Module Py.

(** Exceptions, as far as the script's [except] clauses tell them apart.
    [KeyboardInterrupt] and [SystemExit] derive from [BaseException]
    only; the others are instances of [Exception]. *)
Inductive exn :=
| KeyboardInterrupt
| SystemExit (code : Z)
| FileNotFoundError (text : string)
| CalledProcessError (returncode : Z) (cmd : list string)
| OtherException (cls : string) (text : string).

Definition is_KeyboardInterrupt (e : exn) : bool :=
  match e with KeyboardInterrupt => true | _ => false end.

Definition is_Exception (e : exn) : bool :=
  match e with KeyboardInterrupt | SystemExit _ => false | _ => true end.

Definition is_FileNotFoundError (e : exn) : bool :=
  match e with FileNotFoundError _ => true | _ => false end.

(** A bare [except:] *)
Definition any_exception (e : exn) : bool := true.

Inductive outcome (A : Type) :=
| Ok (a : A)
| Raise (e : exn).
Arguments Ok {A} a.
Arguments Raise {A} e.

(** [subprocess.CompletedProcess], the two attributes the script reads. *)
Record CompletedProcess := { returncode : Z; stdout : string }.

(** What the script does to the outside world, with what came back. *)
Inductive event :=
| EPrint (s : string)
| EInput (r : outcome string)
| EMkdir (d : string) (r : outcome unit)
| EOpen (path mode : string) (r : outcome unit)
| EWrite (path content : string) (r : outcome unit)
| ERun (argv : list string) (r : outcome CompletedProcess).

(** The outside world.  Each answer may depend on everything that has
    happened so far.  [cpe_str] is the text [str()] gives a
    [CalledProcessError] built by [subprocess.run(..., check=True)]. *)
Record Env := {
  on_input : list event -> outcome string;
  on_mkdir : list event -> string -> outcome unit;
  on_open : list event -> string -> string -> outcome unit;
  on_write : list event -> string -> string -> outcome unit;
  on_run : list event -> list string -> outcome CompletedProcess;
  cpe_str : Z -> list string -> string
}.

(** A computation over an object of type [S]: from the object and the
    history of the process to an outcome, the object afterwards and the
    events the computation itself added. *)
Definition Py (S A : Type) : Type :=
  S -> list event -> outcome A * S * list event.

Section Ops.
Context {S : Type}.

Definition ret {A} (a : A) : Py S A := fun s _ => (Ok a, s, []).

Definition raise {A} (e : exn) : Py S A := fun s _ => (Raise e, s, []).

Definition bind {A B} (m : Py S A) (k : A -> Py S B) : Py S B :=
  fun s h =>
    match m s h with
    | (Ok a, s1, t1) =>
        let '(r, s2, t2) := k a s1 (h ++ t1) in (r, s2, t1 ++ t2)
    | (Raise e, s1, t1) => (Raise e, s1, t1)
    end.

Definition get_self : Py S S := fun s _ => (Ok s, s, []).

Definition set_self (s' : S) : Py S unit := fun _ _ => (Ok tt, s', []).

(** [try: m except C1: k1 except C2: k2 ...]: the first clause whose
    class accepts the exception runs; with none the exception goes on. *)
Fixpoint dispatch {A} (clauses : list ((exn -> bool) * (exn -> Py S A))) (e : exn)
  : option (Py S A) :=
  match clauses with
  | [] => None
  | (accepts, k) :: rest => if accepts e then Some (k e) else dispatch rest e
  end.

Definition try_except {A} (m : Py S A)
    (clauses : list ((exn -> bool) * (exn -> Py S A))) : Py S A :=
  fun s h =>
    match m s h with
    | (Ok a, s1, t1) => (Ok a, s1, t1)
    | (Raise e, s1, t1) =>
        match dispatch clauses e with
        | Some k => let '(r, s2, t2) := k s1 (h ++ t1) in (r, s2, t1 ++ t2)
        | None => (Raise e, s1, t1)
        end
    end.

(** [for x in l: body(x)] *)
Fixpoint for_each {A} (l : list A) (body : A -> Py S unit) : Py S unit :=
  match l with
  | [] => ret tt
  | x :: l' => bind (body x) (fun _ => for_each l' body)
  end.

(** [print(s)], on a standard output that takes the text.  The runs
    described here are those in which every [print] returns: a standard
    output that is closed, or that cannot encode the text, is not
    modelled. *)
Definition print (s : string) : Py S unit := fun st _ => (Ok tt, st, [EPrint s]).

(** [sys.exit(code)] *)
Definition sys_exit {A} (code : Z) : Py S A := raise (SystemExit code).

Section World.
Variable env : Env.

Definition input : Py S string :=
  fun st h => let r := on_input env h in (r, st, [EInput r]).

(** [Path(d).mkdir(parents=True, exist_ok=True)] *)
Definition mkdir_parents (d : string) : Py S unit :=
  fun st h => let r := on_mkdir env h d in (r, st, [EMkdir d r]).

Definition open_file (path mode : string) : Py S unit :=
  fun st h => let r := on_open env h path mode in (r, st, [EOpen path mode r]).

(** [f.write(content)] and the close at the end of the [with] block *)
Definition write_file (path content : string) : Py S unit :=
  fun st h => let r := on_write env h path content in (r, st, [EWrite path content r]).

(** What [check=True] makes of the end of the child process: a non-zero
    return code becomes [CalledProcessError]. *)
Definition checked (argv : list string) (r : outcome CompletedProcess)
  : outcome CompletedProcess :=
  match r with
  | Ok cp =>
      if (returncode cp =? 0)%Z then Ok cp
      else Raise (CalledProcessError (returncode cp) argv)
  | Raise e => Raise e
  end.

(** [subprocess.run(argv, check=check)] *)
Definition subprocess_run (argv : list string) (check : bool) : Py S CompletedProcess :=
  fun st h =>
    let r := on_run env h argv in
    (if check then checked argv r else r, st, [ERun argv r]).

(** [str(e)] *)
Definition str_exn (e : exn) : string :=
  match e with
  | KeyboardInterrupt => ""
  | SystemExit code => pretty code
  | FileNotFoundError text => text
  | CalledProcessError rc cmd => cpe_str env rc cmd
  | OtherException _ text => text
  end.
End World.
End Ops.

Module Notations.
Declare Scope py_scope.
Delimit Scope py_scope with py.
Notation "x <- m ;; k" := (bind m (fun x => k))
  (at level 100, m at next level, k at level 200, right associativity) : py_scope.
Notation "m ;; k" := (bind m (fun _ => k))
  (at level 100, k at level 200, right associativity) : py_scope.
End Notations.

End Py.
Import Py Py.Notations.
Open Scope py_scope.

(** ** The literals of the script

    Each triple-quoted literal of [quick_setup.py], one source line per list
    element, joined by newlines. *)

Module Text.

(** The local [banner] of [print_banner] (lines 21-41 of quick_setup.py). *)
Definition banner_text : string := unlines [
  "";
  "╔══════════════════════════════════════════════════════════════════════════════╗";
  "║                                                                              ║";
  "║  🚀💰 AUTONOMOUS REVENUE SYSTEM - ONE-CLICK SETUP 💰🚀                     ║";
  "║                                                                              ║";
  "║  Ultra-Fast Scaling • AI-Powered • $1,000+ Daily Revenue                   ║";
  "║                                                                              ║";
  "╚══════════════════════════════════════════════════════════════════════════════╝";
  "";
  "🎯 This script will:";
  "  ✅ Create complete project structure";
  "  ✅ Generate all necessary files ";
  "  ✅ Setup GitHub repository";
  "  ✅ Deploy to Vercel";
  "  ✅ Configure environment";
  "";
  "⏱️  Setup time: ~5 minutes";
  "🎊 Result: Fully operational revenue system";
  "";
  "Press Enter to continue or Ctrl+C to cancel...";
  "        "
].

(** The literal returned by [get_launch_api] (lines 103-148 of quick_setup.py). *)
Definition launch_api_text : string := unlines [
  dq +:+ dq +:+ dq +:+ "Vercel API endpoint for system launch" +:+ dq +:+ dq +:+ dq;
  "import json";
  "from http.server import BaseHTTPRequestHandler";
  "from datetime import datetime";
  "";
  "class handler(BaseHTTPRequestHandler):";
  "    def do_POST(self):";
  "        self.send_response(200)";
  "        self.send_header('Content-type', 'application/json')";
  "        self.send_header('Access-Control-Allow-Origin', '*')";
  "        self.end_headers()";
  "        ";
  "        response = {";
  "            'status': 'success',";
  "            'message': 'System launched successfully',";
  "            'launch_time': datetime.now().isoformat(),";
  "            'components': {";
  "                'ai_brain': 'active',";
  "                'revenue_tracker': 'active',";
  "                'scaling_engine': 'active'";
  "            }";
  "        }";
  "        ";
  "        self.wfile.write(json.dumps(response).encode())";
  "    ";
  "    def do_GET(self):";
  "        self.send_response(200)";
  "        self.send_header('Content-type', 'application/json')";
  "        self.send_header('Access-Control-Allow-Origin', '*')";
  "        self.end_headers()";
  "        ";
  "        response = {";
  "            'status': 'operational',";
  "            'launched': True,";
  "            'timestamp': datetime.now().isoformat()";
  "        }";
  "        ";
  "        self.wfile.write(json.dumps(response).encode())";
  "    ";
  "    def do_OPTIONS(self):";
  "        self.send_response(200)";
  "        self.send_header('Access-Control-Allow-Origin', '*')";
  "        self.send_header('Access-Control-Allow-Methods', 'GET, POST, OPTIONS')";
  "        self.send_header('Access-Control-Allow-Headers', 'Content-Type')";
  "        self.end_headers()";
  ""
].

(** The literal returned by [get_scaling_api] (lines 152-198 of quick_setup.py). *)
Definition scaling_api_text : string := unlines [
  dq +:+ dq +:+ dq +:+ "Vercel API endpoint for ultra-fast scaling" +:+ dq +:+ dq +:+ dq;
  "import json";
  "import asyncio";
  "from http.server import BaseHTTPRequestHandler";
  "from datetime import datetime";
  "";
  "class handler(BaseHTTPRequestHandler):";
  "    def do_POST(self):";
  "        self.send_response(200)";
  "        self.send_header('Content-type', 'application/json')";
  "        self.send_header('Access-Control-Allow-Origin', '*')";
  "        self.end_headers()";
  "        ";
  "        response = {";
  "            'status': 'success',";
  "            'scaling_candidates': 2,";
  "            'execution_results': {";
  "                'executed_actions': 3,";
  "                'total_investment': 750,";
  "                'expected_return': 2250,";
  "                'success_rate': 95.5";
  "            },";
  "            'execution_time': 0.8";
  "        }";
  "        ";
  "        self.wfile.write(json.dumps(response).encode())";
  "    ";
  "    def do_GET(self):";
  "        self.send_response(200)";
  "        self.send_header('Content-type', 'application/json')";
  "        self.send_header('Access-Control-Allow-Origin', '*')";
  "        self.end_headers()";
  "        ";
  "        response = {";
  "            'status': 'operational',";
  "            'scaling_engine': 'active'";
  "        }";
  "        ";
  "        self.wfile.write(json.dumps(response).encode())";
  "    ";
  "    def do_OPTIONS(self):";
  "        self.send_response(200)";
  "        self.send_header('Access-Control-Allow-Origin', '*')";
  "        self.send_header('Access-Control-Allow-Methods', 'GET, POST, OPTIONS')";
  "        self.send_header('Access-Control-Allow-Headers', 'Content-Type')";
  "        self.end_headers()";
  ""
].

(** The literal returned by [get_status_api] (lines 202-233 of quick_setup.py). *)
Definition status_api_text : string := unlines [
  dq +:+ dq +:+ dq +:+ "Vercel API endpoint for system status" +:+ dq +:+ dq +:+ dq;
  "import json";
  "from http.server import BaseHTTPRequestHandler";
  "from datetime import datetime";
  "";
  "class handler(BaseHTTPRequestHandler):";
  "    def do_GET(self):";
  "        self.send_response(200)";
  "        self.send_header('Content-type', 'application/json')";
  "        self.send_header('Access-Control-Allow-Origin', '*')";
  "        self.end_headers()";
  "        ";
  "        response = {";
  "            'status': 'operational',";
  "            'revenue': 1247.83,";
  "            'patterns_learned': 127,";
  "            'optimizations': 34,";
  "            'daily_target': 1000,";
  "            'success_rate': 94.5,";
  "            'uptime': 28472,";
  "            'last_update': datetime.now().isoformat()";
  "        }";
  "        ";
  "        self.wfile.write(json.dumps(response).encode())";
  "    ";
  "    def do_OPTIONS(self):";
  "        self.send_response(200)";
  "        self.send_header('Access-Control-Allow-Origin', '*')";
  "        self.send_header('Access-Control-Allow-Methods', 'GET, POST, OPTIONS')";
  "        self.send_header('Access-Control-Allow-Headers', 'Content-Type')";
  "        self.end_headers()";
  ""
].

(** The literal returned by [get_ai_learning_api] (lines 237-282 of quick_setup.py). *)
Definition ai_learning_api_text : string := unlines [
  dq +:+ dq +:+ dq +:+ "Vercel API endpoint for AI learning system" +:+ dq +:+ dq +:+ dq;
  "import json";
  "from http.server import BaseHTTPRequestHandler";
  "from datetime import datetime";
  "";
  "class handler(BaseHTTPRequestHandler):";
  "    def do_POST(self):";
  "        self.send_response(200)";
  "        self.send_header('Content-type', 'application/json')";
  "        self.send_header('Access-Control-Allow-Origin', '*')";
  "        self.end_headers()";
  "        ";
  "        response = {";
  "            'status': 'learning',";
  "            'patterns_discovered': 5,";
  "            'optimizations_generated': 3,";
  "            'learning_improvement': 1.2,";
  "            'recommendations': [";
  "                {'type': 'high_impact', 'message': 'Increase ad spend on high-performing campaigns'},";
  "                {'type': 'optimization', 'message': 'A/B test new landing page design'}";
  "            ]";
  "        }";
  "        ";
  "        self.wfile.write(json.dumps(response).encode())";
  "    ";
  "    def do_GET(self):";
  "        self.send_response(200)";
  "        self.send_header('Content-type', 'application/json')";
  "        self.send_header('Access-Control-Allow-Origin', '*')";
  "        self.end_headers()";
  "        ";
  "        response = {";
  "            'status': 'learning',";
  "            'patterns_learned': 156,";
  "            'learning_velocity': 1.3";
  "        }";
  "        ";
  "        self.wfile.write(json.dumps(response).encode())";
  "    ";
  "    def do_OPTIONS(self):";
  "        self.send_response(200)";
  "        self.send_header('Access-Control-Allow-Origin', '*')";
  "        self.send_header('Access-Control-Allow-Methods', 'GET, POST, OPTIONS')";
  "        self.send_header('Access-Control-Allow-Headers', 'Content-Type')";
  "        self.end_headers()";
  ""
].

(** The literal returned by [get_dashboard_html] (lines 286-450 of quick_setup.py). *)
Definition dashboard_html_text : string := unlines [
  "<!DOCTYPE html>";
  "<html lang=" +:+ dq +:+ "en" +:+ dq +:+ ">";
  "<head>";
  "    <meta charset=" +:+ dq +:+ "UTF-8" +:+ dq +:+ ">";
  "    <meta name=" +:+ dq +:+ "viewport" +:+ dq +:+ " content=" +:+ dq +:+ "width=device-width, initial-scale=1.0" +:+ dq +:+ ">";
  "    <title>🚀 Autonomous Revenue System</title>";
  "    <style>";
  "        * { margin: 0; padding: 0; box-sizing: border-box; }";
  "        body {";
  "            font-family: -apple-system, BlinkMacSystemFont, 'Segoe UI', sans-serif;";
  "            background: linear-gradient(135deg, #667eea 0%, #764ba2 50%, #f093fb 100%);";
  "            min-height: 100vh;";
  "            color: white;";
  "        }";
  "        .container { max-width: 1200px; margin: 0 auto; padding: 20px; }";
  "        .header { text-align: center; margin-bottom: 40px; }";
  "        .header h1 {";
  "            font-size: 3rem;";
  "            margin-bottom: 15px;";
  "            background: linear-gradient(45deg, #ff6b6b, #feca57, #48cae4, #06ffa5);";
  "            -webkit-background-clip: text;";
  "            -webkit-text-fill-color: transparent;";
  "        }";
  "        .revenue-display {";
  "            font-size: 4rem;";
  "            font-weight: bold;";
  "            color: #00ff88;";
  "            text-align: center;";
  "            margin: 20px 0;";
  "            text-shadow: 0 0 30px rgba(0,255,136,0.6);";
  "        }";
  "        .launch-btn {";
  "            background: linear-gradient(45deg, #ff6b6b, #feca57);";
  "            border: none;";
  "            padding: 20px 60px;";
  "            font-size: 1.5rem;";
  "            font-weight: bold;";
  "            border-radius: 50px;";
  "            color: white;";
  "            cursor: pointer;";
  "            transition: all 0.3s ease;";
  "            box-shadow: 0 10px 30px rgba(0,0,0,0.3);";
  "        }";
  "        .launch-btn:hover {";
  "            transform: translateY(-5px) scale(1.05);";
  "        }";
  "        .dashboard-grid {";
  "            display: grid;";
  "            grid-template-columns: repeat(auto-fit, minmax(300px, 1fr));";
  "            gap: 25px;";
  "            margin-top: 40px;";
  "        }";
  "        .card {";
  "            background: rgba(255,255,255,0.1);";
  "            backdrop-filter: blur(15px);";
  "            border-radius: 20px;";
  "            padding: 30px;";
  "            box-shadow: 0 8px 32px rgba(0,0,0,0.2);";
  "        }";
  "        .metric { display: flex; justify-content: space-between; margin: 15px 0; }";
  "        .metric-value { font-size: 1.5rem; font-weight: bold; color: #00ff88; }";
  "    </style>";
  "</head>";
  "<body>";
  "    <div class=" +:+ dq +:+ "container" +:+ dq +:+ ">";
  "        <div class=" +:+ dq +:+ "header" +:+ dq +:+ ">";
  "            <h1>🚀💰 AUTONOMOUS REVENUE SYSTEM 💰🚀</h1>";
  "            <p>Ultra-Fast Scaling • AI-Powered • $1,000+ Daily Revenue</p>";
  "        </div>";
  "        ";
  "        <div style=" +:+ dq +:+ "text-align: center;" +:+ dq +:+ ">";
  "            <div class=" +:+ dq +:+ "revenue-display" +:+ dq +:+ " id=" +:+ dq +:+ "revenue" +:+ dq +:+ ">$0.00</div>";
  "            <button class=" +:+ dq +:+ "launch-btn" +:+ dq +:+ " onclick=" +:+ dq +:+ "launchSystem()" +:+ dq +:+ ">";
  "                🚀 LAUNCH SYSTEM 🚀";
  "            </button>";
  "            <p id=" +:+ dq +:+ "status" +:+ dq +:+ ">Ready to generate $1,000+ daily revenue automatically</p>";
  "        </div>";
  "        ";
  "        <div class=" +:+ dq +:+ "dashboard-grid" +:+ dq +:+ ">";
  "            <div class=" +:+ dq +:+ "card" +:+ dq +:+ ">";
  "                <h3>💰 Revenue Metrics</h3>";
  "                <div class=" +:+ dq +:+ "metric" +:+ dq +:+ ">";
  "                    <span>Current Revenue:</span>";
  "                    <span class=" +:+ dq +:+ "metric-value" +:+ dq +:+ " id=" +:+ dq +:+ "currentRevenue" +:+ dq +:+ ">$0.00</span>";
  "                </div>";
  "                <div class=" +:+ dq +:+ "metric" +:+ dq +:+ ">";
  "                    <span>Daily Target:</span>";
  "                    <span class=" +:+ dq +:+ "metric-value" +:+ dq +:+ ">$1,000</span>";
  "                </div>";
  "            </div>";
  "            ";
  "            <div class=" +:+ dq +:+ "card" +:+ dq +:+ ">";
  "                <h3>🧠 AI Learning</h3>";
  "                <div class=" +:+ dq +:+ "metric" +:+ dq +:+ ">";
  "                    <span>Patterns Learned:</span>";
  "                    <span class=" +:+ dq +:+ "metric-value" +:+ dq +:+ " id=" +:+ dq +:+ "patterns" +:+ dq +:+ ">0</span>";
  "                </div>";
  "                <div class=" +:+ dq +:+ "metric" +:+ dq +:+ ">";
  "                    <span>Optimizations:</span>";
  "                    <span class=" +:+ dq +:+ "metric-value" +:+ dq +:+ " id=" +:+ dq +:+ "optimizations" +:+ dq +:+ ">0</span>";
  "                </div>";
  "            </div>";
  "            ";
  "            <div class=" +:+ dq +:+ "card" +:+ dq +:+ ">";
  "                <h3>⚡ Scaling Engine</h3>";
  "                <div class=" +:+ dq +:+ "metric" +:+ dq +:+ ">";
  "                    <span>Success Rate:</span>";
  "                    <span class=" +:+ dq +:+ "metric-value" +:+ dq +:+ " id=" +:+ dq +:+ "successRate" +:+ dq +:+ ">0%</span>";
  "                </div>";
  "                <button class=" +:+ dq +:+ "launch-btn" +:+ dq +:+ " onclick=" +:+ dq +:+ "triggerScaling()" +:+ dq +:+ " style=" +:+ dq +:+ "font-size: 1rem; padding: 10px 20px;" +:+ dq +:+ ">";
  "                    🚀 Trigger Scaling";
  "                </button>";
  "            </div>";
  "        </div>";
  "    </div>";
  "    ";
  "    <script>";
  "        const API_BASE = window.location.origin + '/api';";
  "        let revenue = 0;";
  "        ";
  "        async function launchSystem() {";
  "            try {";
  "                const response = await fetch(`${API_BASE}/launch`, { method: 'POST' });";
  "                const result = await response.json();";
  "                ";
  "                document.getElementById('status').textContent = 'System Operational!';";
  "                startUpdates();";
  "            } catch (error) {";
  "                console.error('Launch error:', error);";
  "                document.getElementById('status').textContent = 'System Active (Demo Mode)';";
  "                startUpdates();";
  "            }";
  "        }";
  "        ";
  "        async function triggerScaling() {";
  "            try {";
  "                const response = await fetch(`${API_BASE}/scaling`, { method: 'POST' });";
  "                const result = await response.json();";
  "                document.getElementById('status').textContent = 'Scaling Executed Successfully!';";
  "            } catch (error) {";
  "                document.getElementById('status').textContent = 'Scaling Triggered (Demo Mode)';";
  "            }";
  "        }";
  "        ";
  "        function startUpdates() {";
  "            setInterval(() => {";
  "                revenue += Math.random() * 50 + 20;";
  "                document.getElementById('revenue').textContent = `$${revenue.toFixed(2)}`;";
  "                document.getElementById('currentRevenue').textContent = `$${revenue.toFixed(2)}`;";
  "                ";
  "                const patterns = parseInt(document.getElementById('patterns').textContent) + Math.floor(Math.random() * 3) + 1;";
  "                document.getElementById('patterns').textContent = patterns;";
  "                ";
  "                if (patterns % 5 === 0) {";
  "                    const optimizations = parseInt(document.getElementById('optimizations').textContent) + 1;";
  "                    document.getElementById('optimizations').textContent = optimizations;";
  "                }";
  "                ";
  "                const successRate = Math.min(85 + patterns * 0.1, 99);";
  "                document.getElementById('successRate').textContent = `${successRate.toFixed(1)}%`;";
  "            }, 3000);";
  "        }";
  "    </script>";
  "</body>";
  "</html>"
].

(** The literal returned by [get_scaling_engine] (lines 454-486 of quick_setup.py). *)
Definition scaling_engine_text : string := unlines [
  dq +:+ dq +:+ dq +:+ "Ultra-Fast Scaling Engine - Core Module" +:+ dq +:+ dq +:+ dq;
  "import os";
  "import json";
  "from datetime import datetime";
  "";
  "class UltraFastScalingEngine:";
  "    def __init__(self):";
  "        self.performance_metrics = {";
  "            'scales_executed': 0,";
  "            'success_rate': 95.0,";
  "            'total_revenue_increase': 0,";
  "            'last_optimization': datetime.now().isoformat()";
  "        }";
  "    ";
  "    def get_performance_metrics(self):";
  "        return self.performance_metrics";
  "    ";
  "    async def run_scaling_cycle(self, products):";
  "        return {";
  "            'status': 'success',";
  "            'scaling_candidates': len(products),";
  "            'execution_results': {";
  "                'executed_actions': 2,";
  "                'total_investment': 500,";
  "                'expected_return': 1500,";
  "                'success_rate': 95";
  "            },";
  "            'execution_time': 0.5";
  "        }";
  "";
  "def get_scaling_engine():";
  "    return UltraFastScalingEngine()";
  ""
].

(** The literal returned by [get_config_utils] (lines 490-499 of quick_setup.py). *)
Definition config_utils_text : string := unlines [
  dq +:+ dq +:+ dq +:+ "Configuration utilities" +:+ dq +:+ dq +:+ dq;
  "import os";
  "";
  "class Config:";
  "    DAILY_TARGET = float(os.getenv('DAILY_TARGET', '1000'))";
  "    OPENAI_API_KEY = os.getenv('OPENAI_API_KEY')";
  "    EMAIL_USER = os.getenv('EMAIL_USER')";
  "    EMAIL_PASS = os.getenv('EMAIL_PASS')";
  "    AUTO_SCALING_ENABLED = os.getenv('AUTO_SCALING_ENABLED', 'true').lower() == 'true'";
  ""
].

(** The literal returned by [get_vercel_config] (lines 503-514 of quick_setup.py). *)
Definition vercel_config_text : string := unlines [
  "{";
  "  " +:+ dq +:+ "version" +:+ dq +:+ ": 2,";
  "  " +:+ dq +:+ "name" +:+ dq +:+ ": " +:+ dq +:+ "autonomous-revenue-system" +:+ dq +:+ ",";
  "  " +:+ dq +:+ "builds" +:+ dq +:+ ": [";
  "    { " +:+ dq +:+ "src" +:+ dq +:+ ": " +:+ dq +:+ "api/**/*.py" +:+ dq +:+ ", " +:+ dq +:+ "use" +:+ dq +:+ ": " +:+ dq +:+ "@vercel/python" +:+ dq +:+ " },";
  "    { " +:+ dq +:+ "src" +:+ dq +:+ ": " +:+ dq +:+ "frontend/**" +:+ dq +:+ ", " +:+ dq +:+ "use" +:+ dq +:+ ": " +:+ dq +:+ "@vercel/static" +:+ dq +:+ " }";
  "  ],";
  "  " +:+ dq +:+ "routes" +:+ dq +:+ ": [";
  "    { " +:+ dq +:+ "src" +:+ dq +:+ ": " +:+ dq +:+ "/api/(.*" +:+ ")" +:+ dq +:+ ", " +:+ dq +:+ "dest" +:+ dq +:+ ": " +:+ dq +:+ "/api/$1" +:+ dq +:+ " },";
  "    { " +:+ dq +:+ "src" +:+ dq +:+ ": " +:+ dq +:+ "/(.*" +:+ ")" +:+ dq +:+ ", " +:+ dq +:+ "dest" +:+ dq +:+ ": " +:+ dq +:+ "/frontend/$1" +:+ dq +:+ " }";
  "  ]";
  "}"
].

(** The literal returned by [get_package_json] (lines 518-529 of quick_setup.py). *)
Definition package_json_text : string := unlines [
  "{";
  "  " +:+ dq +:+ "name" +:+ dq +:+ ": " +:+ dq +:+ "autonomous-revenue-system" +:+ dq +:+ ",";
  "  " +:+ dq +:+ "version" +:+ dq +:+ ": " +:+ dq +:+ "2.0.0" +:+ dq +:+ ",";
  "  " +:+ dq +:+ "description" +:+ dq +:+ ": " +:+ dq +:+ "Ultra-fast scaling autonomous revenue system" +:+ dq +:+ ",";
  "  " +:+ dq +:+ "scripts" +:+ dq +:+ ": {";
  "    " +:+ dq +:+ "dev" +:+ dq +:+ ": " +:+ dq +:+ "vercel dev" +:+ dq +:+ ",";
  "    " +:+ dq +:+ "deploy" +:+ dq +:+ ": " +:+ dq +:+ "vercel --prod" +:+ dq +:+ ",";
  "    " +:+ dq +:+ "test" +:+ dq +:+ ": " +:+ dq +:+ "echo 'Tests passed'" +:+ dq;
  "  },";
  "  " +:+ dq +:+ "keywords" +:+ dq +:+ ": [" +:+ dq +:+ "revenue" +:+ dq +:+ ", " +:+ dq +:+ "automation" +:+ dq +:+ ", " +:+ dq +:+ "ai" +:+ dq +:+ ", " +:+ dq +:+ "scaling" +:+ dq +:+ "],";
  "  " +:+ dq +:+ "license" +:+ dq +:+ ": " +:+ dq +:+ "MIT" +:+ dq;
  "}"
].

(** The literal returned by [get_requirements] (lines 533-537 of quick_setup.py). *)
Definition requirements_text : string := unlines [
  "# Core dependencies";
  "aiohttp==3.8.6";
  "requests==2.31.0";
  "python-dotenv==1.0.0";
  ""
].

(** The literal returned by [get_env_example] (lines 541-547 of quick_setup.py). *)
Definition env_example_text : string := unlines [
  "# Autonomous Revenue System Configuration";
  "OPENAI_API_KEY=sk-your-openai-key-here";
  "EMAIL_USER=your-email@gmail.com";
  "EMAIL_PASS=your-app-password";
  "DAILY_TARGET=1000";
  "AUTO_SCALING_ENABLED=true";
  ""
].

(** The literal returned by [get_readme] (lines 551-580 of quick_setup.py). *)
Definition readme_text : string := unlines [
  "# 🚀 Autonomous Revenue System v2.0";
  "";
  "**Ultra-Fast Scaling AI-Powered Revenue System**";
  "";
  "## Quick Start";
  "";
  "1. **Deploy to Vercel**: Click the deploy button";
  "2. **Configure Environment**: Add your API keys in Vercel dashboard";
  "3. **Launch System**: Click the big launch button";
  "4. **Monitor Revenue**: Watch your automated income grow";
  "";
  "## Environment Variables";
  "";
  "- `OPENAI_API_KEY`: Your OpenAI API key";
  "- `EMAIL_USER`: Your email for notifications";
  "- `EMAIL_PASS`: Your email app password";
  "- `DAILY_TARGET`: Daily revenue target (default: 1000)";
  "";
  "## Features";
  "";
  "- ⚡ Ultra-fast scaling (< 0.5s execution)";
  "- 🧠 AI-powered optimization";
  "- 💰 Real-time revenue tracking";
  "- 📈 Automated growth strategies";
  "- 🎯 $1,000+ daily revenue potential";
  "";
  "## Support";
  "";
  "For issues and questions, check the GitHub repository.";
  ""
].

(** The literal returned by [get_github_workflow] (lines 584-598 of quick_setup.py). *)
Definition github_workflow_text : string := unlines [
  "name: Deploy to Vercel";
  "on:";
  "  push:";
  "    branches: [ main ]";
  "jobs:";
  "  deploy:";
  "    runs-on: ubuntu-latest";
  "    steps:";
  "    - uses: actions/checkout@v3";
  "    - name: Deploy to Vercel";
  "      uses: amondnet/vercel-action@v20";
  "      with:";
  "        vercel-token: ${{ secrets.VERCEL_TOKEN }}";
  "        vercel-args: '--prod'";
  ""
].

(** The literal returned by [get_deploy_script] (lines 602-617 of quick_setup.py). *)
Definition deploy_script_text : string := unlines [
  "#!/usr/bin/env python3";
  dq +:+ dq +:+ dq +:+ "Simplified deployment script" +:+ dq +:+ dq +:+ dq;
  "import subprocess";
  "import sys";
  "";
  "def deploy():";
  "    print(" +:+ dq +:+ "🚀 Deploying to Vercel..." +:+ dq +:+ ")";
  "    try:";
  "        subprocess.run(['vercel', '--prod'], check=True)";
  "        print(" +:+ dq +:+ "✅ Deployment successful!" +:+ dq +:+ ")";
  "    except:";
  "        print(" +:+ dq +:+ "❌ Install Vercel CLI: npm i -g vercel" +:+ dq +:+ ")";
  "";
  "if __name__ == " +:+ dq +:+ "__main__" +:+ dq +:+ ":";
  "    deploy()";
  ""
].

(** The local [summary] of [print_completion_summary] (lines 663-701 of quick_setup.py). *)
Definition summary_text : string := unlines [
  "";
  "╔══════════════════════════════════════════════════════════════════════════════╗";
  "║                                                                              ║";
  "║  🎉 SETUP COMPLETE! YOUR REVENUE SYSTEM IS READY! 🎉                       ║";
  "║                                                                              ║";
  "╚══════════════════════════════════════════════════════════════════════════════╝";
  "";
  "🚀 WHAT'S BEEN CREATED:";
  "  ✅ Complete project structure with all files";
  "  ✅ API endpoints for scaling, AI learning, and status";
  "  ✅ Responsive dashboard with real-time updates";
  "  ✅ GitHub repository (if CLI available)";
  "  ✅ Vercel deployment configuration";
  "";
  "🔧 NEXT STEPS:";
  "  1. 📝 Copy .env.example to .env and add your API keys";
  "  2. 🌐 Deploy to Vercel: run 'vercel --prod' ";
  "  3. ⚙️  Configure environment variables in Vercel dashboard";
  "  4. 🚀 Visit your dashboard and click " +:+ dq +:+ "LAUNCH SYSTEM" +:+ dq;
  "  5. 📊 Monitor your automated revenue growth";
  "";
  "💡 QUICK DEPLOY:";
  "  • Install Vercel CLI: npm install -g vercel";
  "  • Deploy: vercel --prod";
  "  • Configure: Add API keys in Vercel dashboard";
  "";
  "🎯 EXPECTED RESULTS:";
  "  • Week 1: System optimization and AI learning";
  "  • Week 2-3: First automated revenue streams";
  "  • Month 1: $300-500 daily revenue";
  "  • Month 2+: $1,000+ daily revenue with full automation";
  "";
  "📚 SUPPORT:";
  "  • Check README.md for detailed instructions";
  "  • All files are documented and ready to customize";
  "  • GitHub repository includes CI/CD workflow";
  "";
  "🚀 Your AI-powered revenue machine is ready to launch!";
  "        "
].

End Text.
Import Text.

(** ** The script *)

(** The attributes of a [QuickSetup] object.  The dict [files_to_create]
    keeps insertion order, which [items()] follows: an association list. *)
Record QuickSetup := {
  project_name : string;
  files_to_create : list (string * string)
}.

(** [QuickSetup.__init__] *)
Definition QuickSetup_init : QuickSetup :=
  {| project_name := "autonomous-revenue-system"; files_to_create := [] |}.

(** [d[k] = v]: a key already present keeps its place and takes the new
    value, a new key goes to the end. *)
Fixpoint dict_set (k v : string) (d : list (string * string)) : list (string * string) :=
  match d with
  | [] => [(k, v)]
  | (k', v') :: d' =>
      if String.eqb k' k then (k', v) :: d' else (k', v') :: dict_set k v d'
  end.

(** A dict display [{k1: v1, k2: v2, ...}] *)
Definition dict_literal (items : list (string * string)) : list (string * string) :=
  fold_left (fun d kv => dict_set (fst kv) (snd kv) d) items [].

Section Script.
Variable env : Env.

Definition print_banner : Py QuickSetup unit :=
  print banner_text;;
  try_except
    (input env;; ret tt)
    [(is_KeyboardInterrupt,
      fun _ => print (nl +:+ nl +:+ "❌ Setup cancelled by user");; sys_exit 1)].

Definition get_launch_api : Py QuickSetup string := ret launch_api_text.
Definition get_scaling_api : Py QuickSetup string := ret scaling_api_text.
Definition get_status_api : Py QuickSetup string := ret status_api_text.
Definition get_ai_learning_api : Py QuickSetup string := ret ai_learning_api_text.
Definition get_dashboard_html : Py QuickSetup string := ret dashboard_html_text.
Definition get_scaling_engine : Py QuickSetup string := ret scaling_engine_text.
Definition get_config_utils : Py QuickSetup string := ret config_utils_text.
Definition get_vercel_config : Py QuickSetup string := ret vercel_config_text.
Definition get_package_json : Py QuickSetup string := ret package_json_text.
Definition get_requirements : Py QuickSetup string := ret requirements_text.
Definition get_env_example : Py QuickSetup string := ret env_example_text.
Definition get_readme : Py QuickSetup string := ret readme_text.
Definition get_github_workflow : Py QuickSetup string := ret github_workflow_text.
Definition get_deploy_script : Py QuickSetup string := ret deploy_script_text.

(** The body of the loop of [create_all_files] *)
Definition create_file (item : string * string) : Py QuickSetup unit :=
  let file_path := fst item in
  let content := snd item in
  let directory := dirname file_path in
  (if truthy directory then mkdir_parents env directory else ret tt);;
  open_file env file_path "w";;
  write_file env file_path content;;
  print ("  ✅ Created: " +:+ file_path).

Definition create_all_files : Py QuickSetup unit :=
  print "📝 Creating project files...";;
  launch_api <- get_launch_api;;
  scaling_api <- get_scaling_api;;
  status_api <- get_status_api;;
  ai_learning_api <- get_ai_learning_api;;
  dashboard_html <- get_dashboard_html;;
  scaling_engine <- get_scaling_engine;;
  config_utils <- get_config_utils;;
  vercel_config <- get_vercel_config;;
  package_json <- get_package_json;;
  requirements <- get_requirements;;
  env_example <- get_env_example;;
  readme <- get_readme;;
  github_workflow <- get_github_workflow;;
  deploy_script <- get_deploy_script;;
  self <- get_self;;
  set_self {| project_name := project_name self;
              files_to_create := dict_literal [
                ("api/launch.py", launch_api);
                ("api/scaling.py", scaling_api);
                ("api/status.py", status_api);
                ("api/ai-learning.py", ai_learning_api);
                ("frontend/index.html", dashboard_html);
                ("core/__init__.py", "");
                ("core/scaling_engine.py", scaling_engine);
                ("utils/__init__.py", "");
                ("utils/config.py", config_utils);
                ("vercel.json", vercel_config);
                ("package.json", package_json);
                ("requirements.txt", requirements);
                (".env.example", env_example);
                ("README.md", readme);
                (".github/workflows/deploy.yml", github_workflow);
                ("deploy.py", deploy_script)
              ] |};;
  self <- get_self;;
  for_each (files_to_create self) create_file;;
  self <- get_self;;
  print ("📁 Created " +:+ pretty (length (files_to_create self)) +:+ " files").

(** The loop over the lines of the deployment output: the first line that
    holds both markers is printed, stripped, and the loop stops. *)
Fixpoint print_live_url (lines : list string) : Py QuickSetup unit :=
  match lines with
  | [] => ret tt
  | line :: rest =>
      if contains "https://" line && contains "vercel.app" line
      then print ("  🌐 Live URL: " +:+ strip line)
      else print_live_url rest
  end.

(** The first [try] statement of [setup_git_and_deploy] (lines 623-640),
    with the optional GitHub [try] nested in it. *)
Definition git_block : Py QuickSetup unit :=
  try_except
    (subprocess_run env ["git"; "init"] true;;
     subprocess_run env ["git"; "add"; "."] true;;
     subprocess_run env ["git"; "commit"; "-m"; "Initial commit: Autonomous Revenue System v2.0"] true;;
     print "  ✅ Git repository initialized";;
     try_except
       (self <- get_self;;
        subprocess_run env ["gh"; "repo"; "create"; project_name self; "--public"] true;;
        self <- get_self;;
        subprocess_run env ["git"; "remote"; "add"; "origin";
                            "https://github.com/your-username/" +:+ project_name self +:+ ".git"] true;;
        subprocess_run env ["git"; "push"; "-u"; "origin"; "main"] true;;
        print "  ✅ GitHub repository created and pushed")
       [(any_exception, fun _ => print "  ⚠️  GitHub CLI not available - create repository manually")])
    [(is_Exception, fun e => print ("  ⚠️  Git setup failed: " +:+ str_exn env e))].

(** Its second [try] statement (lines 644-659). *)
Definition vercel_block : Py QuickSetup unit :=
  try_except
    (result <- subprocess_run env ["vercel"; "--prod"; "--yes"] false;;
     if (returncode result =? 0)%Z then
       print "  ✅ Deployed to Vercel successfully!";;
       print_live_url (split_on (ascii_of_nat 10) (stdout result))
     else
       print "  ❌ Vercel deployment failed";;
       print "  💡 Install Vercel CLI: npm install -g vercel")
    [(is_FileNotFoundError,
      fun _ => print "  ❌ Vercel CLI not found";; print "  💡 Install Vercel CLI: npm install -g vercel")].

Definition setup_git_and_deploy : Py QuickSetup unit :=
  print (nl +:+ "🔄 Setting up Git repository...");;
  git_block;;
  print (nl +:+ "🌐 Deploying to Vercel...");;
  vercel_block.

Definition print_completion_summary : Py QuickSetup unit :=
  print summary_text.

Definition run_setup : Py QuickSetup bool :=
  try_except
    (print_banner;;
     print "🔄 Starting one-click setup...";;
     print (str_repeat "=" 60);;
     create_all_files;;
     setup_git_and_deploy;;
     print_completion_summary;;
     ret true)
    [(is_KeyboardInterrupt,
      fun _ => print (nl +:+ nl +:+ "❌ Setup cancelled by user");; ret false);
     (is_Exception,
      fun e => print (nl +:+ "❌ Setup failed: " +:+ str_exn env e);; print "Please check the error and try again.";; ret false)].

(** [main()]: a fresh object, the run, and the closing message. *)
Definition main : Py QuickSetup bool :=
  set_self QuickSetup_init;;
  success <- run_setup;;
  (if success : bool then print (nl +:+ "✅ Setup completed successfully!") else print (nl +:+ "❌ Setup encountered errors."));;
  ret success.

(** The script as a process, started with an empty history: the trace it
    leaves and its exit status.  [main()] is called for its effects and its
    result is dropped, so a run that returns has status 0; [SystemExit(n)]
    that reaches the top ends the process with status [n]; an uncaught
    [KeyboardInterrupt] gives 130 and any other uncaught exception 1. *)
Definition exit_status {A} (r : outcome A) : Z :=
  match r with
  | Ok _ => 0
  | Raise (SystemExit code) => code
  | Raise KeyboardInterrupt => 130
  | Raise _ => 1
  end.

Definition script : Z * list event :=
  let '(r, _, t) := main QuickSetup_init [] in (exit_status r, t).

End Script.

(** ** The generated request handlers

    The four files under [api/] are Python programs in their own right.
    What their [handler] classes do with a request is modelled here from
    the text of the literals above: the request, the reading of the clock
    ([datetime.now()]) and the response written back. *)

Module Api.

(** What a request carries: none of it is read by any handler. *)
Record request := {
  req_path : string;
  req_headers : list (string * string);
  req_body : string
}.

(** A naive [datetime], as [datetime.now()] returns it. *)
Record datetime := {
  year : nat; month : nat; day : nat;
  hour : nat; minute : nat; second : nat; microsecond : nat
}.

(** ["%0<w>d" % n] *)
Definition zero_pad (w n : nat) : string :=
  let digits : string := pretty n in
  str_repeat "0" (w - String.length digits) +:+ digits.

(** [datetime.isoformat()]: the microseconds are left out when zero. *)
Definition isoformat (t : datetime) : string :=
  zero_pad 4 (year t) +:+ "-" +:+ zero_pad 2 (month t) +:+ "-" +:+ zero_pad 2 (day t)
  +:+ "T" +:+ zero_pad 2 (hour t) +:+ ":" +:+ zero_pad 2 (minute t) +:+ ":" +:+ zero_pad 2 (second t)
  +:+ (if Nat.eqb (microsecond t) 0 then "" else "." +:+ zero_pad 6 (microsecond t)).

(** The values the handlers build.  A float is kept as the decimal literal
    of the source, which is also its [repr]. *)
#[warnings="-register-all"]
Inductive json :=
| JStr (s : string)
| JInt (n : Z)
| JFloat (literal : string)
| JBool (b : bool)
| JList (items : list json)
| JDict (items : list (string * json)).

Definition hex_digit (n : N) : string :=
  String (ascii_of_N (if (n <? 10)%N then 48 + n else 87 + n)) EmptyString.

(** ["\\u{0:04x}".format(n)] *)
Definition u_escape (n : N) : string :=
  String (ascii_of_nat 92) "u" +:+ hex_digit (n / 4096 mod 16) +:+ hex_digit (n / 256 mod 16)
  +:+ hex_digit (n / 16 mod 16) +:+ hex_digit (n mod 16).

(** The escape of one code point by [json.dumps] with [ensure_ascii]. *)
Definition escape_code_point (cp : N) : string :=
  if (cp =? 34)%N then String (ascii_of_nat 92) dq
  else if (cp =? 92)%N then String (ascii_of_nat 92) (String (ascii_of_nat 92) EmptyString)
  else if (cp =? 10)%N then String (ascii_of_nat 92) "n"
  else if (cp =? 13)%N then String (ascii_of_nat 92) "r"
  else if (cp =? 9)%N then String (ascii_of_nat 92) "t"
  else if (cp =? 12)%N then String (ascii_of_nat 92) "f"
  else if (cp =? 8)%N then String (ascii_of_nat 92) "b"
  else if between 32 126 cp then String (ascii_of_N cp) EmptyString
  else if (cp <? 65536)%N then u_escape cp
  else let v := (cp - 65536)%N in
       u_escape (55296 + v / 1024) +:+ u_escape (56320 + v mod 1024).

(** The code points of a UTF-8 byte sequence. *)
Fixpoint code_points (fuel : nat) (bs : list N) : list N :=
  match fuel with
  | O => []
  | S fuel' =>
      match bs with
      | [] => []
      | b :: rest =>
          if (b <? 192)%N then b :: code_points fuel' rest
          else if (b <? 224)%N then
            match rest with
            | c :: rest' => ((b mod 32) * 64 + c mod 64)%N :: code_points fuel' rest'
            | _ => [b]
            end
          else if (b <? 240)%N then
            match rest with
            | c :: d :: rest' =>
                ((b mod 16) * 4096 + (c mod 64) * 64 + d mod 64)%N :: code_points fuel' rest'
            | _ => [b]
            end
          else
            match rest with
            | c :: d :: e :: rest' =>
                ((b mod 8) * 262144 + (c mod 64) * 4096 + (d mod 64) * 64 + e mod 64)%N
                  :: code_points fuel' rest'
            | _ => [b]
            end
      end
  end.

Definition escape (s : string) : string :=
  let bs := bytes_of s in
  String.concat "" (map escape_code_point (code_points (length bs) bs)).

Definition quoted (s : string) : string := dq +:+ escape s +:+ dq.

(** [json.dumps(v)] with its default separators *)
Fixpoint dumps (v : json) : string :=
  match v with
  | JStr s => quoted s
  | JInt n => pretty n
  | JFloat literal => literal
  | JBool b => if b then "true" else "false"
  | JList items => "[" +:+ String.concat ", " (map dumps items) +:+ "]"
  | JDict items =>
      "{" +:+ String.concat ", "
                (map (fun kv => quoted (fst kv) +:+ ": " +:+ dumps (snd kv)) items) +:+ "}"
  end.

(** What a handler sends: the status of [send_response], the headers it
    sets itself with [send_header], and what it writes to [wfile]. *)
Record response := {
  status : Z;
  headers : list (string * string);
  body : string
}.

Definition json_headers : list (string * string) :=
  [("Content-type", "application/json"); ("Access-Control-Allow-Origin", "*")].

Definition options_response : response :=
  {| status := 200;
     headers := [("Access-Control-Allow-Origin", "*");
                 ("Access-Control-Allow-Methods", "GET, POST, OPTIONS");
                 ("Access-Control-Allow-Headers", "Content-Type")];
     body := "" |}.

Definition json_response (v : json) : response :=
  {| status := 200; headers := json_headers; body := dumps v |}.

(** [api/launch.py] *)
Definition launch_do_POST (req : request) (now : datetime) : response :=
  json_response (JDict [
    ("status", JStr "success");
    ("message", JStr "System launched successfully");
    ("launch_time", JStr (isoformat now));
    ("components", JDict [
       ("ai_brain", JStr "active");
       ("revenue_tracker", JStr "active");
       ("scaling_engine", JStr "active")])]).

Definition launch_do_GET (req : request) (now : datetime) : response :=
  json_response (JDict [
    ("status", JStr "operational");
    ("launched", JBool true);
    ("timestamp", JStr (isoformat now))]).

Definition launch_do_OPTIONS (req : request) (now : datetime) : response :=
  options_response.

(** [api/scaling.py] *)
Definition scaling_do_POST (req : request) (now : datetime) : response :=
  json_response (JDict [
    ("status", JStr "success");
    ("scaling_candidates", JInt 2);
    ("execution_results", JDict [
       ("executed_actions", JInt 3);
       ("total_investment", JInt 750);
       ("expected_return", JInt 2250);
       ("success_rate", JFloat "95.5")]);
    ("execution_time", JFloat "0.8")]).

Definition scaling_do_GET (req : request) (now : datetime) : response :=
  json_response (JDict [
    ("status", JStr "operational");
    ("scaling_engine", JStr "active")]).

Definition scaling_do_OPTIONS (req : request) (now : datetime) : response :=
  options_response.

(** [api/status.py] *)
Definition status_do_GET (req : request) (now : datetime) : response :=
  json_response (JDict [
    ("status", JStr "operational");
    ("revenue", JFloat "1247.83");
    ("patterns_learned", JInt 127);
    ("optimizations", JInt 34);
    ("daily_target", JInt 1000);
    ("success_rate", JFloat "94.5");
    ("uptime", JInt 28472);
    ("last_update", JStr (isoformat now))]).

Definition status_do_OPTIONS (req : request) (now : datetime) : response :=
  options_response.

(** [api/ai-learning.py] *)
Definition ai_learning_do_POST (req : request) (now : datetime) : response :=
  json_response (JDict [
    ("status", JStr "learning");
    ("patterns_discovered", JInt 5);
    ("optimizations_generated", JInt 3);
    ("learning_improvement", JFloat "1.2");
    ("recommendations", JList [
       JDict [("type", JStr "high_impact");
              ("message", JStr "Increase ad spend on high-performing campaigns")];
       JDict [("type", JStr "optimization");
              ("message", JStr "A/B test new landing page design")]])]).

Definition ai_learning_do_GET (req : request) (now : datetime) : response :=
  json_response (JDict [
    ("status", JStr "learning");
    ("patterns_learned", JInt 156);
    ("learning_velocity", JFloat "1.3")]).

Definition ai_learning_do_OPTIONS (req : request) (now : datetime) : response :=
  options_response.

(** The handler methods the four files define, by file and method name. *)
Inductive api_file := launch_py | scaling_py | status_py | ai_learning_py.
Inductive http_method := do_GET | do_POST | do_OPTIONS.

Definition handler (f : api_file) (m : http_method)
  : option (request -> datetime -> response) :=
  match f, m with
  | launch_py, do_POST => Some launch_do_POST
  | launch_py, do_GET => Some launch_do_GET
  | launch_py, do_OPTIONS => Some launch_do_OPTIONS
  | scaling_py, do_POST => Some scaling_do_POST
  | scaling_py, do_GET => Some scaling_do_GET
  | scaling_py, do_OPTIONS => Some scaling_do_OPTIONS
  | status_py, do_GET => Some status_do_GET
  | status_py, do_OPTIONS => Some status_do_OPTIONS
  | status_py, do_POST => None
  | ai_learning_py, do_POST => Some ai_learning_do_POST
  | ai_learning_py, do_GET => Some ai_learning_do_GET
  | ai_learning_py, do_OPTIONS => Some ai_learning_do_OPTIONS
  end.

(** The methods whose dictionary holds [datetime.now().isoformat()]:
    [launch_time] and [timestamp] in [api/launch.py], [last_update] in
    [api/status.py]. *)
Definition reads_clock (f : api_file) (m : http_method) : bool :=
  match f, m with
  | launch_py, do_POST | launch_py, do_GET | status_py, do_GET => true
  | _, _ => false
  end.

(** The literal each file is generated from. *)
Definition source_text (f : api_file) : string :=
  match f with
  | launch_py => launch_api_text
  | scaling_py => scaling_api_text
  | status_py => status_api_text
  | ai_learning_py => ai_learning_api_text
  end.

End Api.

(** ** Vocabulary of the statements *)

(** The mapping [create_all_files] builds: sixteen entries, in the order of
    the dict display. *)
Definition file_table : list (string * string) := [
  ("api/launch.py", launch_api_text);
  ("api/scaling.py", scaling_api_text);
  ("api/status.py", status_api_text);
  ("api/ai-learning.py", ai_learning_api_text);
  ("frontend/index.html", dashboard_html_text);
  ("core/__init__.py", "");
  ("core/scaling_engine.py", scaling_engine_text);
  ("utils/__init__.py", "");
  ("utils/config.py", config_utils_text);
  ("vercel.json", vercel_config_text);
  ("package.json", package_json_text);
  ("requirements.txt", requirements_text);
  (".env.example", env_example_text);
  ("README.md", readme_text);
  (".github/workflows/deploy.yml", github_workflow_text);
  ("deploy.py", deploy_script_text)
].

(** The object with its mapping replaced. *)
Definition with_files (s : QuickSetup) (m : list (string * string)) : QuickSetup :=
  {| project_name := project_name s; files_to_create := m |}.

(** What writing one entry looks like when the file system goes along:
    the directory (when the path has one), the file opened for writing, its
    content written, the progress line. *)
Definition file_events (item : string * string) : list event :=
  (if truthy (dirname item.1) then [EMkdir (dirname item.1) (Ok tt)] else [])
  ++ [EOpen item.1 "w" (Ok tt);
      EWrite item.1 item.2 (Ok tt);
      EPrint ("  ✅ Created: " +:+ item.1)].

(** The files of the working directory, by relative path, and what the
    script's own operations do to them: opening for writing truncates,
    writing appends. *)
Definition apply_event (fs : gmap string string) (e : event) : gmap string string :=
  match e with
  | EOpen p mode (Ok _) => if bool_decide (mode = "w") then <[p := ""]> fs else fs
  | EWrite p c (Ok _) => <[p := default "" (fs !! p) +:+ c]> fs
  | _ => fs
  end.

Definition files_after (fs : gmap string string) (t : list event) : gmap string string :=
  fold_left apply_event t fs.

(** The command lines run, the paths opened and the texts printed, in order. *)
Definition runs_of (t : list event) : list (list string) :=
  omap (fun e => match e with ERun argv _ => Some argv | _ => None end) t.

Definition opened (t : list event) : list string :=
  omap (fun e => match e with EOpen p _ _ => Some p | _ => None end) t.

Definition printed (t : list event) : list string :=
  omap (fun e => match e with EPrint s => Some s | _ => None end) t.

Definition opens_for_writing (e : event) : Prop :=
  match e with
  | EOpen _ mode _ => mode = "w"
  | _ => True
  end.

Definition prints_only (t : list event) : Prop :=
  Forall (fun e => match e with EPrint _ => True | _ => False end) t.

Definition writes (e : event) : Prop :=
  match e with
  | EWrite _ _ _ => True
  | _ => False
  end.

(** The external commands of [setup_git_and_deploy] for a project name. *)
Definition git_commands : list (list string) :=
  [["git"; "init"];
   ["git"; "add"; "."];
   ["git"; "commit"; "-m"; "Initial commit: Autonomous Revenue System v2.0"]].

Definition github_commands (name : string) : list (list string) :=
  [["gh"; "repo"; "create"; name; "--public"];
   ["git"; "remote"; "add"; "origin"; "https://github.com/your-username/" +:+ name +:+ ".git"];
   ["git"; "push"; "-u"; "origin"; "main"]].

Definition vercel_command : list string := ["vercel"; "--prod"; "--yes"].

(** The messages of the handlers and of the two ends of a run. *)
Definition cancelled_message : string := nl +:+ nl +:+ "❌ Setup cancelled by user".
Definition github_warning : string := "  ⚠️  GitHub CLI not available - create repository manually".
Definition git_warning (env : Env) (e : exn) : string := "  ⚠️  Git setup failed: " +:+ str_exn env e.
Definition starting_message : string := "🔄 Starting one-click setup...".
Definition separator_line : string := str_repeat "=" 60.
Definition setting_up_message : string := nl +:+ "🔄 Setting up Git repository...".
Definition deploying_message : string := nl +:+ "🌐 Deploying to Vercel...".
Definition git_initialized : string := "  ✅ Git repository initialized".
Definition install_hint : string := "  💡 Install Vercel CLI: npm install -g vercel".
Definition vercel_not_found : string := "  ❌ Vercel CLI not found".
Definition success_message : string := nl +:+ "✅ Setup completed successfully!".
Definition errors_message : string := nl +:+ "❌ Setup encountered errors.".

(** The fourteen file-generation methods. *)
Definition getters : list (Py QuickSetup string) :=
  [get_launch_api; get_scaling_api; get_status_api; get_ai_learning_api;
   get_dashboard_html; get_scaling_engine; get_config_utils; get_vercel_config;
   get_package_json; get_requirements; get_env_example; get_readme;
   get_github_workflow; get_deploy_script].

(** A property of the events a computation adds, whatever the object and
    the history it starts from. *)
Definition emits {S A} (P : list event -> Prop) (m : Py S A) : Prop :=
  forall s h, P (m s h).2.

(** A computation that leaves the object as it found it. *)
Definition keeps_self {S A} (m : Py S A) : Prop :=
  forall s h, (m s h).1.2 = s.

(** Events in a paced order: every event is acceptable, and the keys of
    the keyed ones are sorted and lie between [lo] and [hi]. *)
Section Paced.
Variable key : event -> option nat.
Variable R : relation nat.
Variable acceptable : event -> Prop.

Definition paced (lo hi : nat) (t : list event) : Prop :=
  Forall acceptable t /\
  StronglySorted R (omap key t) /\
  Forall (fun k => lo <= k <= hi)%nat (omap key t).
End Paced.

(** The steps of a run, in the order the specification lists them. *)
Inductive step := Banner | Files | Git | GitHub | Vercel | Summary.

Definition rank (st : step) : nat :=
  match st with
  | Banner => 0 | Files => 1 | Git => 2 | GitHub => 3 | Vercel => 4 | Summary => 5
  end.

(** The step a command line belongs to; the project name and the remote
    address may be anything. *)
Definition command_step (argv : list string) : option step :=
  if bool_decide (argv ∈ git_commands) then Some Git
  else if bool_decide (take 3 argv = ["gh"; "repo"; "create"] /\ drop 4 argv = ["--public"]) then Some GitHub
  else if bool_decide (take 4 argv = ["git"; "remote"; "add"; "origin"] /\ length argv = 5%nat) then Some GitHub
  else if bool_decide (argv = ["git"; "push"; "-u"; "origin"; "main"]) then Some GitHub
  else if bool_decide (argv = vercel_command) then Some Vercel
  else None.

(** The step an event belongs to.  A print other than the banner and the
    summary is a progress line of whatever step is under way. *)
Definition step_of (e : event) : option step :=
  match e with
  | EPrint s =>
      if bool_decide (s = banner_text) then Some Banner
      else if bool_decide (s = summary_text) then Some Summary
      else None
  | EInput _ => Some Banner
  | EMkdir d _ => if bool_decide (d ∈ map (fun item => dirname item.1) file_table) then Some Files else None
  | EOpen p mode _ =>
      if bool_decide (p ∈ file_table.*1 /\ mode = "w") then Some Files else None
  | EWrite p c _ => if bool_decide ((p, c) ∈ file_table) then Some Files else None
  | ERun argv _ => command_step argv
  end.

Definition step_key (e : event) : option nat := rank <$> step_of e.

(** The first three bytes of the banner and of the summary: a newline and
    the start of the box-drawing corner.  No progress line starts so. *)
Definition box_head : string := substring 0 3 banner_text.

(** An event that is one of the listed steps, or a progress line. *)
Definition listed (e : event) : Prop :=
  match e with
  | EPrint _ => True
  | _ => is_Some (step_of e)
  end.

(** The place of a command line among the seven. *)
Definition command_index (argv : list string) : option nat :=
  if bool_decide (argv = ["git"; "init"]) then Some 0%nat
  else if bool_decide (argv = ["git"; "add"; "."]) then Some 1%nat
  else if bool_decide (argv = ["git"; "commit"; "-m"; "Initial commit: Autonomous Revenue System v2.0"]) then Some 2%nat
  else if bool_decide (take 3 argv = ["gh"; "repo"; "create"]) then Some 3%nat
  else if bool_decide (take 3 argv = ["git"; "remote"; "add"]) then Some 4%nat
  else if bool_decide (argv = ["git"; "push"; "-u"; "origin"; "main"]) then Some 5%nat
  else if bool_decide (argv = vercel_command) then Some 6%nat
  else None.

Definition run_key (e : event) : option nat :=
  match e with
  | ERun argv _ => command_index argv
  | _ => None
  end.

(** Every command run is one of the seven. *)
Definition known_run (e : event) : Prop :=
  match e with
  | ERun argv _ => is_Some (command_index argv)
  | _ => True
  end.

(** ** Environments to run the script in *)

(** The text of a [CalledProcessError] for a positive return code and
    arguments without quotes. *)
Definition cpe_text (rc : Z) (cmd : list string) : string :=
  "Command '[" +:+ String.concat ", " (map (fun a => "'" +:+ a +:+ "'") cmd)
  +:+ "]' returned non-zero exit status " +:+ pretty rc +:+ ".".

(** Everything succeeds; the deployment prints its address. *)
Definition env_all_ok : Env := {|
  on_input := fun _ => Ok "";
  on_mkdir := fun _ _ => Ok tt;
  on_open := fun _ _ _ => Ok tt;
  on_write := fun _ _ _ => Ok tt;
  on_run := fun _ argv =>
    Ok {| returncode := 0;
          stdout := if bool_decide (argv = vercel_command)
                    then "Production: https://autonomous-revenue-system.vercel.app [2s]" +:+ nl
                    else "" |};
  cpe_str := cpe_text
|}.

(** The file system goes along, every tool ends with status 1. *)
Definition env_tools_fail : Env := {|
  on_input := fun _ => Ok "";
  on_mkdir := fun _ _ => Ok tt;
  on_open := fun _ _ _ => Ok tt;
  on_write := fun _ _ _ => Ok tt;
  on_run := fun _ _ => Ok {| returncode := 1; stdout := "" |};
  cpe_str := cpe_text
|}.

(** The user answers the banner with Ctrl+C. *)
Definition env_interrupt : Env := {|
  on_input := fun _ => Raise KeyboardInterrupt;
  on_mkdir := fun _ _ => Ok tt;
  on_open := fun _ _ _ => Ok tt;
  on_write := fun _ _ _ => Ok tt;
  on_run := fun _ _ => Ok {| returncode := 0; stdout := "" |};
  cpe_str := cpe_text
|}.

(** git works, gh is not installed, the deployment succeeds. *)
Definition env_no_gh : Env := {|
  on_input := fun _ => Ok "";
  on_mkdir := fun _ _ => Ok tt;
  on_open := fun _ _ _ => Ok tt;
  on_write := fun _ _ _ => Ok tt;
  on_run := fun _ argv =>
    if bool_decide (head argv = Some "gh")
    then Raise (FileNotFoundError "[Errno 2] No such file or directory: 'gh'")
    else Ok {| returncode := 0; stdout := "" |};
  cpe_str := cpe_text
|}.

(** A file named vercel is on the path and may not be executed. *)
Definition env_vercel_denied : Env := {|
  on_input := fun _ => Ok "";
  on_mkdir := fun _ _ => Ok tt;
  on_open := fun _ _ _ => Ok tt;
  on_write := fun _ _ _ => Ok tt;
  on_run := fun _ argv =>
    if bool_decide (argv = vercel_command)
    then Raise (OtherException "PermissionError" "[Errno 13] Permission denied: 'vercel'")
    else Ok {| returncode := 0; stdout := "" |};
  cpe_str := cpe_text
|}.

(** Two readings of the clock, and a request. *)
Definition morning : Api.datetime :=
  {| Api.year := 2025; Api.month := 3; Api.day := 7;
     Api.hour := 9; Api.minute := 5; Api.second := 0; Api.microsecond := 0 |}.

Definition evening : Api.datetime :=
  {| Api.year := 2025; Api.month := 3; Api.day := 7;
     Api.hour := 21; Api.minute := 40; Api.second := 12; Api.microsecond := 4200 |}.

Definition empty_request : Api.request :=
  {| Api.req_path := "/api/launch"; Api.req_headers := []; Api.req_body := "" |}.

(** ** Further vocabulary *)

Definition creating_message : string := "📝 Creating project files...".
Definition failed_message (env : Env) (e : exn) : string := nl +:+ "❌ Setup failed: " +:+ str_exn env e.
Definition check_message : string := "Please check the error and try again.".
Definition github_pushed : string := "  ✅ GitHub repository created and pushed".
Definition deployed_message : string := "  ✅ Deployed to Vercel successfully!".
Definition deployment_failed : string := "  ❌ Vercel deployment failed".
Definition url_prefix : string := "  🌐 Live URL: ".

(** What the two [except] clauses of [run_setup] make of an exception that
    leaves its [try] block, from the object and the events of the block. *)
Definition run_setup_except (env : Env) (e : exn) (s : QuickSetup) (t : list event)
  : outcome bool * QuickSetup * list event :=
  if is_KeyboardInterrupt e then (Ok false, s, t ++ [EPrint cancelled_message])
  else if is_Exception e
  then (Ok false, s, t ++ [EPrint (failed_message env e); EPrint check_message])
  else (Raise e, s, t).

(** The events of a complete files step. *)
Definition files_trace : list event :=
  EPrint creating_message :: flat_map file_events file_table ++ [EPrint "📁 Created 16 files"].

(** What writing one entry looks like when it fails with [e]: at the
    directory, at the opening of the file, or at the write. *)
Definition failed_file_events (item : string * string) (e : exn) : list (list event) :=
  (if truthy (dirname item.1) then [[EMkdir (dirname item.1) (Raise e)]] else [])
  ++ map (app (if truthy (dirname item.1) then [EMkdir (dirname item.1) (Ok tt)] else []))
       [[EOpen item.1 "w" (Raise e)];
        [EOpen item.1 "w" (Ok tt); EWrite item.1 item.2 (Raise e)]].

(** The file system goes along: every directory can be made, every file
    opened and written. *)
Definition files_writable (env : Env) : Prop :=
  (forall h d, on_mkdir env h d = Ok tt) /\
  (forall h p m, on_open env h p m = Ok tt) /\
  (forall h p c, on_write env h p c = Ok tt).

(** The tools fail, when they fail, in the ways the handlers of
    [setup_git_and_deploy] catch: [git init], [git add] and [git commit]
    end, with whatever status, or raise an [Exception]; the deployment
    command ends, with whatever status, or raises [FileNotFoundError];
    the three GitHub commands may do anything. *)
Definition failures_contained (env : Env) : Prop :=
  (forall h argv e,
      argv ∈ git_commands -> on_run env h argv = Raise e -> is_Exception e = true) /\
  (forall h e,
      on_run env h vercel_command = Raise e -> is_FileNotFoundError e = true).

(** An answer to a command that the environment gave, at some point of
    the history. *)
Definition from_env (env : Env) (ev : event) : Prop :=
  match ev with
  | ERun argv r => exists h, r = on_run env h argv
  | _ => True
  end.

(** The test of the loop over the deployment output. *)
Definition is_url_line (line : string) : bool :=
  contains "https://" line && contains "vercel.app" line.

(** The six commands of the git block for a project name, in order. *)
Definition repository_commands (name : string) : list (list string) :=
  git_commands ++ github_commands name.

(** A command that was run and ended with status 0. *)
Definition succeeded (argv : list string) (t : list event) : Prop :=
  exists cp, ERun argv (Ok cp) ∈ t /\ returncode cp = 0%Z.

(** ** More environments *)

(** Standard input is closed: [input()] raises [EOFError]. *)
Definition env_no_stdin : Env := {|
  on_input := fun _ => Raise (OtherException "EOFError" "EOF when reading a line");
  on_mkdir := fun _ _ => Ok tt;
  on_open := fun _ _ _ => Ok tt;
  on_write := fun _ _ _ => Ok tt;
  on_run := fun _ _ => Ok {| returncode := 0; stdout := "" |};
  cpe_str := cpe_text
|}.

(** The third file of the mapping may not be written. *)
Definition env_status_denied : Env := {|
  on_input := fun _ => Ok "";
  on_mkdir := fun _ _ => Ok tt;
  on_open := fun _ p _ =>
    if bool_decide (p = "api/status.py")
    then Raise (OtherException "PermissionError" "[Errno 13] Permission denied: 'api/status.py'")
    else Ok tt;
  on_write := fun _ _ _ => Ok tt;
  on_run := fun _ _ => Ok {| returncode := 0; stdout := "" |};
  cpe_str := cpe_text
|}.

(** * Proofs *)

(** ** Laws of the runtime *)

Section Laws.
Context {S : Type}.

Lemma bind_ret_l {A B} (a : A) (k : A -> Py S B) s h :
  bind (ret a) k s h = k a s h.
Proof.
  unfold bind, ret. rewrite app_nil_r.
  by destruct (k a s h) as [[r s2] t2].
Qed.

Lemma bind_get_self {B} (k : S -> Py S B) s h :
  bind get_self k s h = k s s h.
Proof.
  unfold bind, get_self. rewrite app_nil_r.
  by destruct (k s s h) as [[r s2] t2].
Qed.

Lemma bind_set_self {B} (k : unit -> Py S B) s' s h :
  bind (set_self s') k s h = k tt s' h.
Proof.
  unfold bind, set_self. rewrite app_nil_r.
  by destruct (k tt s' h) as [[r s2] t2].
Qed.

Lemma bind_print {B} (k : unit -> Py S B) x s h :
  bind (print x) k s h =
  let '(r, s2, t2) := k tt s (h ++ [EPrint x]) in (r, s2, EPrint x :: t2).
Proof. reflexivity. Qed.

Lemma bind_assoc {A B C} (m : Py S A) (k : A -> Py S B) (k' : B -> Py S C) s h :
  bind (bind m k) k' s h = bind m (fun a => bind (k a) k') s h.
Proof.
  unfold bind. destruct (m s h) as [[[a|e] s1] t1]; [|done].
  destruct (k a s1 (h ++ t1)) as [[[b|e] s2] t2]; [|done].
  rewrite <- (assoc_L (++)).
  destruct (k' b s2 (h ++ t1 ++ t2)) as [[r s3] t3].
  by rewrite <- (assoc_L (++)).
Qed.

(** The events of a sequence are those of its first part, followed by
    those of the rest when the first part returns. *)
Lemma emits_bind {A B} (P Q R : list event -> Prop) (m : Py S A) (k : A -> Py S B) :
  emits P m -> (forall a, emits Q (k a)) ->
  (forall t1, P t1 -> R t1) ->
  (forall t1 t2, P t1 -> Q t2 -> R (t1 ++ t2)) ->
  emits R (bind m k).
Proof.
  intros Hm Hk H1 H2 s h. unfold bind.
  specialize (Hm s h). destruct (m s h) as [[[a|e] s1] t1]; simpl in *; [|auto].
  specialize (Hk a s1 (h ++ t1)).
  destruct (k a s1 (h ++ t1)) as [[r s2] t2]. simpl in *. auto.
Qed.

Lemma dispatch_Some {A} (clauses : list ((exn -> bool) * (exn -> Py S A))) e k :
  dispatch clauses e = Some k -> exists c, c ∈ clauses /\ k = c.2 e.
Proof.
  induction clauses as [|[accepts k'] clauses IH]; simpl; [done|].
  destruct (accepts e).
  - intros [= <-]. exists (accepts, k'). split; [left|done].
  - intros [c [Hc ->]]%IH. exists c. split; [by right|done].
Qed.

Lemma emits_try {A} (P Q R : list event -> Prop) (m : Py S A) clauses :
  emits P m -> Forall (fun c => forall e, emits Q (c.2 e)) clauses ->
  (forall t1, P t1 -> R t1) ->
  (forall t1 t2, P t1 -> Q t2 -> R (t1 ++ t2)) ->
  emits R (try_except m clauses).
Proof.
  intros Hm Hk H1 H2 s h. unfold try_except.
  specialize (Hm s h). destruct (m s h) as [[[a|e] s1] t1]; simpl in *; [auto|].
  destruct (dispatch clauses e) as [k|] eqn:Hd; simpl; [|auto].
  apply dispatch_Some in Hd as [c [Hc ->]].
  rewrite Forall_forall in Hk. specialize (Hk c Hc e s1 (h ++ t1)).
  destruct (c.2 e s1 (h ++ t1)) as [[r s2] t2]. simpl in *. auto.
Qed.

Lemma emits_for_each {A} (P : list event -> Prop) (l : list A) (body : A -> Py S unit) :
  P [] -> (forall t1 t2, P t1 -> P t2 -> P (t1 ++ t2)) ->
  Forall (fun x => emits P (body x)) l ->
  emits P (for_each l body).
Proof.
  intros Hnil Happ. induction 1 as [|x l Hx _ IH]; simpl.
  - intros s h. exact Hnil.
  - eapply emits_bind; eauto.
Qed.

Lemma emits_ret {A} (P : list event -> Prop) (a : A) : P [] -> emits P (ret (S:=S) a).
Proof. intros H s h. exact H. Qed.

Lemma emits_raise {A} (P : list event -> Prop) e : P [] -> emits P (raise (S:=S) (A:=A) e).
Proof. intros H s h. exact H. Qed.

Lemma emits_get_self (P : list event -> Prop) : P [] -> emits P (get_self (S:=S)).
Proof. intros H s h. exact H. Qed.

Lemma emits_set_self (P : list event -> Prop) s' : P [] -> emits P (set_self (S:=S) s').
Proof. intros H s h. exact H. Qed.

Lemma emits_print (P : list event -> Prop) x : P [EPrint x] -> emits P (print (S:=S) x).
Proof. intros H s h. exact H. Qed.

Lemma emits_input (P : list event -> Prop) env :
  (forall r, P [EInput r]) -> emits P (input (S:=S) env).
Proof. intros H s h. apply H. Qed.

Lemma emits_mkdir (P : list event -> Prop) env d :
  (forall r, P [EMkdir d r]) -> emits P (mkdir_parents (S:=S) env d).
Proof. intros H s h. apply H. Qed.

Lemma emits_open (P : list event -> Prop) env p mode :
  (forall r, P [EOpen p mode r]) -> emits P (open_file (S:=S) env p mode).
Proof. intros H s h. apply H. Qed.

Lemma emits_write (P : list event -> Prop) env p c :
  (forall r, P [EWrite p c r]) -> emits P (write_file (S:=S) env p c).
Proof. intros H s h. apply H. Qed.

Lemma emits_run (P : list event -> Prop) env argv check :
  (forall r, P [ERun argv r]) -> emits P (subprocess_run (S:=S) env argv check).
Proof. intros H s h. apply H. Qed.

End Laws.

(** ** Paced traces *)

Section PacedLaws.
Variable key : event -> option nat.
Variable R : relation nat.
Variable acceptable : event -> Prop.

Lemma paced_nil lo hi : paced key R acceptable lo hi [].
Proof. repeat split; constructor. Qed.

Lemma paced_unkeyed lo hi e :
  acceptable e -> key e = None -> paced key R acceptable lo hi [e].
Proof.
  intros Ha Hk. unfold paced. simpl. rewrite Hk.
  repeat split; repeat constructor; done.
Qed.

Lemma paced_keyed lo hi e k :
  acceptable e -> key e = Some k -> (lo <= k <= hi)%nat ->
  paced key R acceptable lo hi [e].
Proof.
  intros Ha Hk Hb. unfold paced. simpl. rewrite Hk. simpl.
  split_and!; repeat constructor; (done || lia).
Qed.

Lemma paced_mono lo hi lo' hi' t :
  (forall x, lo <= x <= hi -> lo' <= x <= hi')%nat ->
  paced key R acceptable lo hi t -> paced key R acceptable lo' hi' t.
Proof.
  intros Hin (Ha & Hs & Hb). repeat split; [done..|].
  eapply Forall_impl; [exact Hb|]. exact Hin.
Qed.

Lemma paced_app lo1 hi1 lo2 hi2 lo hi t1 t2 :
  (forall x y, lo1 <= x <= hi1 -> lo2 <= y <= hi2 -> R x y)%nat ->
  (forall x, lo1 <= x <= hi1 -> lo <= x <= hi)%nat ->
  (forall y, lo2 <= y <= hi2 -> lo <= y <= hi)%nat ->
  paced key R acceptable lo1 hi1 t1 -> paced key R acceptable lo2 hi2 t2 ->
  paced key R acceptable lo hi (t1 ++ t2).
Proof.
  intros HR H1 H2 (Ha1 & Hs1 & Hb1) (Ha2 & Hs2 & Hb2). unfold paced.
  rewrite omap_app. repeat split.
  - by apply Forall_app.
  - apply StronglySorted_app_2; [|done..].
    intros x y Hx Hy. apply HR.
    + by apply (proj1 (Forall_forall _ _) Hb1).
    + by apply (proj1 (Forall_forall _ _) Hb2).
  - apply Forall_app. split; (eapply Forall_impl; [eassumption|]); done.
Qed.

(** Sequencing two paced computations, and a paced [try] statement. *)
Lemma paced_bind {S A B} lo1 hi1 lo2 hi2 lo hi (m : Py S A) (k : A -> Py S B) :
  (forall x y, lo1 <= x <= hi1 -> lo2 <= y <= hi2 -> R x y)%nat ->
  (forall x, lo1 <= x <= hi1 -> lo <= x <= hi)%nat ->
  (forall y, lo2 <= y <= hi2 -> lo <= y <= hi)%nat ->
  emits (paced key R acceptable lo1 hi1) m ->
  (forall a, emits (paced key R acceptable lo2 hi2) (k a)) ->
  emits (paced key R acceptable lo hi) (bind m k).
Proof.
  intros HR H1 H2 Hm Hk. eapply emits_bind; [exact Hm|exact Hk|..].
  - intros t1. by apply paced_mono.
  - intros t1 t2. by apply paced_app.
Qed.

Lemma paced_try {S A} lo1 hi1 lo2 hi2 lo hi (m : Py S A) clauses :
  (forall x y, lo1 <= x <= hi1 -> lo2 <= y <= hi2 -> R x y)%nat ->
  (forall x, lo1 <= x <= hi1 -> lo <= x <= hi)%nat ->
  (forall y, lo2 <= y <= hi2 -> lo <= y <= hi)%nat ->
  emits (paced key R acceptable lo1 hi1) m ->
  Forall (fun c => forall e, emits (paced key R acceptable lo2 hi2) (c.2 e)) clauses ->
  emits (paced key R acceptable lo hi) (try_except m clauses).
Proof.
  intros HR H1 H2 Hm Hk. eapply emits_try; [exact Hm|exact Hk|..].
  - intros t1. by apply paced_mono.
  - intros t1 t2. by apply paced_app.
Qed.

Lemma paced_for_each {S A} lo hi (l : list A) (body : A -> Py S unit) :
  (forall x y, lo <= x <= hi -> lo <= y <= hi -> R x y)%nat ->
  Forall (fun x => emits (paced key R acceptable lo hi) (body x)) l ->
  emits (paced key R acceptable lo hi) (for_each l body).
Proof.
  intros HR. apply emits_for_each; [apply paced_nil|].
  intros t1 t2. by apply paced_app.
Qed.

End PacedLaws.

(** ** The files step *)

Section FilesStep.
Variable env : Env.

Lemma create_file_state item s h : (create_file env item s h).1.2 = s.
Proof.
  unfold create_file, bind, mkdir_parents, open_file, write_file, print, ret.
  destruct (truthy (dirname item.1)); simpl;
    repeat (match goal with
            | |- context [match ?r with Ok _ => _ | Raise _ => _ end] => destruct r
            end; simpl); done.
Qed.

Lemma for_each_create_file_state l s h :
  (for_each l (create_file env) s h).1.2 = s.
Proof.
  revert s h. induction l as [|item l IH]; intros s h; simpl; [done|].
  unfold bind. pose proof (create_file_state item s h) as Hs.
  destruct (create_file env item s h) as [[[[]|e] s1] t1]; simpl in *; subst; [|done].
  specialize (IH s (h ++ t1)).
  by destruct (for_each l (create_file env) s (h ++ t1)) as [[r s2] t2].
Qed.

Lemma create_all_files_unfold s h :
  create_all_files env s h =
  let '(r, s', t) :=
    for_each file_table (create_file env) (with_files s file_table)
             (h ++ [EPrint "📝 Creating project files..."]) in
  match r with
  | Ok _ => (Ok tt, s', EPrint "📝 Creating project files..." :: t
                         ++ [EPrint ("📁 Created " +:+ pretty (length (files_to_create s')) +:+ " files")])
  | Raise e => (Raise e, s', EPrint "📝 Creating project files..." :: t)
  end.
Proof.
  unfold create_all_files. rewrite bind_print.
  unfold get_launch_api, get_scaling_api, get_status_api, get_ai_learning_api,
    get_dashboard_html, get_scaling_engine, get_config_utils, get_vercel_config,
    get_package_json, get_requirements, get_env_example, get_readme,
    get_github_workflow, get_deploy_script.
  rewrite !bind_ret_l, bind_get_self, bind_set_self, bind_get_self.
  match goal with
  | |- context [dict_literal ?l] => change (dict_literal l) with file_table
  end.
  change {| project_name := project_name s; files_to_create := file_table |}
    with (with_files s file_table).
  change (files_to_create (with_files s file_table)) with file_table.
  unfold bind at 1.
  destruct (for_each file_table (create_file env) (with_files s file_table)
              (h ++ [EPrint "📝 Creating project files..."])) as [[[[]|e] s1] t1]; [|done].
  rewrite bind_get_self. reflexivity.
Qed.

(** Whatever the file system does, the object afterwards holds the fixed
    mapping, and nothing else about it has changed. *)
Lemma create_all_files_state s h :
  (create_all_files env s h).1.2 = with_files s file_table.
Proof.
  rewrite create_all_files_unfold.
  pose proof (for_each_create_file_state file_table (with_files s file_table)
                (h ++ [EPrint "📝 Creating project files..."])) as Hs.
  destruct (for_each file_table (create_file env) (with_files s file_table)
              (h ++ [EPrint "📝 Creating project files..."])) as [[[[]|e] s1] t1];
    simpl in *; by subst.
Qed.

(** A loop that returns has written every entry, in order. *)
Lemma for_each_create_file_ok l s h s' t :
  for_each l (create_file env) s h = (Ok tt, s', t) ->
  t = flat_map file_events l.
Proof.
  revert s h s' t. induction l as [|item l IH]; intros s h s' t; simpl.
  - by intros [= <- <-].
  - unfold bind at 1.
    destruct (create_file env item s h) as [[[[]|e] s1] t1] eqn:Hitem; [|done].
    destruct (for_each l (create_file env) s1 (h ++ t1)) as [[r s2] t2] eqn:Hrest.
    intros [= -> <- <-]. apply IH in Hrest as ->. f_equal.
    revert Hitem. unfold create_file, file_events, bind, mkdir_parents, open_file,
      write_file, print, ret.
    destruct (truthy (dirname item.1)); simpl;
      repeat (match goal with
              | |- context [match ?r with Ok _ => _ | Raise _ => _ end] =>
                  destruct r as [[]|] eqn:?
              end; simpl); try done; by intros [= <- <-].
Qed.

End FilesStep.

Lemma file_table_paths_NoDup : NoDup file_table.*1.
Proof. apply (bool_decide_unpack _). by vm_compute. Qed.

Lemma files_after_app fs t1 t2 :
  files_after fs (t1 ++ t2) = files_after (files_after fs t1) t2.
Proof. apply fold_left_app. Qed.

Lemma files_after_cons fs e t :
  files_after fs (e :: t) = files_after (apply_event fs e) t.
Proof. reflexivity. Qed.

Lemma files_after_file_events item fs :
  files_after fs (file_events item) = <[item.1 := item.2]> fs.
Proof.
  unfold file_events. rewrite files_after_app.
  assert (files_after fs (if truthy (dirname item.1)
                          then [EMkdir (dirname item.1) (Ok tt)] else []) = fs) as ->
    by (by destruct (truthy (dirname item.1))).
  unfold files_after. simpl. rewrite lookup_insert_eq. simpl.
  by rewrite insert_insert_eq.
Qed.

(** Writing the entries of a mapping with distinct paths lays the mapping
    over what was there. *)
Lemma files_after_table l fs :
  NoDup l.*1 ->
  files_after fs (flat_map file_events l) = list_to_map l ∪ fs.
Proof.
  revert fs. induction l as [|[p c] l IH]; intros fs Hnd; simpl.
  - unfold files_after. simpl. by rewrite (left_id_L ∅ (∪)).
  - apply NoDup_cons in Hnd as [Hp Hnd].
    rewrite files_after_app, files_after_file_events, IH by done. simpl.
    rewrite <- insert_union_r, insert_union_l; [done|].
    by apply not_elem_of_list_to_map_1.
Qed.

Lemma for_each_create_file_reliable env l s h :
  (forall h d, on_mkdir env h d = Ok tt) ->
  (forall h p m, on_open env h p m = Ok tt) ->
  (forall h p c, on_write env h p c = Ok tt) ->
  for_each l (create_file env) s h = (Ok tt, s, flat_map file_events l).
Proof.
  intros Hmk Hop Hwr. revert h. induction l as [|item l IH]; intros h; [done|].
  simpl. unfold bind at 1.
  assert (create_file env item s h = (Ok tt, s, file_events item)) as ->.
  { unfold create_file, file_events, bind, mkdir_parents, open_file, write_file,
      print, ret.
    destruct (truthy (dirname item.1)); simpl;
      rewrite ?Hmk, ?Hop, ?Hwr; simpl; rewrite ?Hop, ?Hwr; simpl;
      rewrite ?Hwr; done. }
  by rewrite IH.
Qed.

(** With a file system that goes along, [create_all_files] returns. *)
Lemma create_all_files_completes env s h :
  (forall h d, on_mkdir env h d = Ok tt) ->
  (forall h p m, on_open env h p m = Ok tt) ->
  (forall h p c, on_write env h p c = Ok tt) ->
  (create_all_files env s h).1.1 = Ok tt.
Proof.
  intros Hmk Hop Hwr. rewrite create_all_files_unfold.
  by rewrite for_each_create_file_reliable.
Qed.

(** What a call of [create_all_files] that returns has done. *)
Lemma create_all_files_returns env s h s' t :
  create_all_files env s h = (Ok tt, s', t) ->
  files_to_create s' = file_table /\
  length file_table = 16%nat /\
  t = [EPrint "📝 Creating project files..."]
        ++ flat_map file_events file_table ++ [EPrint "📁 Created 16 files"] /\
  forall fs, files_after fs t = list_to_map file_table ∪ fs.
Proof.
  intros Hrun.
  pose proof (create_all_files_state env s h) as Hs. rewrite Hrun in Hs.
  simpl in Hs. subst s'.
  rewrite create_all_files_unfold in Hrun.
  destruct (for_each file_table (create_file env) (with_files s file_table)
              (h ++ [EPrint "📝 Creating project files..."])) as [[[[]|e] s1] t1] eqn:Hloop;
    [|discriminate Hrun].
  apply for_each_create_file_ok in Hloop.
  remember (flat_map file_events file_table) as evs eqn:Hevs.
  assert (t = [EPrint "📝 Creating project files..."] ++ evs ++ [EPrint "📁 Created 16 files"])
    as ->.
  { injection Hrun as Hs1 Ht. subst s1 t1 t. reflexivity. }
  split; [reflexivity|]. split; [reflexivity|]. split; [reflexivity|].
  intros fs. subst evs.
  rewrite !files_after_app, files_after_table by apply file_table_paths_NoDup.
  reflexivity.
Qed.

(** C1. [create_all_files] returns when the file system goes along, and
    when it returns the object holds the sixteen entries of the fixed
    mapping, from [api/launch.py] to [deploy.py]; the events of the call
    are, entry by entry and in order, the directory of the path made when
    the path has one, the path opened for writing, the content written and
    the progress line, between the opening and the closing line, and no
    other event; and whatever files there were before, afterwards every
    path of the mapping holds exactly its content and every other file is
    as it was. *)
Theorem create_all_files_writes_table env s h :
  ((forall h d, on_mkdir env h d = Ok tt) ->
   (forall h p m, on_open env h p m = Ok tt) ->
   (forall h p c, on_write env h p c = Ok tt) ->
   (create_all_files env s h).1.1 = Ok tt) /\
  forall s' t,
    create_all_files env s h = (Ok tt, s', t) ->
    files_to_create s' = file_table /\
    length file_table = 16%nat /\
    t = [EPrint "📝 Creating project files..."]
          ++ flat_map file_events file_table ++ [EPrint "📁 Created 16 files"] /\
    forall fs, files_after fs t = list_to_map file_table ∪ fs.
Proof.
  split; [apply create_all_files_completes|].
  intros s' t. apply create_all_files_returns.
Qed.

Lemma create_all_files_writes_table_witness :
  (create_all_files env_all_ok QuickSetup_init []).1.1 = Ok tt /\
  forall fs,
    files_after fs (create_all_files env_all_ok QuickSetup_init []).2
    = list_to_map file_table ∪ fs.
Proof.
  destruct (create_all_files_writes_table env_all_ok QuickSetup_init [])
    as [Hcompletes Hwrites].
  assert ((create_all_files env_all_ok QuickSetup_init []).1.1 = Ok tt) as Hok
    by (apply Hcompletes; intros; reflexivity).
  destruct (create_all_files env_all_ok QuickSetup_init []) as [[r s'] t].
  simpl in Hok. subst r. split; [reflexivity|].
  apply (Hwrites s' t eq_refl).
Defined.

(** C6. Each of the fourteen file-generation methods has one text that it
    returns whatever the object and the history of the process are, leaving
    the object as it was and adding no event; none takes anything from the
    environment. *)
Theorem getters_deterministic :
  Forall (fun g => exists text, forall s h, g s h = (Ok text, s, [])) getters.
Proof. unfold getters. repeat constructor; eexists; intros s h; reflexivity. Qed.

Lemma print_banner_interrupted env s h :
  on_input env (h ++ [EPrint banner_text]) = Raise KeyboardInterrupt ->
  print_banner env s h =
  (Raise (SystemExit 1), s,
   [EPrint banner_text; EInput (Raise KeyboardInterrupt); EPrint cancelled_message]).
Proof.
  intros Hin. unfold print_banner. rewrite bind_print.
  unfold try_except, bind, input. by rewrite Hin.
Qed.

(** C9. When the user answers the banner prompt with Ctrl+C, [print_banner]
    prints the cancellation line and exits with code 1; the [SystemExit]
    passes through both handlers of [run_setup] and through [main]: the
    process ends with status 1 after the banner, the prompt and the
    cancellation line, so that no file was opened or written and neither
    closing message of [main] was printed. *)
Theorem interrupt_at_banner env :
  on_input env [EPrint banner_text] = Raise KeyboardInterrupt ->
  (run_setup env QuickSetup_init []).1.1 = Raise (SystemExit 1) /\
  script env =
    (1%Z, [EPrint banner_text; EInput (Raise KeyboardInterrupt); EPrint cancelled_message]) /\
  opened (script env).2 = [] /\
  Forall (fun e => ~ writes e) (script env).2 /\
  (success_message ∉ printed (script env).2) /\
  (errors_message ∉ printed (script env).2).
Proof.
  intros Hin.
  assert (run_setup env QuickSetup_init [] =
          (Raise (SystemExit 1), QuickSetup_init,
           [EPrint banner_text; EInput (Raise KeyboardInterrupt); EPrint cancelled_message]))
    as Hrun.
  { unfold run_setup, try_except. unfold bind at 1.
    by rewrite print_banner_interrupted. }
  assert (script env =
          (1%Z, [EPrint banner_text; EInput (Raise KeyboardInterrupt);
                 EPrint cancelled_message])) as Hscript.
  { unfold script, main. rewrite bind_set_self. unfold bind. by rewrite Hrun. }
  rewrite Hscript, Hrun. split_and!; try reflexivity.
  - repeat constructor; simpl; tauto.
  - apply (bool_decide_unpack _). by vm_compute.
  - apply (bool_decide_unpack _). by vm_compute.
Qed.

Lemma interrupt_at_banner_witness :
  script env_interrupt =
    (1%Z, [EPrint banner_text; EInput (Raise KeyboardInterrupt); EPrint cancelled_message]).
Proof. apply (interrupt_at_banner env_interrupt). reflexivity. Defined.

(** C4, as the code has it.  Every handler method of the four generated
    files ignores the request.  The methods that do not read the clock
    answer with one fixed response; [do_POST] and [do_GET] of
    [api/launch.py] and [do_GET] of [api/status.py] put
    [datetime.now().isoformat()] into their dictionary, and answer alike
    on two invocations whenever the clock reads the same. *)
Theorem handlers_fixed_up_to_clock (f : Api.api_file) (m : Api.http_method) :
  match Api.handler f m with
  | Some hd =>
      (forall r1 r2 now, hd r1 now = hd r2 now) /\
      (forall r1 r2 t1 t2, Api.isoformat t1 = Api.isoformat t2 -> hd r1 t1 = hd r2 t2) /\
      (Api.reads_clock f m = false -> forall r1 r2 t1 t2, hd r1 t1 = hd r2 t2)
  | None => True
  end.
Proof.
  destruct f, m; simpl; try exact I; split_and!; try discriminate; try reflexivity;
    intros r1 r2 t1 t2 Hiso;
    unfold Api.launch_do_POST, Api.launch_do_GET, Api.status_do_GET;
    by rewrite Hiso.
Qed.

(** C4 as stated fails: two invocations of [do_POST] of [api/launch.py]
    at different times answer with different bodies. *)
Lemma launch_body_follows_clock :
  Api.body (Api.launch_do_POST empty_request morning)
  <> Api.body (Api.launch_do_POST empty_request evening).
Proof. apply (bool_decide_unpack _). by vm_compute. Qed.

(** ** The git and deployment steps *)

Lemma bind_run_checked {S B} env argv (k : CompletedProcess -> Py S B) s h :
  bind (subprocess_run env argv true) k s h =
  match checked argv (on_run env h argv) with
  | Ok cp =>
      let '(r, s2, t2) := k cp s (h ++ [ERun argv (on_run env h argv)]) in
      (r, s2, ERun argv (on_run env h argv) :: t2)
  | Raise e => (Raise e, s, [ERun argv (on_run env h argv)])
  end.
Proof. reflexivity. Qed.

Lemma bind_run_unchecked {S B} env argv (k : CompletedProcess -> Py S B) s h :
  bind (subprocess_run env argv false) k s h =
  match on_run env h argv with
  | Ok cp =>
      let '(r, s2, t2) := k cp s (h ++ [ERun argv (on_run env h argv)]) in
      (r, s2, ERun argv (on_run env h argv) :: t2)
  | Raise e => (Raise e, s, [ERun argv (on_run env h argv)])
  end.
Proof. reflexivity. Qed.

Lemma print_eq {S} x (s : S) h : print x s h = (Ok tt, s, [EPrint x]).
Proof. reflexivity. Qed.

Lemma ret_eq {S A} (a : A) (s : S) h : ret a s h = (Ok a, s, []).
Proof. reflexivity. Qed.

(** Running the script by hand: the next statement is exposed, the
    answer of the environment to a command is named and what [check]
    makes of it is taken apart, and a class test of a handler is decided
    either way. *)
Ltac next_statement :=
  first [ rewrite bind_run_checked | rewrite bind_run_unchecked
        | rewrite bind_print | rewrite bind_get_self | rewrite bind_ret_l
        | rewrite print_eq | rewrite ret_eq ].

Ltac next_answer :=
  match goal with
  | |- context [match checked ?a (on_run ?env ?h ?a) with Ok _ => _ | Raise _ => _ end] =>
      let r := fresh "r" in
      let Hr := fresh "Hr" in
      remember (on_run env h a) as r eqn:Hr; clear Hr;
      let Hc := fresh "Hc" in
      destruct (checked a r) eqn:Hc
  | |- context [match on_run ?env ?h ?a with Ok _ => _ | Raise _ => _ end] =>
      let r := fresh "r" in
      let Hr := fresh "Hr" in
      remember (on_run env h a) as r eqn:Hr; clear Hr;
      destruct r
  | |- context [if is_Exception ?e then _ else _] =>
      let He := fresh "He" in destruct (is_Exception e) eqn:He
  | |- context [if is_FileNotFoundError ?e then _ else _] =>
      let He := fresh "He" in destruct (is_FileNotFoundError e) eqn:He
  | |- context [if (returncode ?cp =? 0)%Z then _ else _] =>
      let Hz := fresh "Hz" in destruct (returncode cp =? 0)%Z eqn:Hz
  end.

Ltac run_script :=
  repeat first
    [ next_statement
    | progress cbv beta iota zeta
    | progress cbn [dispatch any_exception]
    | next_answer ].

(** Membership in a list that is written out. *)
Ltac cases_elem H :=
  lazymatch type of H with
  | _ ∈ [] => exfalso; exact (proj1 (elem_of_nil _) H)
  | _ ∈ _ :: _ => apply elem_of_cons in H as [H|H]; [ | cases_elem H ]
  | _ => idtac
  end.

Ltac find_elem :=
  solve [ repeat first [ apply list_elem_of_here | apply list_elem_of_further ] ].

(** What [check] made of an answer, against what it is now supposed to
    have made of it. *)
Ltac same_answer :=
  match goal with
  | Hc : checked ?a ?r = _, H : checked ?a ?r = _ |- _ =>
      rewrite Hc in H; first [ discriminate H | injection H as <- ]
  end.

Ltac failed_run H Hin :=
  cases_elem H; subst; cases_elem Hin; try discriminate Hin;
  simplify_eq; same_answer.

Section GitBlock.
Variable env : Env.

Lemma git_block_handlers s h r s' t :
  git_block env s h = (r, s', t) ->
  s' = s /\
  (forall argv r' e,
      argv ∈ github_commands (project_name s) -> ERun argv r' ∈ t ->
      checked argv r' = Raise e ->
      r = Ok tt /\ EPrint github_warning ∈ t) /\
  (forall argv r' e,
      argv ∈ git_commands -> ERun argv r' ∈ t -> checked argv r' = Raise e ->
      if is_Exception e then r = Ok tt /\ EPrint (git_warning env e) ∈ t
      else r = Raise e) /\
  (forall e, r = Raise e ->
      is_Exception e = false /\
      exists argv r', argv ∈ git_commands /\ ERun argv r' ∈ t /\ checked argv r' = Raise e) /\
  vercel_command ∉ runs_of t.
Proof.
  unfold git_block, try_except.
  run_script.
  all: cbn [app]; intros Heq; injection Heq as <- <- <-.
  all: split; [reflexivity|].
  all: split; [intros argv r' e' Hargv Hin Hchk; unfold github_commands in Hargv;
               failed_run Hargv Hin; (split; [reflexivity|find_elem]) |].
  all: split; [intros argv r' e' Hargv Hin Hchk; unfold git_commands in Hargv;
               failed_run Hargv Hin;
               (match goal with He : is_Exception _ = _ |- _ => rewrite He end;
                first [ reflexivity | split; [reflexivity|find_elem] ]) |].
  all: split; [intros e' Hr;
               first [ discriminate Hr
                     | injection Hr as <-; split; [assumption|];
                       match goal with
                       | Hc : checked ?a ?r = Raise ?e |- context [Raise ?e] =>
                           exists a, r; split; [find_elem|]; split; [find_elem|exact Hc]
                       end ] |].
  all: cbn; intros Hin; cases_elem Hin; discriminate Hin.
Qed.

End GitBlock.

Section VercelBlock.
Variable env : Env.

Lemma print_live_url_prints lines s h :
  exists t, print_live_url lines s h = (Ok tt, s, t) /\ prints_only t.
Proof.
  induction lines as [|line lines IH]; simpl.
  - exists []. split; [done|constructor].
  - destruct (contains "https://" line && contains "vercel.app" line); [|done].
    eexists. split; [reflexivity|]. by repeat constructor.
Qed.

Lemma vercel_block_handlers s h r s' t :
  vercel_block env s h = (r, s', t) ->
  s' = s /\
  exists t', t = ERun vercel_command (on_run env h vercel_command) :: t' /\ prints_only t' /\
    match on_run env h vercel_command with
    | Ok cp => r = Ok tt
    | Raise e =>
        if is_FileNotFoundError e
        then r = Ok tt /\ t' = [EPrint vercel_not_found; EPrint install_hint]
        else r = Raise e /\ t' = []
    end.
Proof.
  unfold vercel_block, try_except. rewrite bind_run_unchecked.
  fold vercel_command.
  destruct (on_run env h vercel_command) as [cp|e].
  - destruct (returncode cp =? 0)%Z.
    + rewrite bind_print.
      destruct (print_live_url_prints (split_on (ascii_of_nat 10) (stdout cp)) s
                  ((h ++ [ERun vercel_command (Ok cp)])
                   ++ [EPrint "  ✅ Deployed to Vercel successfully!"]))
        as (t1 & -> & Ht1).
      intros [= <- <- <-]. split; [done|].
      eexists. split; [reflexivity|]. split; [|done]. by constructor.
    + rewrite bind_print, print_eq. intros [= <- <- <-]. split; [done|].
      eexists. split; [reflexivity|]. split; [|done]. by repeat constructor.
  - cbn [dispatch]. destruct (is_FileNotFoundError e).
    + rewrite bind_print, print_eq. intros [= <- <- <-]. split; [done|].
      eexists. split; [reflexivity|]. split; [by repeat constructor|done].
    + intros [= <- <- <-]. split; [done|].
      eexists. split; [reflexivity|]. split; [constructor|done].
Qed.

End VercelBlock.

Lemma prints_only_no_run t argv r : prints_only t -> ERun argv r ∉ t.
Proof.
  intros Ht Hin. unfold prints_only in Ht. rewrite Forall_forall in Ht.
  exact (Ht _ Hin).
Qed.

Lemma prints_only_runs_of t : prints_only t -> runs_of t = [].
Proof.
  induction 1 as [|[] t He _ IH]; simpl; try done.
Qed.

Lemma runs_of_app t1 t2 : runs_of (t1 ++ t2) = runs_of t1 ++ runs_of t2.
Proof. apply omap_app. Qed.

Lemma vercel_not_github name : vercel_command ∉ github_commands name.
Proof. intros H. unfold github_commands in H. cases_elem H; discriminate H. Qed.

Lemma vercel_not_git : vercel_command ∉ git_commands.
Proof. intros H. unfold git_commands in H. cases_elem H; discriminate H. Qed.

Lemma elem_of_runs_of argv t : argv ∈ runs_of t <-> exists r, ERun argv r ∈ t.
Proof.
  unfold runs_of. rewrite list_elem_of_omap. split.
  - intros ([] & Hin & Heq); try discriminate Heq.
    injection Heq as ->. eauto.
  - intros (r & Hin). by exists (ERun argv r).
Qed.

Lemma setup_git_and_deploy_unfold env s h :
  setup_git_and_deploy env s h =
  match git_block env s (h ++ [EPrint setting_up_message]) with
  | (Ok _, s1, tg) =>
      let '(r, s2, tv) :=
        vercel_block env s1
          (((h ++ [EPrint setting_up_message]) ++ tg) ++ [EPrint deploying_message]) in
      (r, s2, EPrint setting_up_message :: tg ++ EPrint deploying_message :: tv)
  | (Raise e, s1, tg) => (Raise e, s1, EPrint setting_up_message :: tg)
  end.
Proof.
  unfold setup_git_and_deploy. rewrite bind_print. unfold bind at 1.
  fold setting_up_message.
  destruct (git_block env s (h ++ [EPrint setting_up_message])) as [[[[]|e] s1] tg]; [|done].
  rewrite bind_print. fold deploying_message.
  by destruct (vercel_block env s1 _) as [[r s2] tv].
Qed.

(** C3, as the code has it.  In a call of [setup_git_and_deploy]: a failure
    of [gh repo create], [git remote add] or [git push], of whatever
    class, is caught by the bare handler, the GitHub warning is printed and
    the deployment is attempted; a failure of [git init], [git add] or
    [git commit] is caught when it is an instance of [Exception], the
    warning with its text is printed and the deployment is attempted, and
    otherwise it leaves the call at once; of what the deployment command
    raises only [FileNotFoundError] is caught, with its message, and any
    other exception leaves the call, while a deployment that ends, with
    whatever status, raises nothing.  An exception leaves the call in
    these two ways only. *)
Theorem contained_and_escaping_failures env s h :
  let '(r, s', t) := setup_git_and_deploy env s h in
  (forall argv r' e,
      argv ∈ github_commands (project_name s) -> ERun argv r' ∈ t ->
      checked argv r' = Raise e ->
      EPrint github_warning ∈ t /\ vercel_command ∈ runs_of t) /\
  (forall argv r' e,
      argv ∈ git_commands -> ERun argv r' ∈ t -> checked argv r' = Raise e ->
      if is_Exception e
      then EPrint (git_warning env e) ∈ t /\ vercel_command ∈ runs_of t
      else r = Raise e /\ vercel_command ∉ runs_of t) /\
  (forall e,
      ERun vercel_command (Raise e) ∈ t ->
      if is_FileNotFoundError e
      then r = Ok tt /\ EPrint vercel_not_found ∈ t
      else r = Raise e) /\
  (forall cp, ERun vercel_command (Ok cp) ∈ t -> r = Ok tt) /\
  (forall e,
      r = Raise e ->
      (is_Exception e = false /\
       exists argv r', argv ∈ git_commands /\ ERun argv r' ∈ t /\ checked argv r' = Raise e)
      \/ (is_FileNotFoundError e = false /\ ERun vercel_command (Raise e) ∈ t)).
Proof.
  rewrite setup_git_and_deploy_unfold.
  destruct (git_block env s (h ++ [EPrint setting_up_message])) as [[rg sg] tg] eqn:Hg.
  apply git_block_handlers in Hg as (-> & G1 & G2 & G3 & G4).
  assert (forall argv r', ERun argv r' ∈ tg -> argv <> vercel_command) as Hgv.
  { intros argv r' Hin ->. apply G4, elem_of_runs_of. eauto. }
  destruct rg as [[]|eg].
  - destruct (vercel_block env s _) as [[rv sv] tv] eqn:Hv.
    apply vercel_block_handlers in Hv as (-> & t' & -> & Hp & Hm).
    set (h1 := ((h ++ [EPrint setting_up_message]) ++ tg) ++ [EPrint deploying_message]) in *.
    set (a := on_run env h1 vercel_command) in *.
    assert (forall argv r',
               ERun argv r' ∈ EPrint setting_up_message :: tg
                 ++ EPrint deploying_message :: ERun vercel_command a :: t' ->
               ERun argv r' ∈ tg \/ (argv = vercel_command /\ r' = a)) as Hsplit.
    { intros argv r' Hin. apply elem_of_cons in Hin as [Hin|Hin]; [discriminate Hin|].
      apply elem_of_app in Hin as [Hin|Hin]; [by left|].
      apply elem_of_cons in Hin as [Hin|Hin]; [discriminate Hin|].
      apply elem_of_cons in Hin as [Hin|Hin]; [injection Hin as -> ->; by right|].
      by apply prints_only_no_run in Hin. }
    assert (vercel_command ∈ runs_of (EPrint setting_up_message :: tg
              ++ EPrint deploying_message :: ERun vercel_command a :: t')) as Hattempt.
    { apply elem_of_runs_of. exists a. right. apply elem_of_app. right. right. left. }
    assert (forall x, x ∈ tg -> x ∈ EPrint setting_up_message :: tg
              ++ EPrint deploying_message :: ERun vercel_command a :: t') as Hsub.
    { intros x Hx. right. apply elem_of_app. by left. }
    split_and!.
    + intros argv r' e Hargv Hin Hchk.
      apply Hsplit in Hin as [Hin|[-> ->]]; [|by apply vercel_not_github in Hargv].
      destruct (G1 argv r' e Hargv Hin Hchk) as [_ Hw]. auto.
    + intros argv r' e Hargv Hin Hchk.
      apply Hsplit in Hin as [Hin|[-> ->]]; [|by apply vercel_not_git in Hargv].
      specialize (G2 argv r' e Hargv Hin Hchk).
      destruct (is_Exception e); [|discriminate G2].
      destruct G2 as [_ Hw]. auto.
    + intros e Hin.
      apply Hsplit in Hin as [Hin|[_ Ha]]; [by apply Hgv in Hin|].
      rewrite <- Ha in Hm. destruct (is_FileNotFoundError e); [|by destruct Hm].
      destruct Hm as [-> ->]. split; [done|].
      right. apply elem_of_app. right. right. right. left.
    + intros cp Hin.
      apply Hsplit in Hin as [Hin|[_ Ha]]; [by apply Hgv in Hin|].
      by rewrite <- Ha in Hm.
    + intros e ->. right. destruct a as [cp|e'] eqn:Ha; [discriminate Hm|].
      destruct (is_FileNotFoundError e') eqn:Hfnf; [by destruct Hm|].
      destruct Hm as [[= ->] _]. split; [done|].
      right. apply elem_of_app. right. right. left.
  - destruct (G3 eg eq_refl) as (Hne & argv0 & r0 & Hargv0 & Hin0 & Hchk0).
    assert (forall argv r', ERun argv r' ∈ EPrint setting_up_message :: tg ->
                            ERun argv r' ∈ tg) as Hsplit.
    { intros argv r' Hin. by apply elem_of_cons in Hin as [Hin|Hin]; [discriminate Hin|]. }
    assert (vercel_command ∉ runs_of (EPrint setting_up_message :: tg)) as Hnot.
    { intros (r' & Hin)%elem_of_runs_of. by apply Hsplit, Hgv in Hin. }
    split_and!.
    + intros argv r' e Hargv Hin Hchk. apply Hsplit in Hin.
      by destruct (G1 argv r' e Hargv Hin Hchk).
    + intros argv r' e Hargv Hin Hchk. apply Hsplit in Hin.
      specialize (G2 argv r' e Hargv Hin Hchk).
      destruct (is_Exception e); [by destruct G2|]. done.
    + intros e Hin. by apply Hsplit, Hgv in Hin.
    + intros cp Hin. by apply Hsplit, Hgv in Hin.
    + intros e [= <-]. left. split; [done|]. exists argv0, r0.
      split_and!; [done| by right |done].
Qed.

(** C3 as stated fails: a deployment command that may not be executed
    raises [PermissionError], which the handler of the deployment step does
    not catch; it leaves [setup_git_and_deploy], and [run_setup] ends the
    run there, without the summary, and reports failure. *)
Lemma vercel_failure_escapes :
  (setup_git_and_deploy env_vercel_denied QuickSetup_init []).1.1
    = Raise (OtherException "PermissionError" "[Errno 13] Permission denied: 'vercel'") /\
  (run_setup env_vercel_denied QuickSetup_init []).1.1 = Ok false /\
  summary_text ∉ printed (run_setup env_vercel_denied QuickSetup_init []).2.
Proof.
  split_and!.
  - vm_compute. reflexivity.
  - vm_compute. reflexivity.
  - apply (bool_decide_unpack _). by vm_compute.
Qed.

(** C10. When [git init], [git add] and [git commit] have succeeded and
    [gh repo create] fails, by an exception of whatever class or by a
    non-zero status, the inner handler catches the failure and prints its
    warning; the git block returns normally, the deployment step runs
    next, and the commands of the call are the three git commands,
    [gh repo create] and the deployment command: [git remote add] and
    [git push] are not attempted. *)
Theorem github_failure_is_contained env s h cp1 cp2 cp3 e :
  let g_init := ["git"; "init"] in
  let g_add := ["git"; "add"; "."] in
  let g_commit := ["git"; "commit"; "-m"; "Initial commit: Autonomous Revenue System v2.0"] in
  let gh := ["gh"; "repo"; "create"; project_name s; "--public"] in
  let h0 := h ++ [EPrint setting_up_message] in
  let r1 := on_run env h0 g_init in
  let h1 := h0 ++ [ERun g_init r1] in
  let r2 := on_run env h1 g_add in
  let h2 := h1 ++ [ERun g_add r2] in
  let r3 := on_run env h2 g_commit in
  let h3 := (h2 ++ [ERun g_commit r3]) ++ [EPrint git_initialized] in
  let r4 := on_run env h3 gh in
  let t_git := [ERun g_init r1; ERun g_add r2; ERun g_commit r3; EPrint git_initialized;
                ERun gh r4; EPrint github_warning] in
  checked g_init r1 = Ok cp1 ->
  checked g_add r2 = Ok cp2 ->
  checked g_commit r3 = Ok cp3 ->
  checked gh r4 = Raise e ->
  git_block env s h0 = (Ok tt, s, t_git) /\
  setup_git_and_deploy env s h =
    (let '(rv, sv, tv) := vercel_block env s ((h0 ++ t_git) ++ [EPrint deploying_message]) in
     (rv, sv, EPrint setting_up_message :: t_git ++ EPrint deploying_message :: tv)) /\
  runs_of (setup_git_and_deploy env s h).2 = [g_init; g_add; g_commit; gh; vercel_command].
Proof.
  intros g_init g_add g_commit gh h0 r1 h1 r2 h2 r3 h3 r4 t_git H1 H2 H3 H4.
  assert (git_block env s h0 = (Ok tt, s, t_git)) as Hgit.
  { unfold git_block, try_except at 1.
    rewrite bind_run_checked. fold g_init r1. rewrite H1.
    rewrite bind_run_checked. fold h1 g_add r2. rewrite H2.
    rewrite bind_run_checked. fold h2 g_commit r3. rewrite H3.
    rewrite bind_print. unfold try_except. rewrite bind_get_self, bind_run_checked.
    fold git_initialized gh h3 r4. rewrite H4. reflexivity. }
  assert (setup_git_and_deploy env s h =
          (let '(rv, sv, tv) :=
             vercel_block env s ((h0 ++ t_git) ++ [EPrint deploying_message]) in
           (rv, sv, EPrint setting_up_message :: t_git ++ EPrint deploying_message :: tv)))
    as Hsetup.
  { rewrite setup_git_and_deploy_unfold. fold h0. by rewrite Hgit. }
  split; [exact Hgit|]. split; [exact Hsetup|].
  rewrite Hsetup.
  destruct (vercel_block env s ((h0 ++ t_git) ++ [EPrint deploying_message]))
    as [[rv sv] tv] eqn:Hv.
  apply vercel_block_handlers in Hv as (_ & t' & -> & Hp & _).
  simpl. by rewrite (prints_only_runs_of t').
Qed.

Lemma github_failure_is_contained_witness :
  runs_of (setup_git_and_deploy env_no_gh QuickSetup_init []).2
  = [["git"; "init"]; ["git"; "add"; "."];
     ["git"; "commit"; "-m"; "Initial commit: Autonomous Revenue System v2.0"];
     ["gh"; "repo"; "create"; "autonomous-revenue-system"; "--public"];
     vercel_command].
Proof.
  apply (github_failure_is_contained env_no_gh QuickSetup_init []
           {| returncode := 0; stdout := "" |}
           {| returncode := 0; stdout := "" |}
           {| returncode := 0; stdout := "" |}
           (FileNotFoundError "[Errno 2] No such file or directory: 'gh'"));
    reflexivity.
Defined.

(** ** The order of a run *)

Lemma create_all_files_emits env (P : list event -> Prop) :
  (forall x, String.prefix box_head x = false -> P [EPrint x]) -> P [] ->
  (forall t1 t2, P t1 -> P t2 -> P (t1 ++ t2)) ->
  Forall (fun item => emits P (create_file env item)) file_table ->
  emits P (create_all_files env).
Proof.
  intros Hprint Hnil Happ Hitems s h. rewrite create_all_files_unfold.
  pose proof (emits_for_each P file_table (create_file env) Hnil Happ Hitems
                (with_files s file_table)
                (h ++ [EPrint "📝 Creating project files..."])) as Hloop.
  destruct (for_each file_table (create_file env) (with_files s file_table)
              (h ++ [EPrint "📝 Creating project files..."])) as [[[[]|e] s1] t1];
    simpl in *.
  - apply (Happ [_]); [by apply Hprint|]. apply Happ; [done|by apply Hprint].
  - apply (Happ [_]); [by apply Hprint|done].
Qed.

Section NoRetry.
Variable env : Env.

Local Abbreviation runs lo hi := (emits (paced run_key lt known_run lo hi)).

Lemma paced_run i lo hi argv r :
  command_index argv = Some i -> (lo <= i <= hi)%nat ->
  paced run_key lt known_run lo hi [ERun argv r].
Proof.
  intros Hi Hb. apply (paced_keyed _ _ _ _ _ _ i); [|done..].
  simpl. rewrite Hi. by eexists.
Qed.

Lemma runs_print {S} lo hi x : runs lo hi (print (S:=S) x).
Proof. apply emits_print. by apply paced_unkeyed. Qed.

Lemma runs_ret {S A} lo hi (a : A) : runs lo hi (ret (S:=S) a).
Proof. apply emits_ret, paced_nil. Qed.

Ltac runs_seq lo1 hi1 lo2 hi2 :=
  apply (paced_bind _ _ _ lo1 hi1 lo2 hi2); [intros; lia..| |intros ?].

Ltac runs_try lo1 hi1 lo2 hi2 :=
  apply (paced_try _ _ _ lo1 hi1 lo2 hi2); [intros; lia..| |].

Ltac one_handler := apply List.Forall_cons; [intros ?; simpl|apply List.Forall_nil].

Ltac runs_cmd i :=
  apply emits_run; intros ?; apply (paced_run i); [reflexivity|lia].

Lemma runs_print_banner : runs 1 0 (print_banner env).
Proof.
  unfold print_banner.
  runs_seq 1 0 1 0; [apply runs_print|].
  runs_try 1 0 1 0.
  - runs_seq 1 0 1 0; [|apply runs_ret].
    apply emits_input. intros r. by apply paced_unkeyed.
  - one_handler. runs_seq 1 0 1 0; [apply runs_print|]. apply emits_raise, paced_nil.
Qed.

Lemma runs_create_file item : runs 1 0 (create_file env item).
Proof.
  unfold create_file.
  runs_seq 1 0 1 0.
  { destruct (truthy (dirname item.1)); [|apply runs_ret].
    apply emits_mkdir. intros r. by apply paced_unkeyed. }
  runs_seq 1 0 1 0; [apply emits_open; intros r; by apply paced_unkeyed|].
  runs_seq 1 0 1 0; [apply emits_write; intros r; by apply paced_unkeyed|].
  apply runs_print.
Qed.

Lemma runs_create_all_files : runs 1 0 (create_all_files env).
Proof.
  apply create_all_files_emits.
  - intros x _. by apply paced_unkeyed.
  - apply paced_nil.
  - intros t1 t2. apply paced_app; intros; lia.
  - apply Forall_forall. intros item _. apply runs_create_file.
Qed.

Lemma runs_print_live_url lines : runs 1 0 (print_live_url lines).
Proof.
  induction lines as [|line lines IH]; simpl; [apply runs_ret|].
  destruct (contains "https://" line && contains "vercel.app" line); [|done].
  apply runs_print.
Qed.

Lemma runs_git_block : runs 0 5 (git_block env).
Proof.
  unfold git_block.
  runs_try 0 5 1 0; [|one_handler; apply runs_print].
  runs_seq 0 0 1 5; [runs_cmd 0%nat|].
  runs_seq 1 1 2 5; [runs_cmd 1%nat|].
  runs_seq 2 2 3 5; [runs_cmd 2%nat|].
  runs_seq 1 0 3 5; [apply runs_print|].
  runs_try 3 5 1 0; [|one_handler; apply runs_print].
  runs_seq 1 0 3 5; [apply emits_get_self, paced_nil|].
  runs_seq 3 3 4 5; [runs_cmd 3%nat|].
  runs_seq 1 0 4 5; [apply emits_get_self, paced_nil|].
  runs_seq 4 4 5 5; [runs_cmd 4%nat|].
  runs_seq 5 5 1 0; [runs_cmd 5%nat|].
  apply runs_print.
Qed.

Lemma runs_vercel_block : runs 6 6 (vercel_block env).
Proof.
  unfold vercel_block.
  runs_try 6 6 1 0.
  - runs_seq 6 6 1 0; [runs_cmd 6%nat|].
    destruct (returncode _ =? 0)%Z.
    + runs_seq 1 0 1 0; [apply runs_print|apply runs_print_live_url].
    + runs_seq 1 0 1 0; apply runs_print.
  - one_handler. runs_seq 1 0 1 0; apply runs_print.
Qed.

Lemma runs_setup_git_and_deploy : runs 0 6 (setup_git_and_deploy env).
Proof.
  unfold setup_git_and_deploy.
  runs_seq 1 0 0 6; [apply runs_print|].
  runs_seq 0 5 6 6; [apply runs_git_block|].
  runs_seq 1 0 6 6; [apply runs_print|apply runs_vercel_block].
Qed.

Lemma runs_run_setup : runs 0 6 (run_setup env).
Proof.
  unfold run_setup.
  runs_try 0 6 1 0.
  - runs_seq 1 0 0 6; [apply runs_print_banner|].
    runs_seq 1 0 0 6; [apply runs_print|].
    runs_seq 1 0 0 6; [apply runs_print|].
    runs_seq 1 0 0 6; [apply runs_create_all_files|].
    runs_seq 0 6 1 0; [apply runs_setup_git_and_deploy|].
    runs_seq 1 0 1 0; [apply runs_print|apply runs_ret].
  - apply List.Forall_cons; [intros ?; simpl|one_handler].
    + runs_seq 1 0 1 0; [apply runs_print|apply runs_ret].
    + runs_seq 1 0 1 0; [apply runs_print|].
      runs_seq 1 0 1 0; [apply runs_print|apply runs_ret].
Qed.

Lemma runs_main : runs 0 6 (main env).
Proof.
  unfold main.
  runs_seq 1 0 0 6; [apply emits_set_self, paced_nil|].
  runs_seq 0 6 1 0; [apply runs_run_setup|].
  runs_seq 1 0 1 0; [|apply runs_ret].
  destruct a0; apply runs_print.
Qed.

End NoRetry.

(** Commands whose places strictly increase are pairwise distinct. *)
Lemma paced_runs_NoDup lo hi t :
  paced run_key lt known_run lo hi t -> NoDup (runs_of t).
Proof.
  intros (Hk & Hs & _). induction t as [|e t IH]; [constructor|].
  apply Forall_cons in Hk as [He Hk].
  destruct e as [x|r|d r|p m r|p c r|argv r]; simpl in *; try by apply IH.
  destruct He as [i Hi]. rewrite Hi in Hs. simpl in Hs.
  apply StronglySorted_cons in Hs as [Hlt Hs].
  constructor; [|by apply IH].
  intros (r' & Hin)%elem_of_runs_of.
  rewrite Forall_forall in Hlt.
  assert (i < i)%nat; [|lia]. apply Hlt.
  apply list_elem_of_omap. exists (ERun argv r'). by split.
Qed.

(** C7. In a run of [run_setup], and in a whole run of [main], whatever
    the environment answers, no command line is run twice: each of the
    seven external commands is attempted at most once, in their order,
    and nothing else is run. *)
Theorem no_command_is_retried env s h :
  NoDup (runs_of (run_setup env s h).2) /\
  NoDup (runs_of (main env s h).2) /\
  StronglySorted lt (omap run_key (main env s h).2) /\
  Forall known_run (main env s h).2.
Proof.
  split_and!.
  - eapply paced_runs_NoDup, runs_run_setup.
  - eapply paced_runs_NoDup, runs_main.
  - apply (runs_main env s h).
  - apply (runs_main env s h).
Qed.

Section StepOrder.
Variable env : Env.

Local Abbreviation steps lo hi := (emits (paced step_key le listed lo hi)).

Lemma progress_line x : String.prefix box_head x = false -> step_key (EPrint x) = None.
Proof.
  intros Hx. unfold step_key, step_of.
  rewrite !bool_decide_eq_false_2; [done|intros ->; by vm_compute in Hx..].
Qed.

Lemma paced_progress lo hi x :
  String.prefix box_head x = false -> paced step_key le listed lo hi [EPrint x].
Proof. intros Hx. apply paced_unkeyed; [exact I|by apply progress_line]. Qed.

Lemma paced_step st lo hi e :
  step_of e = Some st -> (lo <= rank st <= hi)%nat ->
  paced step_key le listed lo hi [e].
Proof.
  intros He Hb. apply (paced_keyed _ _ _ _ _ _ (rank st)); [| |done].
  - destruct e; [exact I|by eexists..].
  - unfold step_key. by rewrite He.
Qed.

Lemma steps_progress {S} lo hi x :
  String.prefix box_head x = false -> steps lo hi (print (S:=S) x).
Proof. intros Hx. by apply emits_print, paced_progress. Qed.

Lemma steps_ret {S A} lo hi (a : A) : steps lo hi (ret (S:=S) a).
Proof. apply emits_ret, paced_nil. Qed.

Ltac steps_seq lo1 hi1 lo2 hi2 :=
  apply (paced_bind _ _ _ lo1 hi1 lo2 hi2); [intros; lia..| |intros ?].

Ltac steps_try lo1 hi1 lo2 hi2 :=
  apply (paced_try _ _ _ lo1 hi1 lo2 hi2); [intros; lia..| |].

Ltac one_handler := apply List.Forall_cons; [intros ?; simpl|apply List.Forall_nil].

Ltac progress_print := apply steps_progress; reflexivity.

Ltac steps_cmd st :=
  apply emits_run; intros ?; apply (paced_step st); [reflexivity|simpl; lia].

Lemma steps_print_banner : steps 0 0 (print_banner env).
Proof.
  unfold print_banner.
  steps_seq 0 0 0 0.
  { apply emits_print, (paced_step Banner); [|simpl; lia].
    unfold step_of. by rewrite bool_decide_eq_true_2. }
  steps_try 0 0 0 0.
  - steps_seq 0 0 0 0; [|apply steps_ret].
    apply emits_input. intros r. by apply (paced_step Banner).
  - one_handler. steps_seq 0 0 0 0; [progress_print|]. apply emits_raise, paced_nil.
Qed.

Lemma steps_create_file item : item ∈ file_table -> steps 1 1 (create_file env item).
Proof.
  intros Hitem. unfold create_file.
  steps_seq 1 1 1 1.
  { destruct (truthy (dirname item.1)); [|apply steps_ret].
    apply emits_mkdir. intros r. apply (paced_step Files); [|simpl; lia].
    unfold step_of. rewrite bool_decide_eq_true_2; [done|].
    apply list_elem_of_fmap. by exists item. }
  steps_seq 1 1 1 1.
  { apply emits_open. intros r. apply (paced_step Files); [|simpl; lia].
    unfold step_of. rewrite bool_decide_eq_true_2; [done|].
    split; [|done]. apply list_elem_of_fmap. by exists item. }
  steps_seq 1 1 1 1.
  { apply emits_write. intros r. apply (paced_step Files); [|simpl; lia].
    unfold step_of. rewrite bool_decide_eq_true_2; [done|]. by destruct item. }
  progress_print.
Qed.

Lemma steps_create_all_files : steps 1 1 (create_all_files env).
Proof.
  apply create_all_files_emits.
  - intros x Hx. by apply paced_progress.
  - apply paced_nil.
  - intros t1 t2. apply paced_app; intros; lia.
  - apply Forall_forall. intros item Hitem. by apply steps_create_file.
Qed.

Lemma steps_print_live_url lo hi lines : steps lo hi (print_live_url lines).
Proof.
  induction lines as [|line lines IH]; simpl; [apply steps_ret|].
  destruct (contains "https://" line && contains "vercel.app" line); [|done].
  progress_print.
Qed.

Lemma steps_git_block : steps 2 3 (git_block env).
Proof.
  unfold git_block.
  steps_try 2 3 3 3; [|one_handler; progress_print].
  steps_seq 2 2 2 3; [steps_cmd Git|].
  steps_seq 2 2 2 3; [steps_cmd Git|].
  steps_seq 2 2 3 3; [steps_cmd Git|].
  steps_seq 3 3 3 3; [progress_print|].
  steps_try 3 3 3 3; [|one_handler; progress_print].
  steps_seq 3 3 3 3; [apply emits_get_self, paced_nil|].
  steps_seq 3 3 3 3; [steps_cmd GitHub|].
  steps_seq 3 3 3 3; [apply emits_get_self, paced_nil|].
  steps_seq 3 3 3 3; [steps_cmd GitHub|].
  steps_seq 3 3 3 3; [steps_cmd GitHub|].
  progress_print.
Qed.

Lemma steps_vercel_block : steps 4 4 (vercel_block env).
Proof.
  unfold vercel_block.
  steps_try 4 4 4 4.
  - steps_seq 4 4 4 4; [steps_cmd Vercel|].
    destruct (returncode _ =? 0)%Z.
    + steps_seq 4 4 4 4; [progress_print|apply steps_print_live_url].
    + steps_seq 4 4 4 4; progress_print.
  - one_handler. steps_seq 4 4 4 4; progress_print.
Qed.

Lemma steps_setup_git_and_deploy : steps 2 4 (setup_git_and_deploy env).
Proof.
  unfold setup_git_and_deploy.
  steps_seq 2 2 2 4; [progress_print|].
  steps_seq 2 3 4 4; [apply steps_git_block|].
  steps_seq 4 4 4 4; [progress_print|apply steps_vercel_block].
Qed.

Lemma steps_run_setup : steps 0 5 (run_setup env).
Proof.
  unfold run_setup.
  steps_try 0 5 5 5.
  - steps_seq 0 0 1 5; [apply steps_print_banner|].
    steps_seq 1 1 1 5; [progress_print|].
    steps_seq 1 1 1 5; [progress_print|].
    steps_seq 1 1 2 5; [apply steps_create_all_files|].
    steps_seq 2 4 5 5; [apply steps_setup_git_and_deploy|].
    steps_seq 5 5 5 5; [|apply steps_ret].
    apply emits_print, (paced_step Summary); [|simpl; lia].
    unfold step_of. rewrite bool_decide_eq_false_2 by (by vm_compute).
    by rewrite bool_decide_eq_true_2.
  - apply List.Forall_cons; [intros ?; simpl|one_handler].
    + steps_seq 5 5 5 5; [progress_print|apply steps_ret].
    + steps_seq 5 5 5 5; [progress_print|].
      steps_seq 5 5 5 5; [progress_print|apply steps_ret].
Qed.

End StepOrder.

Lemma print_banner_starts env s h :
  exists t', (print_banner env s h).2 = EPrint banner_text :: t'.
Proof.
  unfold print_banner. rewrite bind_print.
  destruct (try_except _ _ s (h ++ [EPrint banner_text])) as [[r s1] t1].
  by eexists.
Qed.

Lemma git_block_starts env s h :
  exists r t', (git_block env s h).2 = ERun ["git"; "init"] r :: t'.
Proof.
  set (P := fun t : list event => exists r t', t = ERun ["git"; "init"] r :: t').
  assert (forall t1 t2, P t1 -> True -> P (t1 ++ t2)) as Happ.
  { intros t1 t2 (r & t' & ->) _. by exists r, (t' ++ t2). }
  apply (emits_try P (fun _ => True) P); [|by apply Forall_forall|done|done].
  apply (emits_bind P (fun _ => True) P); [|done..].
  apply emits_run. intros r. by exists r, [].
Qed.

(** A run that returns [True] went through every step. *)
Lemma run_setup_true_inv env s h s' t :
  run_setup env s h = (Ok true, s', t) ->
  exists s1 t1 s2 t2 t3,
    let h1 := ((h ++ t1) ++ [EPrint starting_message]) ++ [EPrint separator_line] in
    print_banner env s h = (Ok tt, s1, t1) /\
    create_all_files env s1 h1 = (Ok tt, s2, t2) /\
    setup_git_and_deploy env s2 (h1 ++ t2) = (Ok tt, s', t3) /\
    t = t1 ++ [EPrint starting_message; EPrint separator_line] ++ t2 ++ t3
           ++ [EPrint summary_text].
Proof.
  unfold run_setup, try_except. unfold bind at 1.
  destruct (print_banner env s h) as [[[[]|e] s1] t1] eqn:Hb.
  2: { simpl. destruct (is_KeyboardInterrupt e); [discriminate|].
       destruct (is_Exception e); discriminate. }
  rewrite !bind_print. fold starting_message separator_line.
  unfold bind at 1.
  destruct (create_all_files env s1 _) as [[[[]|e] s2] t2] eqn:Hf.
  2: { simpl. destruct (is_KeyboardInterrupt e); [discriminate|].
       destruct (is_Exception e); discriminate. }
  unfold bind at 1.
  destruct (setup_git_and_deploy env s2 _) as [[[[]|e] s3] t3] eqn:Hs.
  2: { simpl. destruct (is_KeyboardInterrupt e); [discriminate|].
       destruct (is_Exception e); discriminate. }
  unfold print_completion_summary. rewrite bind_print, ret_eq.
  intros [= <- <-]. by exists s1, t1, s2, t2, t3.
Qed.

(** ** The mapping and the files once written *)

Section Frame.
Context {S : Type}.

Lemma keeps_ret {A} (a : A) : keeps_self (ret (S:=S) a).
Proof. by intros s h. Qed.

Lemma keeps_raise {A} e : keeps_self (raise (S:=S) (A:=A) e).
Proof. by intros s h. Qed.

Lemma keeps_print x : keeps_self (print (S:=S) x).
Proof. by intros s h. Qed.

Lemma keeps_get_self : keeps_self (get_self (S:=S)).
Proof. by intros s h. Qed.

Lemma keeps_input env : keeps_self (input (S:=S) env).
Proof. by intros s h. Qed.

Lemma keeps_run env argv check : keeps_self (subprocess_run (S:=S) env argv check).
Proof. by intros s h. Qed.

Lemma keeps_bind {A B} (m : Py S A) (k : A -> Py S B) :
  keeps_self m -> (forall a, keeps_self (k a)) -> keeps_self (bind m k).
Proof.
  intros Hm Hk s h. unfold bind. specialize (Hm s h).
  destruct (m s h) as [[[a|e] s1] t1]; simpl in *; subst; [|done].
  specialize (Hk a s (h ++ t1)).
  by destruct (k a s (h ++ t1)) as [[r s2] t2].
Qed.

Lemma keeps_try {A} (m : Py S A) clauses :
  keeps_self m -> Forall (fun c => forall e, keeps_self (c.2 e)) clauses ->
  keeps_self (try_except m clauses).
Proof.
  intros Hm Hk s h. unfold try_except. specialize (Hm s h).
  destruct (m s h) as [[[a|e] s1] t1]; simpl in *; subst; [done|].
  destruct (dispatch clauses e) as [k|] eqn:Hd; [|done].
  apply dispatch_Some in Hd as [c [Hc ->]].
  rewrite Forall_forall in Hk. specialize (Hk c Hc e s (h ++ t1)).
  by destruct (c.2 e s (h ++ t1)) as [[r s2] t2].
Qed.

End Frame.

Section Once.
Variable env : Env.

Ltac open_bind m :=
  match goal with
  | |- context [bind m ?k ?s ?h] =>
      let E := fresh in
      assert (E : bind m k s h =
                  match m s h with
                  | (Ok a, s1, t1) =>
                      let '(r, s2, t2) := k a s1 (h ++ t1) in (r, s2, t1 ++ t2)
                  | (Raise e, s1, t1) => (Raise e, s1, t1)
                  end) by reflexivity;
      rewrite E; clear E
  end.

Ltac keep_handler := apply List.Forall_cons; [intros ?; simpl|apply List.Forall_nil].

Lemma keeps_print_banner : keeps_self (print_banner env).
Proof.
  unfold print_banner.
  apply keeps_bind; [apply keeps_print|intros _].
  apply keeps_try.
  - apply keeps_bind; [apply keeps_input|intros _; apply keeps_ret].
  - keep_handler. apply keeps_bind; [apply keeps_print|intros _; apply keeps_raise].
Qed.

Lemma keeps_setup_git_and_deploy : keeps_self (setup_git_and_deploy env).
Proof.
  intros s h. rewrite setup_git_and_deploy_unfold.
  destruct (git_block env s _) as [[rg sg] tg] eqn:Hg.
  apply git_block_handlers in Hg as (-> & _).
  destruct rg as [[]|e]; [|done].
  destruct (vercel_block env s _) as [[rv sv] tv] eqn:Hv.
  by apply vercel_block_handlers in Hv as (-> & _).
Qed.

Lemma keeps_print_completion_summary : keeps_self print_completion_summary.
Proof. apply keeps_print. Qed.

(** The object at the end of [run_setup]: untouched when the banner step
    did not return, and otherwise as [create_all_files] left it. *)
Lemma run_setup_state s h :
  (run_setup env s h).1.2 =
  match print_banner env s h with
  | (Ok _, _, _) => with_files s file_table
  | (Raise _, _, _) => s
  end.
Proof.
  assert (forall (m : Py QuickSetup bool) s0 h0,
             (try_except m
                [(is_KeyboardInterrupt,
                  fun _ => print (nl +:+ nl +:+ "❌ Setup cancelled by user");; ret false);
                 (is_Exception,
                  fun e => print (nl +:+ "❌ Setup failed: " +:+ str_exn env e);;
                           print "Please check the error and try again.";; ret false)]
                s0 h0).1.2 = (m s0 h0).1.2) as Htry.
  { intros m s0 h0. unfold try_except.
    destruct (m s0 h0) as [[[a|e] s1] t1]; [done|]. simpl.
    destruct (is_KeyboardInterrupt e); [done|]. by destruct (is_Exception e). }
  unfold run_setup. rewrite Htry. unfold bind at 1.
  pose proof (keeps_print_banner s h) as Hb.
  destruct (print_banner env s h) as [[[[]|e] s1] t1]; simpl in Hb; subst s1; [|done].
  rewrite !bind_print. unfold bind at 1.
  match goal with
  | |- context [create_all_files env s ?h1] =>
      pose proof (create_all_files_state env s h1) as Hf;
      destruct (create_all_files env s h1) as [[[[]|e] s2] t2]
  end; simpl in Hf; subst s2; [|done].
  unfold bind at 1.
  match goal with
  | |- context [setup_git_and_deploy env ?s2 ?h2] =>
      pose proof (keeps_setup_git_and_deploy s2 h2) as Hg;
      destruct (setup_git_and_deploy env s2 h2) as [[[[]|e] s3] t3]
  end; simpl in Hg; subst s3; [|done].
  unfold print_completion_summary. by rewrite bind_print, ret_eq.
Qed.

(** No path is opened outside the files step. *)
Lemma paced_no_open lo hi t :
  paced step_key le listed lo hi t -> (hi < 1 \/ 1 < lo)%nat -> opened t = [].
Proof.
  intros (Hl & _ & Hb) Hout. induction t as [|e t IH]; [done|].
  apply Forall_cons in Hl as [He Hl].
  assert (Forall (fun k => lo <= k <= hi)%nat (omap step_key t)) as Hb'.
  { simpl in Hb. destruct (step_key e); [by apply Forall_cons in Hb as [_ Hb]|done]. }
  specialize (IH Hl Hb').
  destruct e as [x|r|d r|p m r|p c r|argv r]; try exact IH.
  exfalso. destruct He as [st Hst].
  simpl in Hb. unfold step_key in Hb. rewrite Hst in Hb. simpl in Hb.
  apply Forall_cons in Hb as [Hb _].
  simpl in Hst. case_bool_decide; [|done]. injection Hst as <-. simpl in Hb. lia.
Qed.

Lemma opened_app t1 t2 : opened (t1 ++ t2) = opened t1 ++ opened t2.
Proof. apply omap_app. Qed.

Lemma opened_print x t : opened (EPrint x :: t) = opened t.
Proof. reflexivity. Qed.

Lemma create_file_opened item s h :
  let '(r, _, t) := create_file env item s h in
  opened t = [item.1] \/ (opened t = [] /\ exists e, r = Raise e).
Proof.
  unfold create_file, bind, mkdir_parents, open_file, write_file, print, ret.
  destruct (truthy (dirname item.1)); simpl;
    repeat (match goal with
            | |- context [match ?r with Ok _ => _ | Raise _ => _ end] => destruct r
            end; simpl); eauto.
Qed.

Lemma for_each_opened l s h :
  opened (for_each l (create_file env) s h).2 `prefix_of` l.*1.
Proof.
  revert s h. induction l as [|item l IH]; intros s h; simpl; [done|].
  unfold bind at 1. pose proof (create_file_opened item s h) as Hitem.
  destruct (create_file env item s h) as [[[[]|e] s1] t1]; simpl.
  - specialize (IH s1 (h ++ t1)).
    destruct (for_each l (create_file env) s1 (h ++ t1)) as [[r s2] t2]. simpl in *.
    rewrite opened_app.
    destruct Hitem as [->|[_ [e He]]]; [|discriminate He].
    by apply prefix_cons.
  - destruct Hitem as [->|[-> _]]; [|apply prefix_nil].
    apply prefix_cons, prefix_nil.
Qed.

Lemma create_all_files_opened s h :
  opened (create_all_files env s h).2 `prefix_of` file_table.*1.
Proof.
  rewrite create_all_files_unfold.
  pose proof (for_each_opened file_table (with_files s file_table)
                (h ++ [EPrint "📝 Creating project files..."])) as Hloop.
  destruct (for_each file_table (create_file env) (with_files s file_table) _)
    as [[[[]|e] s1] t1]; simpl in *; [|done].
  by rewrite opened_app, app_nil_r.
Qed.

Lemma run_setup_opened s h :
  match print_banner env s h with
  | (Ok _, _, _) => opened (run_setup env s h).2 `prefix_of` file_table.*1
  | (Raise _, _, _) => opened (run_setup env s h).2 = []
  end.
Proof.
  assert (forall (m : Py QuickSetup bool) s0 h0,
             opened (try_except m
                [(is_KeyboardInterrupt,
                  fun _ => print (nl +:+ nl +:+ "❌ Setup cancelled by user");; ret false);
                 (is_Exception,
                  fun e => print (nl +:+ "❌ Setup failed: " +:+ str_exn env e);;
                           print "Please check the error and try again.";; ret false)]
                s0 h0).2 = opened (m s0 h0).2) as Htry.
  { intros m s0 h0. unfold try_except.
    destruct (m s0 h0) as [[[a|e] s1] t1]; [done|]. cbn [dispatch].
    destruct (is_KeyboardInterrupt e).
    - rewrite bind_print, ret_eq. simpl. by rewrite opened_app, app_nil_r.
    - destruct (is_Exception e); [|done].
      rewrite !bind_print, ret_eq. simpl. by rewrite opened_app, app_nil_r. }
  unfold run_setup. rewrite Htry.
  open_bind (print_banner env).
  pose proof (paced_no_open _ _ _ (steps_print_banner env s h)) as Hb.
  destruct (print_banner env s h) as [[[[]|e] s1] t1]; simpl in Hb.
  2: { simpl. apply Hb. lia. }
  rewrite !bind_print. open_bind (create_all_files env).
  match goal with
  | |- context [create_all_files env s1 ?h1] =>
      pose proof (create_all_files_opened s1 h1) as Hf;
      destruct (create_all_files env s1 h1) as [[[[]|e] s2] t2]
  end; cbn [snd] in Hf.
  2: { cbn [snd]. rewrite opened_app, !opened_print, Hb by lia. exact Hf. }
  open_bind (setup_git_and_deploy env).
  match goal with
  | |- context [setup_git_and_deploy env s2 ?h2] =>
      pose proof (paced_no_open _ _ _ (steps_setup_git_and_deploy env s2 h2)) as Hg;
      destruct (setup_git_and_deploy env s2 h2) as [[[[]|e] s3] t3]
  end; cbn [snd] in Hg.
  2: { cbn [snd]. rewrite opened_app, !opened_print, opened_app, Hb, Hg by lia.
       by rewrite app_nil_r. }
  unfold print_completion_summary. rewrite bind_print, ret_eq. cbn [snd].
  rewrite opened_app, !opened_print, !opened_app, opened_print, Hb, Hg by lia.
  by rewrite !app_nil_r.
Qed.

End Once.

Lemma listed_opens_for_writing e : listed e -> opens_for_writing e.
Proof.
  destruct e as [x|r|d r|p m r|p c r|argv r]; try done.
  intros [st Hst]. simpl in *. case_bool_decide as H; [|done]. by destruct H.
Qed.

(** * Further properties of the script *)

(** ** The outcomes of a run *)

(** The banner step, by the answer to its prompt. *)
Lemma print_banner_cases env s h :
  print_banner env s h =
  match on_input env (h ++ [EPrint banner_text]) with
  | Ok x => (Ok tt, s, [EPrint banner_text; EInput (Ok x)])
  | Raise e =>
      if is_KeyboardInterrupt e
      then (Raise (SystemExit 1), s,
            [EPrint banner_text; EInput (Raise e); EPrint cancelled_message])
      else (Raise e, s, [EPrint banner_text; EInput (Raise e)])
  end.
Proof.
  unfold print_banner. rewrite bind_print.
  unfold try_except, bind, input. cbn [dispatch].
  destruct (on_input env (h ++ [EPrint banner_text])) as [x|e]; [done|].
  by destruct (is_KeyboardInterrupt e).
Qed.

(** [run_setup], step by step. *)
Lemma run_setup_unfold env s h :
  run_setup env s h =
  match print_banner env s h with
  | (Raise e, s1, t1) => run_setup_except env e s1 t1
  | (Ok _, s1, t1) =>
      let h1 := ((h ++ t1) ++ [EPrint starting_message]) ++ [EPrint separator_line] in
      let t01 := t1 ++ [EPrint starting_message; EPrint separator_line] in
      match create_all_files env s1 h1 with
      | (Raise e, s2, t2) => run_setup_except env e s2 (t01 ++ t2)
      | (Ok _, s2, t2) =>
          match setup_git_and_deploy env s2 (h1 ++ t2) with
          | (Raise e, s3, t3) => run_setup_except env e s3 (t01 ++ t2 ++ t3)
          | (Ok _, s3, t3) => (Ok true, s3, t01 ++ t2 ++ t3 ++ [EPrint summary_text])
          end
      end
  end.
Proof.
  assert (forall (m : Py QuickSetup bool) s0 h0,
             try_except m
                [(is_KeyboardInterrupt,
                  fun _ => print (nl +:+ nl +:+ "❌ Setup cancelled by user");; ret false);
                 (is_Exception,
                  fun e => print (nl +:+ "❌ Setup failed: " +:+ str_exn env e);;
                           print "Please check the error and try again.";; ret false)]
                s0 h0 =
             match m s0 h0 with
             | (Ok a, s1, t1) => (Ok a, s1, t1)
             | (Raise e, s1, t1) => run_setup_except env e s1 t1
             end) as Htry.
  { intros m s0 h0. unfold try_except, run_setup_except.
    destruct (m s0 h0) as [[[a|e] s1] t1]; [done|]. cbn [dispatch].
    destruct (is_KeyboardInterrupt e).
    - by rewrite bind_print, ret_eq.
    - destruct (is_Exception e); [|done].
      by rewrite !bind_print, ret_eq. }
  unfold run_setup. rewrite Htry. unfold bind at 1.
  destruct (print_banner env s h) as [[[[]|e] s1] t1]; [|done].
  rewrite !bind_print. fold starting_message separator_line. unfold bind at 1.
  cbv zeta.
  destruct (create_all_files env s1 _) as [[[[]|e] s2] t2].
  2: { by rewrite <- !app_assoc. }
  unfold bind at 1.
  destruct (setup_git_and_deploy env s2 _) as [[[[]|e] s3] t3].
  2: { by rewrite <- !app_assoc. }
  unfold print_completion_summary. rewrite bind_print, ret_eq.
  by rewrite <- !app_assoc.
Qed.

(** The summary is not printed before the last step. *)
Lemma summary_absent lo hi t :
  paced step_key le listed lo hi t -> (hi < 5)%nat -> EPrint summary_text ∉ t.
Proof.
  intros (_ & _ & Hb) Hhi Hin.
  assert (5%nat ∈ omap step_key t) as H5.
  { apply list_elem_of_omap. exists (EPrint summary_text). split; [done|].
    by vm_compute. }
  rewrite Forall_forall in Hb. specialize (Hb _ H5). lia.
Qed.

(** What the [except] clauses leave behind. *)
Lemma run_setup_except_outcome env e s t :
  EPrint summary_text ∉ t ->
  let '(r, _, t') := run_setup_except env e s t in
  match r with
  | Ok true => last t' = Some (EPrint summary_text)
  | Ok false =>
      (EPrint summary_text ∉ t') /\
      ((exists t0, t' = t0 ++ [EPrint cancelled_message]) \/
       (exists t0 e, is_Exception e = true /\
          t' = t0 ++ [EPrint (failed_message env e); EPrint check_message]))
  | Raise _ => EPrint summary_text ∉ t'
  end.
Proof.
  intros Ht. unfold run_setup_except.
  destruct e; cbn [is_KeyboardInterrupt is_Exception].
  - split; [|eauto].
    intros [Hin|Hin]%elem_of_app; [done|]. cases_elem Hin; discriminate Hin.
  - done.
  - split; [|right; eexists _, (FileNotFoundError _); split; [reflexivity|reflexivity]].
    intros [Hin|Hin]%elem_of_app; [done|]. cases_elem Hin; discriminate Hin.
  - split; [|right; eexists _, (CalledProcessError _ _); split; [reflexivity|reflexivity]].
    intros [Hin|Hin]%elem_of_app; [done|]. cases_elem Hin; discriminate Hin.
  - split; [|right; eexists _, (OtherException _ _); split; [reflexivity|reflexivity]].
    intros [Hin|Hin]%elem_of_app; [done|]. cases_elem Hin; discriminate Hin.
Qed.

(** X1. What a run of [run_setup] has printed when it ends.  When it
    returns [True], the summary is the last thing printed.  When it
    returns [False], the summary has not been printed, and the last thing
    printed is the cancellation message, or the line that names the error
    of an [Exception] followed by the line that asks to try again.  When
    an exception leaves it, the summary has not been printed either.  So
    the summary is printed in a run that returns [True] and in no other. *)
Theorem run_setup_outcomes env s h :
  let '(r, _, t) := run_setup env s h in
  match r with
  | Ok true => last t = Some (EPrint summary_text)
  | Ok false =>
      (EPrint summary_text ∉ t) /\
      ((exists t0, t = t0 ++ [EPrint cancelled_message]) \/
       (exists t0 e, is_Exception e = true /\
          t = t0 ++ [EPrint (failed_message env e); EPrint check_message]))
  | Raise _ => EPrint summary_text ∉ t
  end.
Proof.
  rewrite run_setup_unfold.
  pose proof (summary_absent _ _ _ (steps_print_banner env s h)) as Hb.
  destruct (print_banner env s h) as [[[[]|e] s1] t1]; cbn [snd] in Hb.
  2: { apply run_setup_except_outcome, Hb. lia. }
  cbv zeta.
  assert (EPrint summary_text ∉ t1 ++ [EPrint starting_message; EPrint separator_line])
    as H01.
  { intros [Hin|Hin]%elem_of_app; [by apply Hb; [lia|]|].
    cases_elem Hin; discriminate Hin. }
  match goal with
  | |- context [create_all_files env s1 ?h1] =>
      pose proof (summary_absent _ _ _ (steps_create_all_files env s1 h1)) as Hf;
      destruct (create_all_files env s1 h1) as [[[[]|e] s2] t2]
  end; cbn [snd] in Hf.
  2: { apply run_setup_except_outcome.
       intros [Hin|Hin]%elem_of_app; [by apply H01|by apply Hf; [lia|]]. }
  match goal with
  | |- context [setup_git_and_deploy env s2 ?h2] =>
      pose proof (summary_absent _ _ _ (steps_setup_git_and_deploy env s2 h2)) as Hg;
      destruct (setup_git_and_deploy env s2 h2) as [[[[]|e] s3] t3]
  end; cbn [snd] in Hg.
  2: { apply run_setup_except_outcome.
       intros [Hin|[Hin|Hin]%elem_of_app]%elem_of_app;
         [by apply H01|by apply Hf; [lia|]|by apply Hg; [lia|]]. }
  by rewrite !app_assoc, last_snoc.
Qed.

(** [main], by the result of the run. *)
Lemma main_unfold env s0 h :
  main env s0 h =
  match run_setup env QuickSetup_init h with
  | (Ok success, s1, t1) =>
      (Ok success, s1,
       t1 ++ [EPrint (if success : bool then success_message else errors_message)])
  | (Raise e, s1, t1) => (Raise e, s1, t1)
  end.
Proof.
  unfold main. rewrite bind_set_self. unfold bind at 1.
  destruct (run_setup env QuickSetup_init h) as [[[success|e] s1] t1]; [|done].
  destruct success; by rewrite bind_print, ret_eq.
Qed.

(** X3. An [Exception] at the prompt of the banner, such as [EOFError]
    when standard input is closed, is not caught in [print_banner]: it
    reaches the handler of [run_setup], which prints the line naming the
    error and the line asking to try again, and returns [False].  Nothing
    has been written or run, and the object is as it was. *)
Theorem prompt_failure_is_reported env s h e :
  on_input env (h ++ [EPrint banner_text]) = Raise e ->
  is_Exception e = true ->
  run_setup env s h =
    (Ok false, s,
     [EPrint banner_text; EInput (Raise e);
      EPrint (failed_message env e); EPrint check_message]).
Proof.
  intros Hin He. rewrite run_setup_unfold, print_banner_cases, Hin.
  unfold run_setup_except.
  destruct e; try discriminate He; reflexivity.
Qed.

Lemma prompt_failure_is_reported_witness :
  run_setup env_no_stdin QuickSetup_init [] =
    (Ok false, QuickSetup_init,
     [EPrint banner_text; EInput (Raise (OtherException "EOFError" "EOF when reading a line"));
      EPrint (nl +:+ "❌ Setup failed: EOF when reading a line"); EPrint check_message]).
Proof.
  apply (prompt_failure_is_reported env_no_stdin QuickSetup_init []
           (OtherException "EOFError" "EOF when reading a line")); reflexivity.
Defined.

(** ** A files step that fails *)

Section FilesFailure.
Variable env : Env.

(** One entry, written or not. *)
Lemma create_file_cases item s h :
  match create_file env item s h with
  | (Ok _, s', t) => s' = s /\ t = file_events item
  | (Raise e, s', t) => s' = s /\ t ∈ failed_file_events item e
  end.
Proof.
  unfold create_file, file_events, failed_file_events, bind, mkdir_parents,
    open_file, write_file, print, ret.
  destruct (truthy (dirname item.1)); simpl;
    repeat (match goal with
            | |- context [match ?r with Ok _ => _ | Raise _ => _ end] =>
                destruct r as [[]|] eqn:?
            end; simpl); (split; [reflexivity|]); first [reflexivity|find_elem].
Qed.

(** The loop stops at the first entry that fails; the entries before it
    have been written in full. *)
Lemma for_each_create_file_raises l s h e s' t :
  for_each l (create_file env) s h = (Raise e, s', t) ->
  exists k item rest,
    l !! k = Some item /\
    rest ∈ failed_file_events item e /\
    t = flat_map file_events (take k l) ++ rest.
Proof.
  revert s h s' t. induction l as [|item l IH]; intros s h s' t; simpl.
  - discriminate.
  - unfold bind at 1. pose proof (create_file_cases item s h) as Hitem.
    destruct (create_file env item s h) as [[[[]|e1] s1] t1].
    + destruct Hitem as [-> ->].
      destruct (for_each l (create_file env) s (h ++ file_events item))
        as [[r s2] t2] eqn:Hrest.
      intros [= -> <- <-].
      apply IH in Hrest as (k & item' & rest & Hk & Hrest & ->).
      exists (S k), item', rest. split; [done|]. split; [done|].
      simpl. by rewrite <- app_assoc.
    + destruct Hitem as [-> Hfail]. intros [= <- <- <-].
      by exists 0%nat, item, t1.
Qed.

End FilesFailure.

(** A failed attempt at one entry leaves every other path alone. *)
Lemma files_after_failed item e rest fs p :
  rest ∈ failed_file_events item e -> p <> item.1 ->
  files_after fs rest !! p = fs !! p.
Proof.
  unfold failed_file_events. intros Hrest Hp.
  destruct (truthy (dirname item.1)); simpl in Hrest; cases_elem Hrest; subst rest;
    unfold files_after; simpl; try reflexivity; by rewrite lookup_insert_ne.
Qed.

(** X4. When [create_all_files] raises, it has stopped at one entry of
    the mapping: the entries before it have been written in full, one
    after the other, and stay on disk with their complete content,
    whatever was there before; the entries after it have not been
    touched; and what was attempted for the failing entry ended at its
    directory, at the opening of its file or at the write.  Nothing is
    undone. *)
Theorem create_all_files_no_rollback env s h e s' t :
  create_all_files env s h = (Raise e, s', t) ->
  exists k item rest,
    file_table !! k = Some item /\
    rest ∈ failed_file_events item e /\
    t = EPrint creating_message :: flat_map file_events (take k file_table) ++ rest /\
    forall fs,
      (forall p c, (p, c) ∈ take k file_table -> files_after fs t !! p = Some c) /\
      (forall p, p ∈ (drop (S k) file_table).*1 -> files_after fs t !! p = fs !! p).
Proof.
  rewrite create_all_files_unfold. fold creating_message.
  destruct (for_each file_table (create_file env) (with_files s file_table)
              (h ++ [EPrint creating_message])) as [[[[]|e1] s1] t1] eqn:Hloop;
    [discriminate|].
  intros [= -> <- <-].
  apply for_each_create_file_raises in Hloop as (k & item & rest & Hk & Hrest & ->).
  exists k, item, rest. split; [done|]. split; [done|]. split; [done|].
  pose proof file_table_paths_NoDup as Hnd.
  rewrite <- (take_drop k file_table), fmap_app in Hnd.
  apply NoDup_app in Hnd as (Htake & Hdisj & Hdrop).
  rewrite (drop_S _ _ _ Hk) in Hdisj, Hdrop. rewrite fmap_cons in Hdisj, Hdrop.
  apply NoDup_cons in Hdrop as [Hitem _].
  intros fs. rewrite files_after_cons. simpl apply_event.
  rewrite files_after_app, files_after_table by done.
  split.
  - intros p c Hin.
    assert (p ∈ (take k file_table).*1) as Hp.
    { apply list_elem_of_fmap. by exists (p, c). }
    rewrite (files_after_failed item e) by (try done; intros ->; apply (Hdisj _ Hp); left).
    apply lookup_union_Some_l. by apply elem_of_list_to_map_1.
  - intros p Hin.
    rewrite (files_after_failed item e) by (try done; by intros ->).
    rewrite lookup_union_r; [done|].
    apply not_elem_of_list_to_map_1. intros Hp. apply (Hdisj _ Hp). by right.
Qed.

Lemma create_all_files_no_rollback_witness :
  exists k item rest,
    file_table !! k = Some item /\
    rest ∈ failed_file_events item
             (OtherException "PermissionError"
                "[Errno 13] Permission denied: 'api/status.py'") /\
    (create_all_files env_status_denied QuickSetup_init []).2
    = EPrint creating_message :: flat_map file_events (take k file_table) ++ rest /\
    forall fs,
      (forall p c, (p, c) ∈ take k file_table ->
         files_after fs (create_all_files env_status_denied QuickSetup_init []).2 !! p
         = Some c) /\
      (forall p, p ∈ (drop (S k) file_table).*1 ->
         files_after fs (create_all_files env_status_denied QuickSetup_init []).2 !! p
         = fs !! p).
Proof.
  apply (create_all_files_no_rollback env_status_denied QuickSetup_init []
           (OtherException "PermissionError"
              "[Errno 13] Permission denied: 'api/status.py'")
           (create_all_files env_status_denied QuickSetup_init []).1.2).
  vm_compute. reflexivity.
Defined.

(** ** Commands and files *)

(** A trace paced over an empty interval of command places runs nothing. *)
Lemma paced_no_run lo hi t :
  paced run_key lt known_run lo hi t -> (hi < lo)%nat -> runs_of t = [].
Proof.
  intros (Hk & _ & Hb) Hempty. induction t as [|e t IH]; [done|].
  apply Forall_cons in Hk as [He Hk].
  assert (Forall (fun k => lo <= k <= hi)%nat (omap run_key t)) as Hb'.
  { simpl in Hb. destruct (run_key e); [by apply Forall_cons in Hb as [_ Hb]|done]. }
  specialize (IH Hk Hb').
  destruct e as [x|r|d r|p m r|p c r|argv r]; try exact IH.
  exfalso. destruct He as [i Hi]. simpl in Hb. rewrite Hi in Hb.
  apply Forall_cons in Hb as [Hb _]. lia.
Qed.

(** The [except] clauses of [run_setup] only print. *)
Lemma run_setup_except_trace env e s t :
  exists tail, (run_setup_except env e s t).2 = t ++ tail /\ prints_only tail.
Proof.
  unfold run_setup_except.
  destruct (is_KeyboardInterrupt e); [|destruct (is_Exception e)]; cbn [snd].
  - eexists. split; [reflexivity|]. by repeat constructor.
  - eexists. split; [reflexivity|]. by repeat constructor.
  - exists []. split; [by rewrite app_nil_r|constructor].
Qed.

Lemma runs_of_except env e s t :
  runs_of (run_setup_except env e s t).2 = runs_of t.
Proof.
  destruct (run_setup_except_trace env e s t) as (tail & -> & Htail).
  by rewrite runs_of_app, (prints_only_runs_of tail), app_nil_r.
Qed.

(** X5. No command is run before the files step is complete: when the
    trace of [run_setup] holds a command at all, it holds, before any
    command, the whole files step, from its heading through the sixteen
    entries in the order of the mapping to the line that counts them, and
    at that point the working directory holds the mapping laid over what
    was there. *)
Theorem commands_follow_files env s h argv :
  argv ∈ runs_of (run_setup env s h).2 ->
  exists t1 t3,
    (run_setup env s h).2 = t1 ++ files_trace ++ t3 /\
    runs_of t1 = [] /\
    forall fs, files_after fs (t1 ++ files_trace) = list_to_map file_table ∪ fs.
Proof.
  rewrite run_setup_unfold.
  pose proof (paced_no_run _ _ _ (runs_print_banner env s h)) as Hb.
  pose proof (print_banner_cases env s h) as Hcases.
  destruct (print_banner env s h) as [[[[]|e] s1] t1]; cbn [snd] in Hb.
  { cbv zeta.
    assert (runs_of (t1 ++ [EPrint starting_message; EPrint separator_line]) = []) as H01.
    { rewrite runs_of_app, Hb by lia. reflexivity. }
    assert (forall fs, files_after fs (t1 ++ [EPrint starting_message; EPrint separator_line])
                       = fs) as Hfs.
    { intros fs. destruct (on_input env (h ++ [EPrint banner_text])) as [x|e];
        [|destruct (is_KeyboardInterrupt e); discriminate Hcases].
      by injection Hcases as _ ->. }
    match goal with
    | |- context [create_all_files env s1 ?h1] =>
        pose proof (paced_no_run _ _ _ (runs_create_all_files env s1 h1)) as Hf;
        destruct (create_all_files env s1 h1) as [[[[]|e] s2] t2] eqn:Hfiles
    end; cbn [snd] in Hf.
    2: { rewrite runs_of_except, runs_of_app, H01, Hf by lia.
         intros Hin. simpl in Hin. cases_elem Hin. }
    apply create_all_files_returns in Hfiles as (_ & _ & Ht2 & _).
    assert (t2 = files_trace) as -> by exact Ht2. clear Ht2.
    intros _. exists (t1 ++ [EPrint starting_message; EPrint separator_line]).
    assert (forall fs,
               files_after fs ((t1 ++ [EPrint starting_message; EPrint separator_line])
                                 ++ files_trace) = list_to_map file_table ∪ fs) as Hall.
    { intros fs. rewrite files_after_app, Hfs. unfold files_trace.
      rewrite files_after_cons. simpl apply_event.
      rewrite files_after_app, files_after_table by apply file_table_paths_NoDup.
      reflexivity. }
    destruct (setup_git_and_deploy env s2 _) as [[[[]|e] s3] t3].
    - exists (t3 ++ [EPrint summary_text]).
      split; [|split; [exact H01|exact Hall]]. cbn [snd]. by rewrite <- !app_assoc.
    - match goal with
      | |- context [run_setup_except env e s3 ?t] =>
          destruct (run_setup_except_trace env e s3 t) as (tail & -> & _)
      end.
      exists (t3 ++ tail).
      split; [|split; [exact H01|exact Hall]]. by rewrite <- !app_assoc. }
  rewrite runs_of_except, Hb by lia. intros Hin. cases_elem Hin.
Qed.

Lemma commands_follow_files_witness :
  exists t1 t3,
    (run_setup env_all_ok QuickSetup_init []).2 = t1 ++ files_trace ++ t3 /\
    runs_of t1 = [] /\
    forall fs, files_after fs (t1 ++ files_trace) = list_to_map file_table ∪ fs.
Proof.
  apply (commands_follow_files env_all_ok QuickSetup_init [] ["git"; "init"]).
  apply (bool_decide_unpack _). vm_compute. reflexivity.
Defined.

(** X6. Generating the files is idempotent: a second successful call of
    [create_all_files] on the object the first one left rebuilds the same
    mapping, does the same things and leaves the files of the working
    directory as the first call left them. *)
Theorem create_all_files_idempotent env s h s1 t1 h' s2 t2 :
  create_all_files env s h = (Ok tt, s1, t1) ->
  create_all_files env s1 h' = (Ok tt, s2, t2) ->
  s2 = s1 /\ t2 = t1 /\
  forall fs, files_after fs (t1 ++ t2) = files_after fs t1.
Proof.
  intros H1 H2.
  pose proof (create_all_files_state env s h) as Hs1. rewrite H1 in Hs1.
  pose proof (create_all_files_state env s1 h') as Hs2. rewrite H2 in Hs2.
  simpl in Hs1, Hs2.
  apply create_all_files_returns in H1 as (_ & _ & Ht1 & Hf1).
  apply create_all_files_returns in H2 as (_ & _ & Ht2 & Hf2).
  split; [by rewrite Hs2, Hs1|]. split; [by rewrite Ht1, Ht2|].
  intros fs. rewrite files_after_app, Hf2, Hf1.
  by rewrite (assoc_L (∪)), (idemp_L (∪)).
Qed.

Lemma create_all_files_idempotent_witness :
  (create_all_files env_all_ok
     (create_all_files env_all_ok QuickSetup_init []).1.2
     (create_all_files env_all_ok QuickSetup_init []).2).2
  = (create_all_files env_all_ok QuickSetup_init []).2 /\
  forall fs,
    files_after fs ((create_all_files env_all_ok QuickSetup_init []).2
                      ++ (create_all_files env_all_ok
                            (create_all_files env_all_ok QuickSetup_init []).1.2
                            (create_all_files env_all_ok QuickSetup_init []).2).2)
    = files_after fs (create_all_files env_all_ok QuickSetup_init []).2.
Proof.
  destruct (create_all_files_idempotent env_all_ok QuickSetup_init []
              (create_all_files env_all_ok QuickSetup_init []).1.2
              (create_all_files env_all_ok QuickSetup_init []).2
              (create_all_files env_all_ok QuickSetup_init []).2
              (create_all_files env_all_ok
                 (create_all_files env_all_ok QuickSetup_init []).1.2
                 (create_all_files env_all_ok QuickSetup_init []).2).1.2
              (create_all_files env_all_ok
                 (create_all_files env_all_ok QuickSetup_init []).1.2
                 (create_all_files env_all_ok QuickSetup_init []).2).2)
    as (_ & Ht & Hfs).
  - vm_compute. reflexivity.
  - vm_compute. reflexivity.
  - split; [exact Ht|exact Hfs].
Defined.

(** ** What the git and deployment steps report *)

Lemma checked_Ok_inv argv r cp :
  checked argv r = Ok cp -> r = Ok cp /\ returncode cp = 0%Z.
Proof.
  destruct r as [cp'|e]; simpl; [|discriminate].
  destruct (returncode cp' =? 0)%Z eqn:Hz; [|discriminate].
  intros [= <-]. split; [done|]. by apply Z.eqb_eq.
Qed.

Lemma checked_succeeded argv cp :
  returncode cp = 0%Z -> checked argv (Ok cp) = Ok cp.
Proof. intros Hz. simpl. by rewrite Hz. Qed.

(** The answers that passed [check=True] are taken apart. *)
Ltac passed_answers :=
  repeat match goal with
         | Hc : checked _ _ = Ok _ |- _ => apply checked_Ok_inv in Hc as [-> ?]
         end.

(** A command that failed has not succeeded. *)
Ltac not_succeeded HF :=
  rewrite Forall_forall in HF;
  match goal with
  | Hc : checked ?a ?r = Raise _ |- _ =>
      let cp := fresh "cp" in
      let Hin := fresh "Hin" in
      let Hz := fresh "Hz" in
      destruct (HF a ltac:(find_elem)) as (cp & Hin & Hz);
      cases_elem Hin; try discriminate Hin; simplify_eq;
      rewrite checked_succeeded in Hc by assumption; discriminate Hc
  end.

Ltac has_succeeded :=
  eexists; split; [find_elem|assumption].

Ltac prefix_of_length k :=
  solve [ exists k; split_and!; first [ lia | reflexivity | assumption | exact I ] ].

Section GitReport.
Variable env : Env.

Lemma git_block_runs s h r s' t :
  git_block env s h = (r, s', t) ->
  exists k, (1 <= k <= 6)%nat /\
    runs_of t = take k (repository_commands (project_name s)) /\
    match r with
    | Ok _ => True
    | Raise e => (k <= 3)%nat /\ is_Exception e = false
    end.
Proof.
  unfold git_block, try_except.
  run_script.
  all: cbn [app]; intros Heq; injection Heq as <- <- <-.
  all: first [ prefix_of_length 1%nat | prefix_of_length 2%nat | prefix_of_length 3%nat
             | prefix_of_length 4%nat | prefix_of_length 5%nat | prefix_of_length 6%nat ].
Qed.

Lemma git_block_initialized s h r s' t :
  git_block env s h = (r, s', t) ->
  EPrint git_initialized ∈ t <-> Forall (fun argv => succeeded argv t) git_commands.
Proof.
  unfold git_block, try_except.
  run_script.
  all: cbn [app]; intros Heq; injection Heq as <- <- <-.
  all: passed_answers.
  all: split;
    [ intros Hin;
      first [ repeat (apply List.Forall_cons; [has_succeeded|]); apply List.Forall_nil
            | exfalso; cbn in Hin; cases_elem Hin; discriminate Hin ]
    | intros HF; first [ find_elem | exfalso; unfold git_commands in HF; not_succeeded HF ] ].
Qed.

Lemma git_block_pushed s h r s' t :
  git_block env s h = (r, s', t) ->
  EPrint github_pushed ∈ t <->
  Forall (fun argv => succeeded argv t) (repository_commands (project_name s)).
Proof.
  unfold git_block, try_except.
  run_script.
  all: cbn [app]; intros Heq; injection Heq as <- <- <-.
  all: passed_answers.
  all: split;
    [ intros Hin;
      first [ repeat (apply List.Forall_cons; [has_succeeded|]); apply List.Forall_nil
            | exfalso; cbn in Hin; cases_elem Hin; discriminate Hin ]
    | intros HF;
      first [ find_elem
            | exfalso; unfold repository_commands, git_commands, github_commands in HF;
              cbn [app] in HF; not_succeeded HF ] ].
Qed.

Lemma git_block_prints s h r s' t :
  git_block env s h = (r, s', t) ->
  (EPrint deployed_message ∉ t) /\ (forall x, EPrint (url_prefix +:+ x) ∉ t).
Proof.
  unfold git_block, try_except.
  run_script.
  all: cbn [app]; intros Heq; injection Heq as <- <- <-.
  all: split; [|intros x]; intros Hin; cbn in Hin; cases_elem Hin; discriminate Hin.
Qed.

End GitReport.

Section VercelReport.
Variable env : Env.

(** The loop over the output prints the first line with both markers,
    stripped, and nothing else. *)
Lemma print_live_url_cases lines s h :
  (print_live_url lines s h = (Ok tt, s, []) /\
   Forall (fun l => is_url_line l = false) lines) \/
  (exists pre line post,
      lines = pre ++ line :: post /\
      Forall (fun l => is_url_line l = false) pre /\
      is_url_line line = true /\
      print_live_url lines s h = (Ok tt, s, [EPrint (url_prefix +:+ strip line)])).
Proof.
  induction lines as [|l lines IH]; simpl.
  - left. by split.
  - fold (is_url_line l). destruct (is_url_line l) eqn:Hl.
    + right. exists [], l, lines. by split_and!.
    + destruct IH as [[-> Hall]|(pre & line & post & -> & Hpre & Hline & ->)].
      * left. split; [done|]. by constructor.
      * right. exists (l :: pre), line, post. split_and!; [done| |done|done].
        by constructor.
Qed.

Lemma vercel_block_cases s h :
  let a := on_run env h vercel_command in
  match a with
  | Ok cp =>
      if (returncode cp =? 0)%Z
      then
        (vercel_block env s h
         = (Ok tt, s, [ERun vercel_command a; EPrint deployed_message]) /\
         Forall (fun l => is_url_line l = false)
           (split_on (ascii_of_nat 10) (stdout cp))) \/
        (exists pre line post,
            split_on (ascii_of_nat 10) (stdout cp) = pre ++ line :: post /\
            Forall (fun l => is_url_line l = false) pre /\
            is_url_line line = true /\
            vercel_block env s h
            = (Ok tt, s, [ERun vercel_command a; EPrint deployed_message;
                          EPrint (url_prefix +:+ strip line)]))
      else vercel_block env s h
           = (Ok tt, s, [ERun vercel_command a; EPrint deployment_failed;
                         EPrint install_hint])
  | Raise e =>
      vercel_block env s h =
      if is_FileNotFoundError e
      then (Ok tt, s, [ERun vercel_command a; EPrint vercel_not_found; EPrint install_hint])
      else (Raise e, s, [ERun vercel_command a])
  end.
Proof.
  unfold vercel_block, try_except. rewrite bind_run_unchecked.
  fold vercel_command. cbv zeta.
  destruct (on_run env h vercel_command) as [cp|e].
  - destruct (returncode cp =? 0)%Z.
    + rewrite bind_print. fold deployed_message.
      destruct (print_live_url_cases (split_on (ascii_of_nat 10) (stdout cp)) s
                  ((h ++ [ERun vercel_command (Ok cp)]) ++ [EPrint deployed_message]))
        as [[-> Hall]|(pre & line & post & Hsplit & Hpre & Hline & ->)].
      * by left.
      * right. by exists pre, line, post.
    + by rewrite bind_print, print_eq.
  - cbn [dispatch]. destruct (is_FileNotFoundError e); [|done].
    by rewrite bind_print, print_eq.
Qed.

End VercelReport.

Lemma succeeded_app argv t1 t2 :
  succeeded argv (t1 ++ t2) <-> succeeded argv t1 \/ succeeded argv t2.
Proof.
  unfold succeeded. split.
  - intros (cp & [Hin|Hin]%elem_of_app & Hz); eauto.
  - intros [(cp & Hin & Hz)|(cp & Hin & Hz)]; exists cp; (split; [|done]);
      apply elem_of_app; auto.
Qed.

(** A report that holds of one stretch of a trace holds of the whole trace
    when the rest neither prints the line nor runs the commands. *)
Lemma report_lifts cmds m t1 t2 t3 :
  EPrint m ∉ t1 -> EPrint m ∉ t3 ->
  (forall argv r, ERun argv r ∈ t1 ++ t3 -> argv ∉ cmds) ->
  (EPrint m ∈ t2 <-> Forall (fun argv => succeeded argv t2) cmds) ->
  EPrint m ∈ t1 ++ t2 ++ t3 <->
  Forall (fun argv => succeeded argv (t1 ++ t2 ++ t3)) cmds.
Proof.
  intros H1 H3 Hruns H2.
  assert (EPrint m ∈ t1 ++ t2 ++ t3 <-> EPrint m ∈ t2) as ->.
  { rewrite !elem_of_app. tauto. }
  rewrite H2, !Forall_forall. apply forall_proper. intros argv.
  apply forall_proper. intros Hargv. rewrite !succeeded_app.
  assert (forall t, (forall r, ERun argv r ∈ t -> ERun argv r ∈ t1 ++ t3) ->
                    ~ succeeded argv t) as Hnot.
  { intros t Ht (cp & Hin & _). by apply (Hruns argv (Ok cp)); [apply Ht|]. }
  pose proof (Hnot t1 ltac:(intros; apply elem_of_app; auto)).
  pose proof (Hnot t3 ltac:(intros; apply elem_of_app; auto)).
  tauto.
Qed.

Section Report.
Variable env : Env.

Lemma vercel_block_report s h r s' t :
  vercel_block env s h = (r, s', t) ->
  (forall argv r', ERun argv r' ∈ t -> argv = vercel_command) /\
  (forall m, EPrint m ∈ t ->
     m ∈ [deployed_message; deployment_failed; install_hint; vercel_not_found] \/
     exists x, m = url_prefix +:+ x) /\
  (EPrint deployed_message ∈ t <-> succeeded vercel_command t).
Proof.
  pose proof (vercel_block_cases env s h) as Hcases. cbv zeta in Hcases.
  destruct (on_run env h vercel_command) as [cp|e].
  - destruct (returncode cp =? 0)%Z eqn:Hz.
    + apply Z.eqb_eq in Hz.
      destruct Hcases as [[-> _]|(pre & line & post & _ & _ & _ & ->)];
        intros [= <- <- <-]; split_and!.
      * intros argv r' Hin. cases_elem Hin; by simplify_eq.
      * intros m Hin. cases_elem Hin; simplify_eq. left. find_elem.
      * split; [intros _; has_succeeded|intros _; find_elem].
      * intros argv r' Hin. cases_elem Hin; by simplify_eq.
      * intros m Hin. cases_elem Hin; simplify_eq; [left; find_elem|right; eauto].
      * split; [intros _; has_succeeded|intros _; find_elem].
    + apply Z.eqb_neq in Hz. rewrite Hcases. intros [= <- <- <-]; split_and!.
      * intros argv r' Hin. cases_elem Hin; by simplify_eq.
      * intros m Hin. cases_elem Hin; simplify_eq; left; find_elem.
      * split; [intros Hin; cases_elem Hin; discriminate Hin|].
        intros (cp' & Hin & Hz'). cases_elem Hin; by simplify_eq.
  - rewrite Hcases. destruct (is_FileNotFoundError e); intros [= <- <- <-]; split_and!.
    + intros argv r' Hin. cases_elem Hin; by simplify_eq.
    + intros m Hin. cases_elem Hin; simplify_eq; left; find_elem.
    + split; [intros Hin; cases_elem Hin; discriminate Hin|].
      intros (cp' & Hin & Hz'). cases_elem Hin; by simplify_eq.
    + intros argv r' Hin. cases_elem Hin; by simplify_eq.
    + intros m Hin. cases_elem Hin; simplify_eq.
    + split; [intros Hin; cases_elem Hin; discriminate Hin|].
      intros (cp' & Hin & Hz'). cases_elem Hin; by simplify_eq.
Qed.

(** The call as the git block, and what follows it. *)
Lemma setup_git_and_deploy_parts s h :
  exists rg tg rest,
    git_block env s (h ++ [EPrint setting_up_message]) = (rg, s, tg) /\
    (setup_git_and_deploy env s h).2 = [EPrint setting_up_message] ++ tg ++ rest /\
    (rest = [] \/
     exists rv sv tv,
       rest = EPrint deploying_message :: tv /\
       vercel_block env s
         (((h ++ [EPrint setting_up_message]) ++ tg) ++ [EPrint deploying_message])
       = (rv, sv, tv)).
Proof.
  rewrite setup_git_and_deploy_unfold.
  destruct (git_block env s (h ++ [EPrint setting_up_message])) as [[rg sg] tg] eqn:Hg.
  destruct (git_block_handlers env _ _ _ _ _ Hg) as (-> & _).
  exists rg, tg. destruct rg as [[]|eg].
  - destruct (vercel_block env s _) as [[rv sv] tv] eqn:Hv.
    exists (EPrint deploying_message :: tv). split; [done|]. split; [done|].
    right. by exists rv, sv, tv.
  - exists []. split; [done|]. split; [by rewrite app_nil_r|]. by left.
Qed.

End Report.

(** X8. The lines that report success are earned, and never withheld.  In
    a call of [setup_git_and_deploy] the line that the git repository is
    initialized is printed exactly when [git init], [git add] and
    [git commit] have each been run and ended with status 0; the line that
    the GitHub repository is created and pushed exactly when all six
    commands of the git block have; and the line that the deployment
    succeeded exactly when the deployment command has. *)
Theorem success_lines_are_earned env s h :
  let t := (setup_git_and_deploy env s h).2 in
  (EPrint git_initialized ∈ t <-> Forall (fun argv => succeeded argv t) git_commands) /\
  (EPrint github_pushed ∈ t <->
   Forall (fun argv => succeeded argv t) (repository_commands (project_name s))) /\
  (EPrint deployed_message ∈ t <-> succeeded vercel_command t).
Proof.
  cbv zeta.
  destruct (setup_git_and_deploy_parts env s h) as (rg & tg & rest & Hg & -> & Hrest).
  pose proof (git_block_initialized env _ _ _ _ _ Hg) as Hinit.
  pose proof (git_block_pushed env _ _ _ _ _ Hg) as Hpush.
  destruct (git_block_prints env _ _ _ _ _ Hg) as [Hdep _].
  destruct (git_block_handlers env _ _ _ _ _ Hg) as (_ & _ & _ & _ & Hnv).
  assert (forall argv r, ERun argv r ∈ [EPrint setting_up_message] ++ rest ->
                         argv = vercel_command) as Hruns.
  { intros argv r Hin. apply elem_of_cons in Hin as [Hin|Hin]; [discriminate Hin|].
    destruct Hrest as [->|(rv & sv & tv & -> & Hv)]; [cases_elem Hin|].
    apply elem_of_cons in Hin as [Hin|Hin]; [discriminate Hin|].
    by apply (vercel_block_report env _ _ _ _ _ Hv) in Hin. }
  assert (forall m, m ∈ [git_initialized; github_pushed] -> EPrint m ∉ rest) as Hquiet.
  { intros m Hm Hin.
    destruct Hrest as [->|(rv & sv & tv & -> & Hv)]; [cases_elem Hin|].
    apply elem_of_cons in Hin as [Hin|Hin]; [cases_elem Hm; subst; discriminate Hin|].
    apply (vercel_block_report env _ _ _ _ _ Hv) in Hin as [Hin|[x Hx]].
    - cases_elem Hm; subst; cases_elem Hin; discriminate Hin.
    - cases_elem Hm; subst; discriminate Hx. }
  split_and!.
  - apply report_lifts; [|apply Hquiet; find_elem| |done].
    + intros Hin. cases_elem Hin. discriminate Hin.
    + intros argv r Hin Hargv. apply Hruns in Hin as ->. by apply vercel_not_git in Hargv.
  - apply report_lifts; [|apply Hquiet; find_elem| |done].
    + intros Hin. cases_elem Hin. discriminate Hin.
    + intros argv r Hin Hargv. apply Hruns in Hin as ->.
      apply elem_of_app in Hargv as [Hargv|Hargv];
        [by apply vercel_not_git in Hargv|by apply vercel_not_github in Hargv].
  - rewrite <- (Forall_singleton (fun argv => succeeded argv _)).
    destruct Hrest as [->|(rv & sv & tv & -> & Hv)].
    + assert ([EPrint setting_up_message] ++ tg ++ []
              = ([EPrint setting_up_message] ++ tg) ++ [] ++ []) as ->.
      { by rewrite !app_nil_r. }
      apply (report_lifts [vercel_command] deployed_message
               ([EPrint setting_up_message] ++ tg) [] []).
      * intros [Hin|Hin]%elem_of_app; [|done]. cases_elem Hin. discriminate Hin.
      * apply not_elem_of_nil.
      * rewrite app_nil_r. intros argv r [Hin|Hin]%elem_of_app Hargv;
          [cases_elem Hin; discriminate Hin|].
        apply list_elem_of_singleton in Hargv as ->.
        apply Hnv, elem_of_runs_of. eauto.
      * rewrite Forall_singleton. split; [intros Hin; cases_elem Hin|].
        intros (cp & Hin & _). cases_elem Hin.
    + assert ([EPrint setting_up_message] ++ tg ++ EPrint deploying_message :: tv
              = ([EPrint setting_up_message] ++ tg ++ [EPrint deploying_message])
                  ++ tv ++ []) as ->.
      { by rewrite app_nil_r, <- !app_assoc. }
      apply report_lifts.
      * intros [Hin|[Hin|Hin]%elem_of_app]%elem_of_app;
          [cases_elem Hin; discriminate Hin|done|cases_elem Hin; discriminate Hin].
      * apply not_elem_of_nil.
      * rewrite app_nil_r.
        intros argv r [Hin|[Hin|Hin]%elem_of_app]%elem_of_app Hargv;
          [cases_elem Hin; discriminate Hin| |cases_elem Hin; discriminate Hin].
        apply list_elem_of_singleton in Hargv as ->.
        apply Hnv, elem_of_runs_of. eauto.
      * rewrite Forall_singleton. apply (vercel_block_report env _ _ _ _ _ Hv).
Qed.

(** X7. The commands of a call of [setup_git_and_deploy] are run without
    gaps: the first one to six of [git init], [git add], [git commit],
    [gh repo create], [git remote add] and [git push], in that order, and
    then the deployment command.  The deployment command is left out only
    when one of the three git commands raised something that is not an
    [Exception], which ends the call there. *)
Theorem commands_form_a_prefix env s h :
  let '(r, _, t) := setup_git_and_deploy env s h in
  exists k, (1 <= k <= 6)%nat /\
    (runs_of t = take k (repository_commands (project_name s)) ++ [vercel_command] \/
     ((k <= 3)%nat /\ (exists e, r = Raise e /\ is_Exception e = false) /\
      runs_of t = take k (repository_commands (project_name s)))).
Proof.
  rewrite setup_git_and_deploy_unfold.
  destruct (git_block env s (h ++ [EPrint setting_up_message])) as [[rg sg] tg] eqn:Hg.
  destruct (git_block_runs env _ _ _ _ _ Hg) as (k & Hk & Hruns & Hr).
  destruct rg as [[]|eg].
  - destruct (vercel_block env sg _) as [[rv sv] tv] eqn:Hv.
    apply vercel_block_handlers in Hv as (_ & t' & -> & Hp & _).
    exists k. split; [done|]. left.
    change (runs_of (EPrint setting_up_message :: tg
                       ++ EPrint deploying_message :: ERun vercel_command _ :: t'))
      with (runs_of (tg ++ EPrint deploying_message :: ERun vercel_command
                             (on_run env
                                (((h ++ [EPrint setting_up_message]) ++ tg)
                                   ++ [EPrint deploying_message]) vercel_command) :: t')).
    rewrite runs_of_app, Hruns. simpl. by rewrite (prints_only_runs_of t').
  - destruct Hr as [Hk3 He]. exists k. split; [done|]. right.
    split; [done|]. split; [by exists eg|]. exact Hruns.
Qed.

(** X9. The line with the live address.  When a call of
    [setup_git_and_deploy] prints it, the deployment command has ended
    with status 0, the address shown is the first line of its output that
    holds both [https://] and [vercel.app], with the white space around it
    removed, the line comes right after the line that reports the
    deployment and ends the call, which returns; no such line is printed
    anywhere before. *)
Theorem live_url_is_the_first_match env s h x :
  EPrint (url_prefix +:+ x) ∈ (setup_git_and_deploy env s h).2 ->
  exists t0 cp pre line post,
    setup_git_and_deploy env s h =
      (Ok tt, s,
       t0 ++ [ERun vercel_command (Ok cp); EPrint deployed_message;
              EPrint (url_prefix +:+ x)]) /\
    returncode cp = 0%Z /\
    split_on (ascii_of_nat 10) (stdout cp) = pre ++ line :: post /\
    Forall (fun l => is_url_line l = false) pre /\
    is_url_line line = true /\
    x = strip line /\
    forall y, EPrint (url_prefix +:+ y) ∉ t0.
Proof.
  rewrite setup_git_and_deploy_unfold.
  destruct (git_block env s (h ++ [EPrint setting_up_message])) as [[rg sg] tg] eqn:Hg.
  destruct (git_block_handlers env _ _ _ _ _ Hg) as (-> & _).
  destruct (git_block_prints env _ _ _ _ _ Hg) as [_ Hurl].
  destruct rg as [[]|eg].
  2: { cbn [snd]. intros Hin. apply elem_of_cons in Hin as [Hin|Hin];
         [discriminate Hin|by apply Hurl in Hin]. }
  set (h1 := ((h ++ [EPrint setting_up_message]) ++ tg) ++ [EPrint deploying_message]).
  pose proof (vercel_block_cases env s h1) as Hcases. cbv zeta in Hcases.
  assert (forall y, EPrint (url_prefix +:+ y)
                      ∉ EPrint setting_up_message :: tg ++ [EPrint deploying_message])
    as Hbefore.
  { intros y Hin. apply elem_of_cons in Hin as [Hin|Hin]; [discriminate Hin|].
    apply elem_of_app in Hin as [Hin|Hin]; [by apply Hurl in Hin|].
    cases_elem Hin. discriminate Hin. }
  assert (forall tv, EPrint (url_prefix +:+ x)
                       ∈ EPrint setting_up_message :: tg ++ EPrint deploying_message :: tv ->
                     EPrint (url_prefix +:+ x) ∈ tv) as Hlast.
  { intros tv Hin.
    change (EPrint setting_up_message :: tg ++ EPrint deploying_message :: tv)
      with (EPrint setting_up_message :: tg ++ [EPrint deploying_message] ++ tv) in Hin.
    rewrite app_assoc, app_comm_cons in Hin.
    apply elem_of_app in Hin as [Hin|Hin]; [by apply Hbefore in Hin|done]. }
  destruct (on_run env h1 vercel_command) as [cp|e].
  - destruct (returncode cp =? 0)%Z eqn:Hz.
    + apply Z.eqb_eq in Hz.
      destruct Hcases as [[-> _]|(pre & line & post & Hsplit & Hpre & Hline & ->)];
        cbn [snd]; intros Hin%Hlast; cases_elem Hin; try discriminate Hin.
      injection Hin as Hx.
      assert (x = strip line) as -> by exact Hx.
      exists (EPrint setting_up_message :: tg ++ [EPrint deploying_message]),
        cp, pre, line, post.
      split_and!; try done.
      by rewrite <- app_comm_cons, <- app_assoc.
    + rewrite Hcases. cbn [snd]. intros Hin%Hlast. cases_elem Hin; discriminate Hin.
  - rewrite Hcases. destruct (is_FileNotFoundError e); cbn [snd]; intros Hin%Hlast;
      cases_elem Hin; discriminate Hin.
Qed.

Lemma live_url_is_the_first_match_witness :
  exists t0 cp pre line post,
    setup_git_and_deploy env_all_ok QuickSetup_init [] =
      (Ok tt, QuickSetup_init,
       t0 ++ [ERun vercel_command (Ok cp); EPrint deployed_message;
              EPrint (url_prefix
                        +:+ "Production: https://autonomous-revenue-system.vercel.app [2s]")]) /\
    returncode cp = 0%Z /\
    split_on (ascii_of_nat 10) (stdout cp) = pre ++ line :: post /\
    Forall (fun l => is_url_line l = false) pre /\
    is_url_line line = true /\
    "Production: https://autonomous-revenue-system.vercel.app [2s]" = strip line /\
    forall y, EPrint (url_prefix +:+ y) ∉ t0.
Proof.
  apply (live_url_is_the_first_match env_all_ok QuickSetup_init []).
  vm_compute. find_elem.
Defined.

(** ** A run whose files step fails *)

(** X12. When a file of the mapping cannot be written, by an [Exception]
    of whatever class, the run ends there: [run_setup] prints the line
    that names the error and the line that asks to try again and returns
    [False]; it has run no command, neither git nor the deployment, and
    the summary is not printed. *)
Theorem file_failure_ends_the_run env s h s1 t1 e s2 t2 :
  let h1 := ((h ++ t1) ++ [EPrint starting_message]) ++ [EPrint separator_line] in
  print_banner env s h = (Ok tt, s1, t1) ->
  create_all_files env s1 h1 = (Raise e, s2, t2) ->
  is_Exception e = true ->
  run_setup env s h =
    (Ok false, s2,
     (t1 ++ [EPrint starting_message; EPrint separator_line]) ++ t2
       ++ [EPrint (failed_message env e); EPrint check_message]) /\
  runs_of (run_setup env s h).2 = [] /\
  EPrint summary_text ∉ (run_setup env s h).2.
Proof.
  intros h1 Hb Hf He.
  assert (run_setup env s h =
          (Ok false, s2,
           (t1 ++ [EPrint starting_message; EPrint separator_line]) ++ t2
             ++ [EPrint (failed_message env e); EPrint check_message])) as Hrun.
  { rewrite run_setup_unfold, Hb. cbv zeta. fold h1. rewrite Hf.
    unfold run_setup_except.
    destruct e; try discriminate He; cbn [is_KeyboardInterrupt is_Exception];
      by rewrite <- !app_assoc. }
  split; [exact Hrun|]. rewrite Hrun. cbn [snd].
  pose proof (runs_print_banner env s h) as Rb.
  pose proof (runs_create_all_files env s1 h1) as Rf.
  pose proof (steps_print_banner env s h) as Sb.
  pose proof (steps_create_all_files env s1 h1) as Sf.
  rewrite Hb in Rb, Sb. rewrite Hf in Rf, Sf. cbn [snd] in Rb, Rf, Sb, Sf.
  split.
  - rewrite !runs_of_app, (paced_no_run _ _ _ Rb), (paced_no_run _ _ _ Rf) by lia.
    reflexivity.
  - intros [[Hin|Hin]%elem_of_app|[Hin|Hin]%elem_of_app]%elem_of_app.
    + by apply (summary_absent _ _ _ Sb); [lia|].
    + cases_elem Hin; discriminate Hin.
    + by apply (summary_absent _ _ _ Sf); [lia|].
    + cases_elem Hin; [|discriminate Hin].
      destruct e; discriminate Hin.
Qed.

Lemma file_failure_ends_the_run_witness :
  (run_setup env_status_denied QuickSetup_init []).1.1 = Ok false /\
  runs_of (run_setup env_status_denied QuickSetup_init []).2 = [] /\
  EPrint summary_text ∉ (run_setup env_status_denied QuickSetup_init []).2.
Proof.
  destruct (file_failure_ends_the_run env_status_denied QuickSetup_init []
              QuickSetup_init [EPrint banner_text; EInput (Ok "")]
              (OtherException "PermissionError"
                 "[Errno 13] Permission denied: 'api/status.py'")
              (create_all_files env_status_denied QuickSetup_init
                 [EPrint banner_text; EInput (Ok ""); EPrint starting_message;
                  EPrint separator_line]).1.2
              (create_all_files env_status_denied QuickSetup_init
                 [EPrint banner_text; EInput (Ok ""); EPrint starting_message;
                  EPrint separator_line]).2)
    as (Hrun & Hruns & Hsum).
  - reflexivity.
  - vm_compute. reflexivity.
  - reflexivity.
  - split; [|split; [exact Hruns|exact Hsum]].
    rewrite Hrun. reflexivity.
Defined.

(** * The run as a whole *)

(** ** Where the answers come from *)

Section Answers.
Variable env : Env.

Local Abbreviation answered := (emits (Forall (from_env env))).

Lemma answered_bind {S A B} (m : Py S A) (k : A -> Py S B) :
  answered m -> (forall a, answered (k a)) -> answered (bind m k).
Proof.
  intros Hm Hk.
  apply (emits_bind (Forall (from_env env)) (Forall (from_env env))); [done..| |]; [done|].
  intros t1 t2 H1 H2. by apply Forall_app.
Qed.

Lemma answered_try {S A} (m : Py S A) clauses :
  answered m -> Forall (fun c => forall e, answered (c.2 e)) clauses ->
  answered (try_except m clauses).
Proof.
  intros Hm Hc.
  apply (emits_try (Forall (from_env env)) (Forall (from_env env))); [done..| |]; [done|].
  intros t1 t2 H1 H2. by apply Forall_app.
Qed.

Lemma answered_print {S} x : answered (print (S:=S) x).
Proof. apply emits_print. by repeat constructor. Qed.

Lemma answered_run {S} argv check : answered (subprocess_run (S:=S) env argv check).
Proof. intros s h. repeat constructor. by exists h. Qed.

Lemma answered_git_block : answered (git_block env).
Proof.
  unfold git_block.
  apply answered_try; [|by repeat constructor; intros; apply answered_print].
  repeat (apply answered_bind; [first [apply answered_run|apply answered_print]|intros ?]).
  apply answered_try; [|by repeat constructor; intros; apply answered_print].
  apply answered_bind; [by apply emits_get_self|intros ?].
  apply answered_bind; [apply answered_run|intros ?].
  apply answered_bind; [by apply emits_get_self|intros ?].
  repeat (apply answered_bind; [apply answered_run|intros ?]).
  apply answered_print.
Qed.

End Answers.

(** ** Runs that go through *)

Lemma checked_Raise_inv argv r e :
  checked argv r = Raise e -> r = Raise e \/ is_Exception e = true.
Proof.
  destruct r as [cp|e']; simpl.
  - destruct (returncode cp =? 0)%Z; [discriminate|]. intros [= <-]. by right.
  - intros [= <-]. by left.
Qed.

Lemma git_block_returns env s h :
  failures_contained env -> (git_block env s h).1.1 = Ok tt.
Proof.
  intros [Hgit _].
  pose proof (answered_git_block env s h) as Hans.
  destruct (git_block env s h) as [[r s'] t] eqn:Hg. cbn [fst snd] in *.
  destruct (git_block_handlers env _ _ _ _ _ Hg) as (_ & _ & _ & Hraise & _).
  destruct r as [[]|e]; [done|]. exfalso.
  destruct (Hraise e eq_refl) as (Hne & argv & r' & Hargv & Hin & Hchk).
  apply checked_Raise_inv in Hchk as [->|He]; [|congruence].
  rewrite Forall_forall in Hans. destruct (Hans _ Hin) as [h' Hh'].
  symmetry in Hh'. apply Hgit in Hh'; [congruence|done].
Qed.

Lemma setup_git_and_deploy_returns env s h :
  failures_contained env -> (setup_git_and_deploy env s h).1.1 = Ok tt.
Proof.
  intros Hc. rewrite setup_git_and_deploy_unfold.
  pose proof (git_block_returns env s (h ++ [EPrint setting_up_message]) Hc) as Hg.
  destruct (git_block env s (h ++ [EPrint setting_up_message])) as [[rg sg] tg].
  cbn [fst] in Hg. subst rg.
  match goal with
  | |- context [vercel_block env sg ?h1] =>
      pose proof (vercel_block_cases env sg h1) as Hv; cbv zeta in Hv;
      destruct (on_run env h1 vercel_command) as [cp|e] eqn:Ha
  end.
  - destruct (returncode cp =? 0)%Z.
    + by destruct Hv as [[-> _]|(pre & line & post & _ & _ & _ & ->)].
    + by rewrite Hv.
  - destruct Hc as [_ Hvercel]. rewrite (Hvercel _ _ Ha) in Hv. by rewrite Hv.
Qed.

Lemma print_banner_returns env s h x :
  on_input env (h ++ [EPrint banner_text]) = Ok x ->
  print_banner env s h = (Ok tt, s, [EPrint banner_text; EInput (Ok x)]).
Proof. intros Hin. by rewrite print_banner_cases, Hin. Qed.

(** With an answer at the prompt, a file system that goes along and
    tools whose failures are contained, the run goes through. *)
Lemma run_setup_completes env s h x :
  on_input env (h ++ [EPrint banner_text]) = Ok x ->
  files_writable env -> failures_contained env ->
  (run_setup env s h).1.1 = Ok true.
Proof.
  intros Hin (Hmkdir & Hopen & Hwrite) Hc.
  rewrite run_setup_unfold, (print_banner_returns _ _ _ _ Hin). cbv zeta.
  match goal with
  | |- context [create_all_files env s ?h1] =>
      pose proof (create_all_files_completes env s h1 Hmkdir Hopen Hwrite) as Hf;
      destruct (create_all_files env s h1) as [[rf s2] t2]
  end. cbn [fst] in Hf. subst rf.
  match goal with
  | |- context [setup_git_and_deploy env s2 ?h2] =>
      pose proof (setup_git_and_deploy_returns env s2 h2 Hc) as Hg;
      destruct (setup_git_and_deploy env s2 h2) as [[rg s3] t3]
  end. cbn [fst] in Hg. by subst rg.
Qed.

Lemma run_setup_except_not_true env e s t :
  (run_setup_except env e s t).1.1 <> Ok true.
Proof. unfold run_setup_except. by destruct e. Qed.

(** ** The commands of a run *)

Lemma setup_git_and_deploy_runs env s h r s' t :
  setup_git_and_deploy env s h = (r, s', t) ->
  exists k, (1 <= k <= 6)%nat /\
    (runs_of t = take k (repository_commands (project_name s)) ++ [vercel_command] \/
     ((k <= 3)%nat /\ (exists e, r = Raise e) /\
      runs_of t = take k (repository_commands (project_name s)))).
Proof.
  rewrite setup_git_and_deploy_unfold.
  destruct (git_block env s (h ++ [EPrint setting_up_message])) as [[rg sg] tg] eqn:Hg.
  destruct (git_block_runs env _ _ _ _ _ Hg) as (k & Hk & Hruns & Hr).
  destruct rg as [[]|eg].
  - destruct (vercel_block env sg _) as [[rv sv] tv] eqn:Hv.
    apply vercel_block_handlers in Hv as (_ & t' & -> & Hp & _).
    intros [= <- <- <-]. exists k. split; [done|]. left.
    rewrite app_comm_cons, runs_of_app. simpl. rewrite Hruns.
    by rewrite (prints_only_runs_of t').
  - intros [= <- <- <-]. destruct Hr as [Hk3 He]. exists k. split; [done|]. right.
    split; [done|]. split; [by exists eg|]. exact Hruns.
Qed.

Lemma run_setup_commands env s h :
  let '(r, _, t) := run_setup env s h in
  (runs_of t = [] /\ r <> Ok true) \/
  exists k, (1 <= k <= 6)%nat /\
    (runs_of t = take k (repository_commands (project_name s)) ++ [vercel_command] \/
     ((k <= 3)%nat /\ r <> Ok true /\
      runs_of t = take k (repository_commands (project_name s)))).
Proof.
  rewrite run_setup_unfold.
  pose proof (paced_no_run _ _ _ (runs_print_banner env s h)) as Hb.
  pose proof (keeps_print_banner env s h) as Hs1.
  destruct (print_banner env s h) as [[[[]|e] s1] t1]; cbn [fst snd] in Hb, Hs1; subst s1.
  2: { pose proof (run_setup_except_not_true env e s t1) as Hnt.
       pose proof (runs_of_except env e s t1) as Hre.
       destruct (run_setup_except env e s t1) as [[r s'] t]. cbn [fst snd] in *.
       left. rewrite Hre, Hb by lia. done. }
  cbv zeta.
  match goal with
  | |- context [create_all_files env s ?h1] =>
      pose proof (paced_no_run _ _ _ (runs_create_all_files env s h1)) as Hf;
      pose proof (create_all_files_state env s h1) as Hs2;
      destruct (create_all_files env s h1) as [[[[]|e] s2] t2]
  end; cbn [fst snd] in Hf, Hs2; subst s2.
  2: { match goal with
       | |- context [run_setup_except env e ?s0 ?t0] =>
           pose proof (run_setup_except_not_true env e s0 t0) as Hnt;
           pose proof (runs_of_except env e s0 t0) as Hre;
           destruct (run_setup_except env e s0 t0) as [[r s'] t]
       end. cbn [fst snd] in *.
       left. rewrite Hre, !runs_of_app, Hb, Hf by lia. done. }
  destruct (setup_git_and_deploy env (with_files s file_table) _) as [[rg s3] t3] eqn:Hg.
  apply setup_git_and_deploy_runs in Hg as (k & Hk & Hruns).
  cbn [project_name with_files] in Hruns.
  destruct rg as [[]|e].
  - right. exists k. split; [done|].
    destruct Hruns as [Hruns|(_ & [e He] & _)]; [|discriminate He].
    left. rewrite !runs_of_app, Hb, Hf, Hruns by lia. simpl. by rewrite app_nil_r.
  - match goal with
    | |- context [run_setup_except env e ?s0 ?t0] =>
        pose proof (run_setup_except_not_true env e s0 t0) as Hnt;
        pose proof (runs_of_except env e s0 t0) as Hre;
        destruct (run_setup_except env e s0 t0) as [[r s'] t]
    end. cbn [fst snd] in *.
    right. exists k. split; [done|].
    rewrite Hre, !runs_of_app, Hb, Hf by lia. simpl.
    destruct Hruns as [Hruns|(Hk3 & _ & Hruns)]; [by left|right; by split_and!].
Qed.

(** ** The order of the steps *)

(** C2. In a run of [run_setup], whatever the environment answers, every
    event other than a progress line belongs to one of the six listed
    steps (the banner with its prompt, the files of the mapping, the three
    git commands, the three GitHub commands, the deployment command, the
    summary), and the steps of the events never go back: banner, files,
    git, GitHub, deployment, summary.  Every run starts with the banner.
    The commands of a run are none at all, when the run ended before the
    git step, or else the first one to six of the six git and GitHub
    commands in their order, followed by the deployment command unless an
    exception ended the run in the git step.  A run that returns [True]
    has gone through the banner, the files, git, the deployment and the
    summary; and the run does return [True], with all of these done, when
    the prompt is answered, the file system goes along and the tools fail
    only in the ways the handlers catch. *)
Theorem run_setup_step_order env s h :
  let '(r, _, t) := run_setup env s h in
  Forall listed t /\
  StronglySorted le (omap step_key t) /\
  (r = Ok true ->
   forall st, st ∈ [Banner; Files; Git; Vercel; Summary] -> st ∈ omap step_of t) /\
  (exists t', t = EPrint banner_text :: t') /\
  ((runs_of t = [] /\ r <> Ok true) \/
   exists k, (1 <= k <= 6)%nat /\
     (runs_of t = take k (repository_commands (project_name s)) ++ [vercel_command] \/
      ((k <= 3)%nat /\ r <> Ok true /\
       runs_of t = take k (repository_commands (project_name s))))) /\
  ((exists x, on_input env (h ++ [EPrint banner_text]) = Ok x) ->
   files_writable env -> failures_contained env -> r = Ok true).
Proof.
  pose proof (steps_run_setup env s h) as (Hl & Hs & _).
  pose proof (run_setup_commands env s h) as Hcmds.
  assert (exists t', (run_setup env s h).2 = EPrint banner_text :: t') as Hstart.
  { rewrite run_setup_unfold.
    destruct (print_banner_starts env s h) as [t' Ht'].
    destruct (print_banner env s h) as [[[[]|e] s1] t1]; cbn [snd] in Ht'; subst t1.
    - cbv zeta.
      destruct (create_all_files env s1 _) as [[[[]|e] s2] t2].
      + destruct (setup_git_and_deploy env s2 _) as [[[[]|e] s3] t3].
        * by eexists.
        * match goal with
          | |- context [run_setup_except env e s3 ?t0] =>
              destruct (run_setup_except_trace env e s3 t0) as (tail & -> & _)
          end. by eexists.
      + match goal with
        | |- context [run_setup_except env e s2 ?t0] =>
            destruct (run_setup_except_trace env e s2 t0) as (tail & -> & _)
        end. by eexists.
    - destruct (run_setup_except_trace env e s1 (EPrint banner_text :: t'))
        as (tail & -> & _). by eexists. }
  assert ((exists x, on_input env (h ++ [EPrint banner_text]) = Ok x) ->
          files_writable env -> failures_contained env ->
          (run_setup env s h).1.1 = Ok true) as Hlive.
  { intros [x Hx]. by apply run_setup_completes with x. }
  destruct (run_setup env s h) as [[r s'] t] eqn:Hrun. cbn [fst snd] in *.
  split; [done|]. split; [done|]. split; [|done].
  intros -> st Hst.
  apply run_setup_true_inv in Hrun
    as (s1 & t1 & s2 & t2 & t3 & Hb & Hf & Hg & ->).
  apply list_elem_of_omap.
  cases_elem Hst; subst st.
  - destruct (print_banner_starts env s h) as [t' Ht']. rewrite Hb in Ht'.
    simpl in Ht'. subst t1. exists (EPrint banner_text). split; [left|].
    unfold step_of. by rewrite bool_decide_eq_true_2.
  - apply create_all_files_returns in Hf as (_ & _ & -> & _).
    exists (EOpen "api/launch.py" "w" (Ok tt)). split; [|reflexivity].
    apply elem_of_app. right. apply elem_of_app. right. apply elem_of_app. left.
    right. right. left.
  - rewrite setup_git_and_deploy_unfold in Hg.
    destruct (git_block_starts env s2
                (((((h ++ t1) ++ [EPrint starting_message]) ++ [EPrint separator_line]) ++ t2)
                   ++ [EPrint setting_up_message])) as (r0 & t' & Ht').
    destruct (git_block env s2 _) as [[[[]|e] sg] tg]; [|discriminate Hg].
    simpl in Ht'. subst tg.
    destruct (vercel_block env sg _) as [[rv sv] tv].
    injection Hg as _ _ <-.
    exists (ERun ["git"; "init"] r0). split; [|reflexivity].
    apply elem_of_app. right. apply elem_of_app. right. apply elem_of_app. right.
    apply elem_of_app. left. right. left.
  - rewrite setup_git_and_deploy_unfold in Hg.
    destruct (git_block env s2 _) as [[[[]|e] sg] tg]; [|discriminate Hg].
    destruct (vercel_block env sg _) as [[rv sv] tv] eqn:Hv.
    apply vercel_block_handlers in Hv as (_ & tv' & -> & _).
    injection Hg as _ _ <-.
    eexists (ERun vercel_command _). split; [|reflexivity].
    apply elem_of_app. right. apply elem_of_app. right. apply elem_of_app. right.
    apply elem_of_app. left. right. apply elem_of_app. right. right. left.
  - exists (EPrint summary_text). split.
    + apply elem_of_app. right. apply elem_of_app. right. apply elem_of_app. right.
      apply elem_of_app. right. left.
    + unfold step_of. rewrite bool_decide_eq_false_2 by (by vm_compute).
      by rewrite bool_decide_eq_true_2.
Qed.

Lemma run_setup_step_order_witness :
  (run_setup env_all_ok QuickSetup_init []).1.1 = Ok true /\
  (forall st, st ∈ [Banner; Files; Git; Vercel; Summary] ->
              st ∈ omap step_of (run_setup env_all_ok QuickSetup_init []).2) /\
  runs_of (run_setup env_all_ok QuickSetup_init []).2
  = repository_commands "autonomous-revenue-system" ++ [vercel_command].
Proof.
  pose proof (run_setup_step_order env_all_ok QuickSetup_init []) as Horder.
  destruct (run_setup env_all_ok QuickSetup_init []) as [[r s'] t] eqn:Hrun.
  destruct Horder as (_ & _ & Hsteps & _ & _ & Hlive). cbn [fst snd].
  assert (r = Ok true) as Hr.
  { apply Hlive.
    - by exists "".
    - by split_and!.
    - split; intros; discriminate. }
  split; [exact Hr|]. split; [exact (Hsteps Hr)|].
  apply (f_equal (fun x => runs_of x.2)) in Hrun. cbn [snd] in Hrun. rewrite <- Hrun.
  vm_compute. reflexivity.
Defined.

(** ** The mapping, built once *)

Lemma opened_file_events l : opened (flat_map file_events l) = l.*1.
Proof.
  induction l as [|item l IH]; [done|]. simpl. rewrite opened_app, IH.
  unfold file_events. by destruct (truthy (dirname item.1)).
Qed.

Lemma opened_prints_only t : prints_only t -> opened t = [].
Proof. induction 1 as [|[] t He _ IH]; simpl; try done. Qed.

Lemma run_setup_opens_all env s h x :
  on_input env (h ++ [EPrint banner_text]) = Ok x ->
  files_writable env ->
  opened (run_setup env s h).2 = file_table.*1.
Proof.
  intros Hin (Hmkdir & Hopen & Hwrite).
  rewrite run_setup_unfold, (print_banner_returns _ _ _ _ Hin). cbv zeta.
  match goal with
  | |- context [create_all_files env s ?h1] =>
      pose proof (create_all_files_completes env s h1 Hmkdir Hopen Hwrite) as Hf;
      destruct (create_all_files env s h1) as [[rf s2] t2] eqn:Hfiles
  end. cbn [fst] in Hf. subst rf.
  apply create_all_files_returns in Hfiles as (_ & _ & -> & _).
  match goal with
  | |- context [setup_git_and_deploy env s2 ?h2] =>
      pose proof (paced_no_open _ _ _ (steps_setup_git_and_deploy env s2 h2)) as Hg;
      destruct (setup_git_and_deploy env s2 h2) as [[[[]|e] s3] t3]
  end; cbn [snd] in Hg.
  - cbn [snd]. rewrite !opened_app, opened_file_events, Hg by lia.
    simpl. by rewrite ?app_nil_r.
  - match goal with
    | |- context [run_setup_except env e s3 ?t0] =>
        destruct (run_setup_except_trace env e s3 t0) as (tail & -> & Htail)
    end.
    rewrite !opened_app, opened_file_events, Hg, (opened_prints_only tail) by (done || lia).
    simpl. by rewrite ?app_nil_r.
Qed.

(** C5. The mapping is set by [create_all_files], always to the same
    sixteen entries, and by nothing else: the banner, the git and
    deployment step and the summary leave the object as it is.  So a run
    of [run_setup] ends with the object as it found it (when the banner
    step did not return) or with exactly that mapping, and with the
    latter whenever a file was opened.  No file is ever opened except for
    writing, and the paths opened are, in order and without repetition,
    the first paths of the mapping: once written, a file is not opened
    again, neither to read it back nor to change it.  A run whose prompt
    is answered does build the mapping; when also the file system goes
    along, it opens every path of the mapping, each once, in the order of
    the mapping.  Beside its own files the run touches the outside only
    through the seven commands it starts; what these do with the working
    directory is theirs. *)
Theorem mapping_built_once env s h :
  keeps_self (print_banner env) /\
  (create_all_files env s h).1.2 = with_files s file_table /\
  keeps_self (setup_git_and_deploy env) /\
  keeps_self print_completion_summary /\
  let '(_, s', t) := run_setup env s h in
  (s' = s \/ s' = with_files s file_table) /\
  (opened t <> [] -> s' = with_files s file_table) /\
  Forall opens_for_writing t /\
  opened t `prefix_of` file_table.*1 /\
  NoDup (opened t) /\
  Forall known_run t /\
  ((exists x, on_input env (h ++ [EPrint banner_text]) = Ok x) ->
   s' = with_files s file_table /\
   files_to_create s' = file_table /\
   (files_writable env -> opened t = file_table.*1)).
Proof.
  split; [apply keeps_print_banner|].
  split; [apply create_all_files_state|].
  split; [apply keeps_setup_git_and_deploy|].
  split; [apply keeps_print_completion_summary|].
  pose proof (run_setup_state env s h) as Hstate.
  pose proof (run_setup_opened env s h) as Hopened.
  pose proof (steps_run_setup env s h) as (Hlisted & _).
  pose proof (runs_run_setup env s h) as (Hknown & _).
  assert ((exists x, on_input env (h ++ [EPrint banner_text]) = Ok x) ->
          (run_setup env s h).1.2 = with_files s file_table /\
          (files_writable env -> opened (run_setup env s h).2 = file_table.*1)) as Hbuilt.
  { intros [x Hx]. split.
    - rewrite Hstate. by rewrite (print_banner_returns _ _ _ _ Hx).
    - intros Hfs. by apply run_setup_opens_all with x. }
  destruct (run_setup env s h) as [[r s'] t]. simpl in *.
  assert (opened t `prefix_of` file_table.*1) as Hprefix.
  { destruct (print_banner env s h) as [[[a|e] s1] t1]; [done|].
    rewrite Hopened. apply prefix_nil. }
  split_and!.
  - destruct (print_banner env s h) as [[[a|e] s1] t1]; auto.
  - intros Hne. by destruct (print_banner env s h) as [[[a|e] s1] t1].
  - eapply Forall_impl; [exact Hlisted|]. apply listed_opens_for_writing.
  - done.
  - destruct Hprefix as [k Hk].
    pose proof file_table_paths_NoDup as Hnd. rewrite Hk in Hnd.
    by apply NoDup_app in Hnd as (? & _).
  - done.
  - intros Hx. destruct (Hbuilt Hx) as [-> Hall]. by split_and!.
Qed.

Lemma mapping_built_once_witness :
  files_to_create (run_setup env_all_ok QuickSetup_init []).1.2 = file_table /\
  opened (run_setup env_all_ok QuickSetup_init []).2 = file_table.*1 /\
  NoDup (opened (run_setup env_all_ok QuickSetup_init []).2).
Proof.
  pose proof (mapping_built_once env_all_ok QuickSetup_init []) as Hm.
  destruct Hm as (_ & _ & _ & _ & Hrun).
  destruct (run_setup env_all_ok QuickSetup_init []) as [[r s'] t].
  destruct Hrun as (_ & _ & _ & _ & Hnd & _ & Hbuilt). cbn [fst snd].
  destruct Hbuilt as (_ & Hfiles & Hall); [by exists ""|].
  split; [exact Hfiles|]. split; [|exact Hnd].
  apply Hall. by split_and!.
Defined.

(** ** The outcome that is reported *)

(** C8, as the code has it.  [run_setup] returns [True], and [main] then
    prints the success message, when the banner step and
    [create_all_files] have returned and no exception leaves
    [setup_git_and_deploy], and only then.  That is the case whenever the
    prompt is answered, the file system goes along and the tools fail
    only in the ways the handlers catch: by a non-zero status, by any
    exception of a GitHub command, by an [Exception] of a git command, by
    [FileNotFoundError] of the deployment command.  A failure that leaves
    [setup_git_and_deploy] changes the outcome: [run_setup] then returns
    [False] and [main] prints the message of errors, or, when the
    exception is neither [KeyboardInterrupt] nor an [Exception], it
    leaves [run_setup] as well. *)
Theorem run_setup_reports_success env h :
  (forall s1 t1 s2 t2 s3 t3,
     let h1 := ((h ++ t1) ++ [EPrint starting_message]) ++ [EPrint separator_line] in
     print_banner env QuickSetup_init h = (Ok tt, s1, t1) ->
     create_all_files env s1 h1 = (Ok tt, s2, t2) ->
     setup_git_and_deploy env s2 (h1 ++ t2) = (Ok tt, s3, t3) ->
     run_setup env QuickSetup_init h =
       (Ok true, s3,
        t1 ++ [EPrint starting_message; EPrint separator_line] ++ t2 ++ t3
           ++ [EPrint summary_text]) /\
     forall s0,
       main env s0 h =
         (Ok true, s3,
          (t1 ++ [EPrint starting_message; EPrint separator_line] ++ t2 ++ t3
              ++ [EPrint summary_text]) ++ [EPrint success_message])) /\
  ((run_setup env QuickSetup_init h).1.1 = Ok true ->
   exists s1 t1 s2 t2 s3 t3,
     let h1 := ((h ++ t1) ++ [EPrint starting_message]) ++ [EPrint separator_line] in
     print_banner env QuickSetup_init h = (Ok tt, s1, t1) /\
     create_all_files env s1 h1 = (Ok tt, s2, t2) /\
     setup_git_and_deploy env s2 (h1 ++ t2) = (Ok tt, s3, t3)) /\
  ((exists x, on_input env (h ++ [EPrint banner_text]) = Ok x) ->
   files_writable env -> failures_contained env ->
   (run_setup env QuickSetup_init h).1.1 = Ok true /\
   forall s0,
     (main env s0 h).1.1 = Ok true /\
     last (main env s0 h).2 = Some (EPrint success_message)) /\
  (forall s1 t1 s2 t2 e s3 t3,
     let h1 := ((h ++ t1) ++ [EPrint starting_message]) ++ [EPrint separator_line] in
     print_banner env QuickSetup_init h = (Ok tt, s1, t1) ->
     create_all_files env s1 h1 = (Ok tt, s2, t2) ->
     setup_git_and_deploy env s2 (h1 ++ t2) = (Raise e, s3, t3) ->
     if is_KeyboardInterrupt e || is_Exception e
     then (run_setup env QuickSetup_init h).1.1 = Ok false /\
          forall s0,
            (main env s0 h).1.1 = Ok false /\
            last (main env s0 h).2 = Some (EPrint errors_message)
     else (run_setup env QuickSetup_init h).1.1 = Raise e /\
          forall s0, (main env s0 h).1.1 = Raise e).
Proof.
  split_and!.
  - intros s1 t1 s2 t2 s3 t3 h1 Hbanner Hfiles Hsetup.
    assert (run_setup env QuickSetup_init h =
            (Ok true, s3,
             t1 ++ [EPrint starting_message; EPrint separator_line] ++ t2 ++ t3
                ++ [EPrint summary_text])) as Hrun.
    { rewrite run_setup_unfold, Hbanner. cbv zeta. fold h1. rewrite Hfiles, Hsetup.
      by rewrite <- !app_assoc. }
    split; [exact Hrun|]. intros s0. by rewrite main_unfold, Hrun.
  - intros Htrue.
    destruct (run_setup env QuickSetup_init h) as [[r s'] t] eqn:Hrun.
    cbn [fst] in Htrue. subst r.
    apply run_setup_true_inv in Hrun as (s1 & t1 & s2 & t2 & t3 & Hb & Hf & Hg & _).
    by exists s1, t1, s2, t2, s', t3.
  - intros [x Hx] Hfs Hc.
    pose proof (run_setup_completes env QuickSetup_init h x Hx Hfs Hc) as Htrue.
    split; [exact Htrue|]. intros s0. rewrite main_unfold.
    destruct (run_setup env QuickSetup_init h) as [[r s'] t].
    cbn [fst] in Htrue. subst r. split; [reflexivity|]. apply last_snoc.
  - intros s1 t1 s2 t2 e s3 t3 h1 Hbanner Hfiles Hsetup.
    assert (run_setup env QuickSetup_init h =
            run_setup_except env e s3
              ((t1 ++ [EPrint starting_message; EPrint separator_line]) ++ t2 ++ t3))
      as Hrun.
    { rewrite run_setup_unfold, Hbanner. cbv zeta. fold h1. by rewrite Hfiles, Hsetup. }
    unfold run_setup_except in Hrun.
    destruct e; cbn [is_KeyboardInterrupt is_Exception orb] in *;
      (split; [by rewrite Hrun|]); intros s0; rewrite main_unfold, Hrun;
      first [ reflexivity | split; [reflexivity|apply last_snoc] ].
Qed.

Lemma run_setup_reports_success_witness :
  (run_setup env_tools_fail QuickSetup_init []).1.1 = Ok true /\
  last (main env_tools_fail QuickSetup_init []).2 = Some (EPrint success_message).
Proof.
  destruct (run_setup_reports_success env_tools_fail []) as (_ & _ & Hlive & _).
  destruct Hlive as [Hrun Hmain].
  - by exists "".
  - by split_and!.
  - split; intros; discriminate.
  - split; [exact Hrun|]. apply (Hmain QuickSetup_init).
Defined.

(** C8 as stated fails in its last clause.  With a deployment command
    that may not be executed, the files are written as in the run where
    every tool succeeds, and yet the outcome reported is another:
    [run_setup] returns [False] instead of [True], and [main] closes with
    the message of errors. *)
Lemma tool_failure_changes_outcome :
  (create_all_files env_vercel_denied QuickSetup_init []).1.1 = Ok tt /\
  (run_setup env_all_ok QuickSetup_init []).1.1 = Ok true /\
  (run_setup env_vercel_denied QuickSetup_init []).1.1 = Ok false /\
  last (main env_vercel_denied QuickSetup_init []).2 = Some (EPrint errors_message).
Proof. split_and!; vm_compute; reflexivity. Qed.

(** ** White space *)

(** [strip] on examples: white space inside a text stays, white space of
    one, two and three bytes at its ends goes. *)
Lemma strip_examples :
  strip "x ab" = "x ab" /\
  strip "a  b" = "a  b" /\
  strip "  Deployed https://my-app.vercel.app in 2s  "
  = "Deployed https://my-app.vercel.app in 2s" /\
  strip (of_bytes [9; 10; 120; 32; 121; 13; 10]%N) = "x y" /\
  strip (of_bytes [194; 160; 120; 32; 32; 121; 227; 128; 128]%N) = "x  y" /\
  strip (of_bytes [226; 128; 168; 195; 169; 32; 226; 128; 139; 194; 133]%N)
  = of_bytes [195; 169; 32; 226; 128; 139]%N /\
  strip "   " = "" /\
  strip "" = "".
Proof. split_and!; vm_compute; reflexivity. Qed.
